(** * NQI lower client: upload worker, heartbeat client and work queue

    A shallow embedding of the three-phase-meter upload client
    (src/main.py, src/api/long_polling_client.py, src/api/api_client.py,
    src/security/hardware_key.py, src/config/config.py,
    src/metadata/meter_data.py) and the properties of its behaviour.

    The program:
    - [Py]       the fragment of Python's dynamic values and arithmetic
                 that [UploadWorker.run] evaluates on a server response;
    - [Meter]    [DataType], [MeterData], [MeterDataManager];
    - [Upload]   [UploadWorker.run] as a writer/exception computation;
    - [Polling]  [LowerLongPollingClient] as a timed transition system
                 interleaved with [stop()] calls of another thread;
    - [Window]   the work queue kept by [LowerComputerWindow], its
                 methods as state/writer computations;
    - [HardwareKey]  [HardwareKeyGenerator.get_machine_id];
    - [Api]      the methods of [APIClient] over the calls they make;
    - [Dialogs]  the file dialogs, [closeEvent] and the request of
                 [register_device].

    Its properties:
    - [UploadFacts]    one result per run, the compression ratio;
    - [PollingFacts]   the loop ends only by [stop()], how long that takes;
    - [WindowFacts]    adding, selecting, the aggregate check, connecting;
    - [ShutdownFacts]  the departure notices;
    - [HardwareKeyFacts]  what of the address reaches the key;
    - [ApiFacts]       failures, status codes, the upload form;
    - [QueueFacts]     sessions of the window: selection, counters,
                       connections;
    - [PoolFacts]      the rows in flight and the size of the pool;
    - [HeartbeatFacts] where the requests go, what [connected] tells;
    - [DialogFacts]    picking files, closing, registering. *)

From Stdlib Require Import String Ascii List ZArith Lia Bool SpecFloat QArith.
From Stdlib Require Import DecimalString DecimalN.
From Stdlib Require Import HexadecimalString HexadecimalN.
Import ListNotations.

Set Warnings "-register-all".
Open Scope string_scope.
Open Scope Z_scope.

(* ================================================================== *)
(** * Python values                                                   *)
(* ================================================================== *)

Module Py.

(** What [response.json()] can return: the JSON data model as Python
    decodes it.  Floats are IEEE binary64, written in the Standard
    Library's [spec_float]. *)
Inductive value : Type :=
| VNone
| VBool (b : bool)
| VInt (z : Z)
| VFloat (f : spec_float)
| VStr (s : string)
| VList (l : list value)
| VDict (d : list (string * value)).

(** The exceptions that can travel through [UploadWorker.run]. The four
    built-in classes are raised by the interpreter on the operations
    below; [Raised] stands for whatever [APIClient.upload_file] re-raises
    (requests errors, [OSError] of [open], a JSON decoding error ...),
    identified by its class name and its [str()]. *)
Inductive exn : Type :=
| AttributeError
| TypeError
| ZeroDivisionError
| OverflowError
| Raised (cls text : string).

Inductive result (A : Type) : Type :=
| Ok (a : A)
| Raise (e : exn).
Arguments Ok {A} a.
Arguments Raise {A} e.

Definition prec : Z := 53.
Definition emax : Z := 1024.

(** An integer as the exact (not yet rounded) binary rational it is. *)
Definition exact_of_int (z : Z) : spec_float :=
  match z with
  | Z0 => S754_zero false
  | Zpos p => S754_finite false p 0
  | Zneg p => S754_finite true p 0
  end.

(** [float(z)]: round to nearest even; [OverflowError] past the range. *)
Definition float_of_int (z : Z) : result spec_float :=
  match binary_normalize prec emax z 0 false with
  | S754_infinity _ => Raise OverflowError
  | f => Ok f
  end.

Definition is_zero (f : spec_float) : bool :=
  match f with S754_zero _ => true | _ => false end.

(** Numbers: [bool] is a subclass of [int]. *)
Inductive number : Type :=
| NInt (z : Z)
| NFloat (f : spec_float).

Definition as_number (v : value) : option number :=
  match v with
  | VBool b => Some (NInt (if b then 1 else 0))
  | VInt z => Some (NInt z)
  | VFloat f => Some (NFloat f)
  | _ => None
  end.

Definition to_float (n : number) : result spec_float :=
  match n with
  | NInt z => float_of_int z
  | NFloat f => Ok f
  end.

Definition bind {A B} (r : result A) (k : A -> result B) : result B :=
  match r with
  | Ok a => k a
  | Raise e => Raise e
  end.

(** [obj.get(key, default)]: only a dict has the method. *)
Fixpoint lookup (key : string) (d : list (string * value)) : option value :=
  match d with
  | [] => None
  | (k, v) :: d' => if String.eqb k key then Some v else lookup key d'
  end.

Definition get (obj : value) (key : string) (default : value) : result value :=
  match obj with
  | VDict d =>
      match lookup key d with
      | Some v => Ok v
      | None => Ok default
      end
  | _ => Raise AttributeError
  end.

(** [x > 0] with the literal int [0]. *)
Definition gt_zero (x : value) : result bool :=
  match as_number x with
  | Some (NInt z) => Ok (0 <? z)
  | Some (NFloat f) => Ok (SFltb (S754_zero false) f)
  | None => Raise TypeError
  end.

(** [x - y]. *)
Definition sub (x y : value) : result value :=
  match as_number x, as_number y with
  | Some (NInt a), Some (NInt b) => Ok (VInt (a - b))
  | Some a, Some b =>
      bind (to_float a) (fun fa =>
      bind (to_float b) (fun fb =>
      Ok (VFloat (SFsub prec emax fa fb))))
  | _, _ => Raise TypeError
  end.

(** [x / y], true division: on two ints the correctly rounded quotient
    of the exact operands, otherwise the IEEE quotient of the operands
    converted to float. *)
Definition truediv (x y : value) : result spec_float :=
  match as_number x, as_number y with
  | Some (NInt a), Some (NInt b) =>
      if b =? 0 then Raise ZeroDivisionError
      else match SFdiv prec emax (exact_of_int a) (exact_of_int b) with
           | S754_infinity _ => Raise OverflowError
           | q => Ok q
           end
  | Some a, Some b =>
      bind (to_float a) (fun fa =>
      bind (to_float b) (fun fb =>
      if is_zero fb then Raise ZeroDivisionError
      else Ok (SFdiv prec emax fa fb)))
  | _, _ => Raise TypeError
  end.

(** [f * n] for a float [f] and an int [n]. *)
Definition fmul_int (f : spec_float) (n : Z) : result spec_float :=
  bind (float_of_int n) (fun fn => Ok (SFmul prec emax f fn)).

(** The rational a finite float denotes ([None] for NaN and infinities). *)
Definition to_Q (f : spec_float) : option Q :=
  match f with
  | S754_zero _ => Some 0%Q
  | S754_finite s m e =>
      let q := (inject_Z (Zpos m) * Qpower 2 e)%Q in
      Some (if s then Qopp q else q)
  | _ => None
  end.

End Py.

(* ================================================================== *)
(** * Meter data (src/metadata/meter_data.py)                         *)
(* ================================================================== *)

Module Meter.

Inductive DataType : Type := EXCEL | IMAGE.

Definition DataType_eqb (a b : DataType) : bool :=
  match a, b with
  | EXCEL, EXCEL | IMAGE, IMAGE => true
  | _, _ => false
  end.

(** [file_path] is kept as [str(file_path)]; [timestamp] is an opaque
    instant. *)
Record MeterData : Type := mkMeterData {
  data_type : DataType;
  file_path : string;
  timestamp : Z;
  description : string;
  file_size : Z
}.

Definition is_excel (m : MeterData) : bool := DataType_eqb (data_type m) EXCEL.
Definition is_image (m : MeterData) : bool := DataType_eqb (data_type m) IMAGE.

Definition EXCEL_EXTENSIONS : list string := [".xlsx"; ".xls"].
Definition IMAGE_EXTENSIONS : list string := [".jpg"; ".jpeg"; ".png"; ".bmp"].

Definition mem (x : string) (l : list string) : bool := existsb (String.eqb x) l.

Section Manager.

(** [Path.suffix], [Path.stem] and [str.lower] of the Python library, and
    the file system: the size of the file at a path, if there is one. *)
Variable path_suffix : string -> string.
Variable path_stem : string -> string.
Variable str_lower : string -> string.
Variable fs : string -> option Z.

(** [MeterDataManager.detect_data_type] *)
Definition detect_data_type (file_path : string) : option DataType :=
  let ext := str_lower (path_suffix file_path) in
  if mem ext EXCEL_EXTENSIONS then Some EXCEL
  else if mem ext IMAGE_EXTENSIONS then Some IMAGE
  else None.

(** [MeterDataManager.create_meter_data], with [MeterData.__post_init__]
    reading the size; [now] is [datetime.now()]. *)
Definition create_meter_data (file_path : string) (description : option string)
    (now : Z) : option MeterData :=
  match fs file_path with
  | None => None
  | Some size =>
      match detect_data_type file_path with
      | None => None
      | Some data_type =>
          let description :=
            match description with
            | Some d => d
            | None =>
                match data_type with
                | EXCEL => "电量数据 - " ++ path_stem file_path
                | IMAGE => "几何量数据 - " ++ path_stem file_path
                end
            end in
          Some {| data_type := data_type; file_path := file_path;
                  timestamp := now; description := description;
                  file_size := size |}
      end
  end.

End Manager.

End Meter.

(* ================================================================== *)
(** * The upload worker (src/main.py, UploadWorker)                   *)
(* ================================================================== *)

Module Upload.
Import Py Meter.

(** The two Qt signals of [UploadWorker.Signals]. *)
Inductive signal : Type :=
| Progress (file_name : string) (percent : Z)
| Finished (file_name : string) (success : bool) (message : string).

Definition is_finished (s : signal) : bool :=
  match s with Finished _ _ _ => true | Progress _ _ => false end.

Definition is_progress (s : signal) : bool := negb (is_finished s).

(** A computation emits signals and either returns or raises. *)
Definition M (A : Type) : Type := (list signal * result A)%type.

Definition ret {A} (a : A) : M A := ([], Ok a).

Definition lift {A} (r : result A) : M A := ([], r).

Definition emit (s : signal) : M unit := ([s], Ok tt).

Definition mbind {A B} (m : M A) (k : A -> M B) : M B :=
  match m with
  | (out, Ok a) => let (out', r) := k a in ((out ++ out')%list, r)
  | (out, Raise e) => (out, Raise e)
  end.

(** [try: body  except Exception as e: handler(e)] *)
Definition try_except {A} (body : M A) (handler : exn -> M A) : M A :=
  match body with
  | (out, Ok a) => (out, Ok a)
  | (out, Raise e) => let (out', r) := handler e in ((out ++ out')%list, r)
  end.

Declare Scope upload_scope.
Delimit Scope upload_scope with upload.
Notation "x <- m ;; k" := (mbind m (fun x => k))
  (at level 61, m at next level, right associativity) : upload_scope.
Notation "m ;; k" := (mbind m (fun _ => k))
  (at level 61, right associativity) : upload_scope.

Definition nl : string := String (ascii_of_nat 10) "".

(** [APIClient.upload_file(device_id, hardware_key, file_path, description)]:
    the decoded JSON body, or the exception it re-raises. *)
Definition APIClient : Type := string -> string -> string -> string -> result value.

Record UploadWorker : Type := mkUploadWorker {
  client : APIClient;
  device_id : string;
  hardware_key : string;
  meter_data : MeterData
}.

(** Line 59: the ratio derived from the two sizes read off the
    response. *)
Definition ratio_of_sizes (original_size compressed_size : value) : result value :=
  bind (gt_zero original_size) (fun positive =>
  if positive then
    bind (sub original_size compressed_size) (fun d =>
    bind (truediv d original_size) (fun q =>
    bind (fmul_int q 100) (fun r => Ok (VFloat r))))
  else Ok (VInt 0)).

Section Run.

(** Library functions the worker calls: [Path.name], [str(v)] inside an
    f-string, the format spec [.Nf], and [str(e)] of an exception. *)
Variable path_name : string -> string.
Variable py_str : value -> string.
Variable fmt_fixed : nat -> spec_float -> string.
Variable exn_str : exn -> string.

(** [f"{v:.Nf}"] *)
Definition format_f (digits : nat) (v : value) : result string :=
  match as_number v with
  | Some n => bind (to_float n) (fun f => Ok (fmt_fixed digits f))
  | None => Raise TypeError
  end.

Local Open Scope upload_scope.

Definition run (self : UploadWorker) : M unit :=
  let file_name := path_name (file_path (meter_data self)) in
  try_except
    (emit (Progress file_name 30) ;;
     result <- lift (client self (device_id self) (hardware_key self)
                       (file_path (meter_data self))
                       (description (meter_data self))) ;;
     emit (Progress file_name 100) ;;
     original_size <- lift (get result "original_size" (VInt 0)) ;;
     compressed_size <- lift (get result "compressed_size" (VInt 0)) ;;
     compression_ratio <- lift (ratio_of_sizes original_size compressed_size) ;;
     file_id <- lift (get result "file_id" VNone) ;;
     let message := "上传成功！文件ID: " ++ py_str file_id ++ nl in
     with_sizes <- (if is_image (meter_data self)
                    then lift (gt_zero compression_ratio)
                    else ret false) ;;
     message <- (if with_sizes : bool then
                   size_mb_before <- lift (truediv original_size (VInt (1024 * 1024))) ;;
                   size_mb_after <- lift (truediv compressed_size (VInt (1024 * 1024))) ;;
                   percent <- lift (format_f 1 compression_ratio) ;;
                   ret (message
                        ++ "原始大小: " ++ fmt_fixed 2 size_mb_before ++ "MB" ++ nl
                        ++ "压缩后: " ++ fmt_fixed 2 size_mb_after ++ "MB" ++ nl
                        ++ "压缩率: " ++ percent ++ "%")
                 else ret message) ;;
     emit (Finished file_name true message))
    (fun e =>
     emit (Progress file_name 0) ;;
     emit (Finished file_name false ("上传失败: " ++ exn_str e))).

(** The pool runs the queued workers; each worker's signals in turn. *)
Definition run_all (workers : list UploadWorker) : list signal :=
  flat_map (fun w => fst (run w)) workers.

End Run.

End Upload.

(* ================================================================== *)
(** * The heartbeat client (src/api/long_polling_client.py)           *)
(* ================================================================== *)

Module Polling.

(** The fields of [LowerLongPollingClient]. *)
Record client : Type := mkClient {
  server_url : string;
  device_id : string;
  hardware_key : string;
  connected : bool;
  running : bool;
  heartbeat_interval : Z;
  retry_interval : Z
}.

(** [s.rstrip('/')] *)
Fixpoint rstrip_slash (s : string) : string :=
  match s with
  | EmptyString => EmptyString
  | String c rest =>
      match rstrip_slash rest with
      | EmptyString => if Ascii.eqb c "/"%char then EmptyString else String c EmptyString
      | rest' => String c rest'
      end
  end.

(** [__init__] *)
Definition init (server_url device_id hardware_key : string) : client :=
  {| server_url := rstrip_slash server_url;
     device_id := device_id;
     hardware_key := hardware_key;
     connected := false;
     running := false;
     heartbeat_interval := 30;
     retry_interval := 5 |}.

Definition set_connected (b : bool) (c : client) : client :=
  {| server_url := server_url c; device_id := device_id c;
     hardware_key := hardware_key c; connected := b; running := running c;
     heartbeat_interval := heartbeat_interval c;
     retry_interval := retry_interval c |}.

Definition set_running (b : bool) (c : client) : client :=
  {| server_url := server_url c; device_id := device_id c;
     hardware_key := hardware_key c; connected := connected c; running := b;
     heartbeat_interval := heartbeat_interval c;
     retry_interval := retry_interval c |}.

(** [client.heartbeat_interval = i], the only way the period is configured. *)
Definition set_heartbeat_interval (i : Z) (c : client) : client :=
  {| server_url := server_url c; device_id := device_id c;
     hardware_key := hardware_key c; connected := connected c;
     running := running c; heartbeat_interval := i;
     retry_interval := retry_interval c |}.

(** [is_connected] *)
Definition is_connected (c : client) : bool := connected c && running c.

(** How a [requests.post] ends. *)
Inductive outcome : Type :=
| Response (status_code : Z)
| Timeout
| ConnectionError
| OtherException.

(** The loguru calls of the class, one constructor per call site. *)
Inductive log : Type :=
| InfoStart | InfoConnected | DebugBeat | WarnStatus (status_code : Z)
| WarnTimeout | ErrorConnection | ErrorOther | InfoOfflineSent
| InfoStopped | InfoStopping.

Inductive event : Type :=
| Post (server path : string) (device_id hardware_key : string) (timeout : Z)
| Log (l : log).

Definition heartbeat_timeout : Z := 10.
Definition offline_timeout : Z := 5.

(** Where the thread executing [start()] stands.  The two
    [requests.post] calls and [time.sleep] block until the instant
    [wake]: a request ends within its timeout, a sleep lasts the
    heartbeat interval, and the statements in between take no time.
    [Crashed]: [time.sleep] raised [ValueError] on a negative interval
    and the exception left [start()]. *)
Inductive pc : Type :=
| Entry
| While
| Heartbeat (o : outcome) (wake : Z)
| IfRunning
| Sleeping (wake : Z)
| Offline (o : outcome) (wake : Z)
| Returned
| Crashed.

(** The client object shared by the heartbeat thread and the thread that
    calls [stop()], a clock, and what has been observed so far.
    [cleared_at] is the instant at which [stop()] cleared the running flag
    that is still clear; [exited_at] the instant the [while] was left. *)
Record state : Type := mkState {
  self : client;
  at_pc : pc;
  now : Z;
  trace : list event;
  cleared_at : option Z;
  exited_at : option Z
}.

Definition boot (c : client) : state :=
  {| self := c; at_pc := Entry; now := 0; trace := [];
     cleared_at := None; exited_at := None |}.

Definition heartbeat_path : string := "/api/polling/heartbeat".
Definition offline_path : string := "/api/device/offline".

(** The body of the [try] of one heartbeat, once the request has ended. *)
Definition on_heartbeat (o : outcome) (c : client) : client * list event :=
  match o with
  | Response code =>
      if code =? 200 then
        if connected c then (c, [Log DebugBeat])
        else (set_connected true c, [Log InfoConnected; Log DebugBeat])
      else (set_connected false c, [Log (WarnStatus code)])
  | Timeout => (set_connected false c, [Log WarnTimeout])
  | ConnectionError => (set_connected false c, [Log ErrorConnection])
  | OtherException => (set_connected false c, [Log ErrorOther])
  end.

(** The [try ... except: pass] around the offline notice. *)
Definition on_offline (o : outcome) : list event :=
  match o with
  | Response _ => [Log InfoOfflineSent]
  | _ => []
  end.

Definition in_range (lo x hi : Z) : bool := (lo <=? x) && (x <=? hi).

(** One step of the thread inside [start()]. [o] and [d] are the
    environment's choice of how, and after how long, a request issued by
    this step will end.  At [Entry], [self.running = True] overrides a
    [stop()] that came before it. *)
Definition start_step (o : outcome) (d : Z) (s : state) : option state :=
  let c := self s in
  match at_pc s with
  | Entry =>
      Some {| self := set_running true c; at_pc := While; now := now s;
              trace := trace s ++ [Log InfoStart];
              cleared_at := None; exited_at := exited_at s |}
  | While =>
      if running c then
        if in_range 0 d heartbeat_timeout then
          Some {| self := c; at_pc := Heartbeat o (now s + d); now := now s;
                  trace := trace s ++ [Post (server_url c) heartbeat_path (device_id c)
                                         (hardware_key c) heartbeat_timeout];
                  cleared_at := cleared_at s; exited_at := exited_at s |}
        else None
      else
        if in_range 0 d offline_timeout then
          Some {| self := c; at_pc := Offline o (now s + d); now := now s;
                  trace := trace s ++ [Post (server_url c) offline_path (device_id c)
                                         (hardware_key c) offline_timeout];
                  cleared_at := cleared_at s; exited_at := Some (now s) |}
        else None
  | Heartbeat o' wake =>
      if now s =? wake then
        let (c', logs) := on_heartbeat o' c in
        Some {| self := c'; at_pc := IfRunning; now := now s;
                trace := trace s ++ logs;
                cleared_at := cleared_at s; exited_at := exited_at s |}
      else None
  | IfRunning =>
      if running c then
        if heartbeat_interval c <? 0 then
          Some {| self := c; at_pc := Crashed; now := now s; trace := trace s;
                  cleared_at := cleared_at s; exited_at := exited_at s |}
        else
          Some {| self := c; at_pc := Sleeping (now s + heartbeat_interval c);
                  now := now s; trace := trace s;
                  cleared_at := cleared_at s; exited_at := exited_at s |}
      else
        Some {| self := c; at_pc := While; now := now s; trace := trace s;
                cleared_at := cleared_at s; exited_at := exited_at s |}
  | Sleeping wake =>
      if now s =? wake then
        Some {| self := c; at_pc := While; now := now s; trace := trace s;
                cleared_at := cleared_at s; exited_at := exited_at s |}
      else None
  | Offline o' wake =>
      if now s =? wake then
        Some {| self := set_connected false c; at_pc := Returned; now := now s;
                trace := trace s ++ on_offline o' ++ [Log InfoStopped];
                cleared_at := cleared_at s; exited_at := exited_at s |}
      else None
  | Returned | Crashed => None
  end.

(** [stop()], called from another thread: one assignment and one log line. *)
Definition stop (s : state) : state :=
  {| self := set_running false (self s); at_pc := at_pc s; now := now s;
     trace := trace s ++ [Log InfoStopping];
     cleared_at := match cleared_at s with
                   | Some t => Some t
                   | None => Some (now s)
                   end;
     exited_at := exited_at s |}.

(** Time passes only while the thread is blocked, and not past [wake]. *)
Definition wake_of (p : pc) : option Z :=
  match p with
  | Heartbeat _ wake | Sleeping wake | Offline _ wake => Some wake
  | _ => None
  end.

Definition tick (d : Z) (s : state) : option state :=
  match wake_of (at_pc s) with
  | Some wake =>
      if in_range 0 d (wake - now s) then
        Some {| self := self s; at_pc := at_pc s; now := now s + d;
                trace := trace s; cleared_at := cleared_at s;
                exited_at := exited_at s |}
      else None
  | None => None
  end.

Inductive action : Type :=
| Thread (o : outcome) (d : Z)
| Stop
| Tick (d : Z).

Definition do_action (a : action) (s : state) : option state :=
  match a with
  | Thread o d => start_step o d s
  | Stop => Some (stop s)
  | Tick d => tick d s
  end.

Fixpoint run_actions (acts : list action) (s : state) : option state :=
  match acts with
  | [] => Some s
  | a :: rest =>
      match do_action a s with
      | Some s' => run_actions rest s'
      | None => None
      end
  end.

Definition reachable (c : client) (s : state) : Prop :=
  exists acts, run_actions acts (boot c) = Some s.

Definition in_loop (p : pc) : bool :=
  match p with
  | While | Heartbeat _ _ | IfRunning | Sleeping _ => true
  | _ => false
  end.

Definition left_loop (p : pc) : bool :=
  match p with
  | Offline _ _ | Returned => true
  | _ => false
  end.

Definition is_post_to (path : string) (e : event) : bool :=
  match e with
  | Post _ p _ _ _ => String.eqb p path
  | Log _ => false
  end.

Definition heartbeats (s : state) : nat :=
  length (filter (is_post_to heartbeat_path) (trace s)).

(** The steps the thread takes, nobody interfering, from wherever it
    stands in the loop up to and including the issue of the next
    heartbeat, which will end as [o] after [d]. *)
Definition to_next_heartbeat (o : outcome) (d : Z) (s : state) : list action :=
  match at_pc s with
  | While => [Thread o d]
  | Heartbeat _ wake =>
      [Tick (wake - now s); Thread o d; Thread o d;
       Tick (heartbeat_interval (self s)); Thread o d; Thread o d]
  | IfRunning =>
      [Thread o d; Tick (heartbeat_interval (self s)); Thread o d; Thread o d]
  | Sleeping wake => [Tick (wake - now s); Thread o d; Thread o d]
  | _ => []
  end.

(** The steps from a loop position, once the flag is clear, to the end of
    [start()]; the offline notice ends as [o] after [d]. *)
Definition to_return (o : outcome) (d : Z) (s : state) : list action :=
  match at_pc s with
  | While => [Thread o d; Tick d; Thread o d]
  | Heartbeat _ wake =>
      [Tick (wake - now s); Thread o d; Thread o d; Thread o d; Tick d; Thread o d]
  | IfRunning => [Thread o d; Thread o d; Tick d; Thread o d]
  | Sleeping wake => [Tick (wake - now s); Thread o d; Thread o d; Tick d; Thread o d]
  | Offline _ wake => [Tick (wake - now s); Thread o d]
  | _ => []
  end.

End Polling.

(* ================================================================== *)
(** * The main window and its work queue (src/main.py)                *)
(* ================================================================== *)

Module Window.
Import Meter.

(** ** One row of the list: [MeterDataListItem] *)

Record MeterDataListItem : Type := mkItem {
  meter_data : MeterData;
  uploaded : bool;
  checkbox : bool;
  status_label : string;
  status_color : string;
  progress_visible : bool;
  progress_value : option Z
}.

(** [__init__] and [init_ui]: no upload mark, a checked box, the waiting
    label, a hidden progress bar that shows no value yet. *)
Definition new_item (meter_data : MeterData) : MeterDataListItem :=
  {| meter_data := meter_data; uploaded := false; checkbox := true;
     status_label := "等待上传"; status_color := "gray";
     progress_visible := false; progress_value := None |}.

Definition set_status (status color : string) (w : MeterDataListItem) : MeterDataListItem :=
  {| meter_data := meter_data w; uploaded := uploaded w; checkbox := checkbox w;
     status_label := status; status_color := color;
     progress_visible := progress_visible w; progress_value := progress_value w |}.

(** [checkbox.setChecked(b)], also what a click on the box does. *)
Definition set_checked (b : bool) (w : MeterDataListItem) : MeterDataListItem :=
  {| meter_data := meter_data w; uploaded := uploaded w; checkbox := b;
     status_label := status_label w; status_color := status_color w;
     progress_visible := progress_visible w; progress_value := progress_value w |}.

Definition set_uploaded (b : bool) (w : MeterDataListItem) : MeterDataListItem :=
  {| meter_data := meter_data w; uploaded := b;
     checkbox := if b then false else checkbox w;
     status_label := status_label w; status_color := status_color w;
     progress_visible := progress_visible w; progress_value := progress_value w |}.

Definition is_selected (w : MeterDataListItem) : bool :=
  checkbox w && negb (uploaded w).

(** [QProgressBar.setValue] ignores a value outside 0..100. *)
Definition set_progress (value : Z) (w : MeterDataListItem) : MeterDataListItem :=
  {| meter_data := meter_data w; uploaded := uploaded w; checkbox := checkbox w;
     status_label := status_label w; status_color := status_color w;
     progress_visible := (0 <? value);
     progress_value :=
       if 0 <? value then
         if value <=? 100 then Some value else progress_value w
       else progress_value w |}.

(** ** The window *)

Record file_info : Type := mkFileInfo {
  widget : MeterDataListItem;
  data : MeterData
}.

Definition with_widget (f : MeterDataListItem -> MeterDataListItem)
    (fi : file_info) : file_info :=
  {| widget := f (widget fi); data := data fi |}.

Inductive mode : Type := WebSocketMode | LongPollingMode.

(** What the window reads of [lower_config]; an absent
    [concurrent_uploads] key is [None]. *)
Record LowerConfig : Type := mkConfig {
  cfg_server_url : string;
  cfg_device_id : string;
  cfg_hardware_key : string;
  cfg_concurrent_uploads : option Z
}.

(** [LowerConfig.concurrent_uploads]: [getint(..., fallback=2)] *)
Definition concurrent_uploads (cfg : LowerConfig) : Z :=
  match cfg_concurrent_uploads cfg with
  | Some n => n
  | None => 2
  end.

Record ws_params : Type := mkWs {
  ws_server_url : string;
  ws_device_id : string;
  ws_hardware_key : string
}.

(** [data_items] is a Python dict: keys unique, iteration in insertion
    order.  [data_list_widget] holds, per row, the path of the row's
    widget. *)
Record LowerComputerWindow : Type := mkWindow {
  client : option string;
  ws_thread : option ws_params;
  long_polling_thread : option Polling.client;
  connection_mode : mode;
  authenticated : bool;
  data_items : list (string * file_info);
  data_list_widget : list string;
  max_thread_count : Z;
  server_input : string;
  device_id_input : string;
  lower_config : LowerConfig
}.

Definition set_client (v : option string) (w : LowerComputerWindow) :=
  {| client := v; ws_thread := ws_thread w;
     long_polling_thread := long_polling_thread w;
     connection_mode := connection_mode w; authenticated := authenticated w;
     data_items := data_items w; data_list_widget := data_list_widget w;
     max_thread_count := max_thread_count w;
     server_input := server_input w; device_id_input := device_id_input w;
     lower_config := lower_config w |}.

Definition set_ws_thread (v : option ws_params) (w : LowerComputerWindow) :=
  {| client := client w; ws_thread := v;
     long_polling_thread := long_polling_thread w;
     connection_mode := connection_mode w; authenticated := authenticated w;
     data_items := data_items w; data_list_widget := data_list_widget w;
     max_thread_count := max_thread_count w;
     server_input := server_input w; device_id_input := device_id_input w;
     lower_config := lower_config w |}.

Definition set_long_polling_thread (v : option Polling.client) (w : LowerComputerWindow) :=
  {| client := client w; ws_thread := ws_thread w;
     long_polling_thread := v;
     connection_mode := connection_mode w; authenticated := authenticated w;
     data_items := data_items w; data_list_widget := data_list_widget w;
     max_thread_count := max_thread_count w;
     server_input := server_input w; device_id_input := device_id_input w;
     lower_config := lower_config w |}.

Definition set_authenticated (v : bool) (w : LowerComputerWindow) :=
  {| client := client w; ws_thread := ws_thread w;
     long_polling_thread := long_polling_thread w;
     connection_mode := connection_mode w; authenticated := v;
     data_items := data_items w; data_list_widget := data_list_widget w;
     max_thread_count := max_thread_count w;
     server_input := server_input w; device_id_input := device_id_input w;
     lower_config := lower_config w |}.

Definition set_data_items (v : list (string * file_info)) (w : LowerComputerWindow) :=
  {| client := client w; ws_thread := ws_thread w;
     long_polling_thread := long_polling_thread w;
     connection_mode := connection_mode w; authenticated := authenticated w;
     data_items := v; data_list_widget := data_list_widget w;
     max_thread_count := max_thread_count w;
     server_input := server_input w; device_id_input := device_id_input w;
     lower_config := lower_config w |}.

Definition set_data_list_widget (v : list string) (w : LowerComputerWindow) :=
  {| client := client w; ws_thread := ws_thread w;
     long_polling_thread := long_polling_thread w;
     connection_mode := connection_mode w; authenticated := authenticated w;
     data_items := data_items w; data_list_widget := v;
     max_thread_count := max_thread_count w;
     server_input := server_input w; device_id_input := device_id_input w;
     lower_config := lower_config w |}.

(** [LowerComputerWindow.__init__] followed by [load_config]. *)
Definition new_window (cfg : LowerConfig) : LowerComputerWindow :=
  {| client := None; ws_thread := None; long_polling_thread := None;
     connection_mode := LongPollingMode; authenticated := false;
     data_items := []; data_list_widget := [];
     max_thread_count := concurrent_uploads cfg;
     server_input := cfg_server_url cfg; device_id_input := cfg_device_id cfg;
     lower_config := cfg |}.

(** ** What the window does to the widgets around the queue *)

Inductive button : Type :=
| upload_btn | stop_upload_btn | add_excel_btn | add_image_btn
| remove_file_btn | clear_files_btn | select_all_btn | deselect_all_btn.

(** The texts the window logs or shows, one constructor per template. *)
Inductive text : Type :=
| TAlreadyInList (name : string)
| TCreateFailed (name : string)
| TAdded (kind name : string) (file_size : Z)
| TRemoved (n : nat)
| TConfirmClear (n : nat)
| TCleared
| TSelectedAll
| TDeselectedAll
| TUploadStart (n : nat)
| TExcelCount (n : nat)
| TImageCount (n : nat)
| TUploadsStopped
| TFinishedOk (name message : string)
| TFinishedFail (name message : string)
| TAllDone (success_count fail_count : nat)
| TConnected (message : Py.value)
| TConnectFailed (e : Py.exn)
| TStartingHeartbeat
| TStartingWebSocket
| TOfflineFailed (e : Py.exn)
| TLiteral (s : string).

Inductive effect : Type :=
| SetEnabled (b : button) (enabled : bool)
| SetCountLabels (excel_count image_count : nat)
| StatusBar (message : string)
| LogLine (error : bool) (t : text)
| WarningBox (t : text)
| InformationBox (t : text)
| CriticalBox (t : text)
| QuestionBox (t : text)
| PoolStart (device_id hardware_key : string) (meter_data : MeterData)
| PoolClear
| Authenticate (server device_id hardware_key device_ip : string)
| StartLongPolling (c : Polling.client)
| StartWebSocket (p : ws_params)
| WsStop
| WsJoin (timeout : Z)
| LongPollingStop
| LongPollingJoin (timeout : Z)
| SetDeviceOffline (server device_id hardware_key : string) (timeout : Z)
| Logger (error : bool) (t : text).

(** A method of the window: it reads and updates the window and acts on
    the widgets. *)
Definition UI (A : Type) : Type :=
  LowerComputerWindow -> A * LowerComputerWindow * list effect.

Definition ret {A} (a : A) : UI A := fun w => (a, w, []).

Definition bind {A B} (m : UI A) (k : A -> UI B) : UI B :=
  fun w =>
    let '(a, w1, e1) := m w in
    let '(b, w2, e2) := k a w1 in
    (b, w2, (e1 ++ e2)%list).

Definition read : UI LowerComputerWindow := fun w => (w, w, []).

Definition modify (f : LowerComputerWindow -> LowerComputerWindow) : UI unit :=
  fun w => (tt, f w, []).

Definition tell (es : list effect) : UI unit := fun w => (tt, w, es).

Declare Scope ui_scope.
Delimit Scope ui_scope with ui.
Notation "x <- m ;; k" := (bind m (fun x => k))
  (at level 61, m at next level, right associativity) : ui_scope.
Notation "m ;; k" := (bind m (fun _ => k))
  (at level 61, right associativity) : ui_scope.

Fixpoint for_each {A} (l : list A) (body : A -> UI unit) : UI unit :=
  match l with
  | [] => ret tt
  | x :: rest => bind (body x) (fun _ => for_each rest body)
  end.

Definition state_after {A} (m : UI A) (w : LowerComputerWindow) : LowerComputerWindow :=
  snd (fst (m w)).

Definition effects_of {A} (m : UI A) (w : LowerComputerWindow) : list effect :=
  snd (m w).

(** ** Dict operations on [data_items] *)

Fixpoint dict_get (key : string) (d : list (string * file_info)) : option file_info :=
  match d with
  | [] => None
  | (k, v) :: rest => if String.eqb k key then Some v else dict_get key rest
  end.

Definition dict_mem (key : string) (d : list (string * file_info)) : bool :=
  match dict_get key d with Some _ => true | None => false end.

(** [d[key] = v] *)
Fixpoint dict_set (key : string) (v : file_info) (d : list (string * file_info))
    : list (string * file_info) :=
  match d with
  | [] => [(key, v)]
  | (k, v') :: rest =>
      if String.eqb k key then (k, v) :: rest else (k, v') :: dict_set key v rest
  end.

(** [del d[key]] *)
Fixpoint dict_del (key : string) (d : list (string * file_info))
    : list (string * file_info) :=
  match d with
  | [] => []
  | (k, v) :: rest =>
      if String.eqb k key then rest else (k, v) :: dict_del key rest
  end.

(** The object stored under [key] is updated in place. *)
Fixpoint dict_update (key : string) (f : file_info -> file_info)
    (d : list (string * file_info)) : list (string * file_info) :=
  match d with
  | [] => []
  | (k, v) :: rest =>
      if String.eqb k key then (k, f v) :: rest else (k, v) :: dict_update key f rest
  end.

(** [for v in d.values(): if p(v): f(v); break] *)
Fixpoint update_first (p : file_info -> bool) (f : file_info -> file_info)
    (d : list (string * file_info)) : list (string * file_info) :=
  match d with
  | [] => []
  | (k, v) :: rest =>
      if p v then (k, f v) :: rest else (k, v) :: update_first p f rest
  end.

Definition values (d : list (string * file_info)) : list file_info := map snd d.

Fixpoint remove_row (path : string) (rows : list string) : list string :=
  match rows with
  | [] => []
  | r :: rest => if String.eqb r path then rest else r :: remove_row path rest
  end.

(** [needle in haystack] on strings *)
Fixpoint contains (needle haystack : string) : bool :=
  String.prefix needle haystack ||
  match haystack with
  | EmptyString => false
  | String _ rest => contains needle rest
  end.

(** ** The methods of [LowerComputerWindow] *)

Section Methods.

(** Library functions: [Path.name], [Path.suffix], [Path.stem],
    [str.lower], [str.strip]; and the file system. *)
Variable path_name : string -> string.
Variable path_suffix : string -> string.
Variable path_stem : string -> string.
Variable str_lower : string -> string.
Variable str_strip : string -> string.
Variable fs : string -> option Z.

Local Open Scope ui_scope.

Definition log (t : text) (error : bool) : UI unit := tell [LogLine error t].

Definition count_where (p : MeterData -> bool) (d : list (string * file_info)) : nat :=
  length (filter (fun fi => p (data fi)) (values d)).

Definition update_data_count : UI unit :=
  w <- read ;;
  let excel_count := count_where is_excel (data_items w) in
  let image_count := count_where is_image (data_items w) in
  let total := (excel_count + image_count)%nat in
  tell [SetCountLabels excel_count image_count;
        SetEnabled upload_btn ((0 <? total)%nat && authenticated w);
        SetEnabled select_all_btn (0 <? total)%nat;
        SetEnabled deselect_all_btn (0 <? total)%nat].

(** [excel_description] and [image_description] are what
    [lower_config.get_excel_description()] and [get_image_description()]
    return at the time of the call, [now] is [datetime.now()]. *)
Definition add_meter_data (file_path : string) (data_type : DataType)
    (excel_description image_description : string) (now : Z) : UI unit :=
  w <- read ;;
  if dict_mem file_path (data_items w) then
    log (TAlreadyInList (path_name file_path)) false
  else
    let description :=
      match data_type with
      | EXCEL => excel_description
      | IMAGE => image_description
      end in
    match create_meter_data path_suffix path_stem str_lower fs file_path
            (Some description) now with
    | None => log (TCreateFailed (path_name file_path)) true
    | Some meter_data =>
        modify (fun w => set_data_list_widget (data_list_widget w ++ [file_path]) w) ;;
        modify (fun w => set_data_items
                  (dict_set file_path
                     {| widget := new_item meter_data; data := meter_data |}
                     (data_items w)) w) ;;
        update_data_count ;;
        log (TAdded (match data_type with
                     | EXCEL => "电量数据"
                     | IMAGE => "几何量数据"
                     end)
               (path_name file_path) (file_size meter_data)) false
    end.

(** The body of the loop of [remove_selected_data]: the entry is deleted
    from the dict if it is there, and the row is taken off the list. *)
Definition remove_item (file_path : string) : UI unit :=
  modify (fun w =>
    if dict_mem file_path (data_items w)
    then set_data_items (dict_del file_path (data_items w)) w
    else w) ;;
  modify (fun w => set_data_list_widget
            (remove_row file_path (data_list_widget w)) w).

(** [selected_items]: the rows highlighted in the list widget, by path. *)
Definition remove_selected_data (selected_items : list string) : UI unit :=
  match selected_items with
  | [] => tell [WarningBox (TLiteral "请选择要移除的数据")]
  | _ =>
      for_each selected_items remove_item ;;
      update_data_count ;;
      log (TRemoved (length selected_items)) false
  end.

(** [reply_yes]: the operator's answer to the confirmation box. *)
Definition clear_data_list (reply_yes : bool) : UI unit :=
  w <- read ;;
  match data_items w with
  | [] => ret tt
  | _ =>
      tell [QuestionBox (TConfirmClear (length (data_items w)))] ;;
      if reply_yes then
        modify (set_data_list_widget []) ;;
        modify (set_data_items []) ;;
        update_data_count ;;
        log TCleared false
      else ret tt
  end.

Definition check_unless_uploaded (b : bool) (entry : string * file_info)
    : string * file_info :=
  let (key, fi) := entry in
  if uploaded (widget fi) then (key, fi)
  else (key, with_widget (set_checked b) fi).

Definition select_all_data : UI unit :=
  modify (fun w => set_data_items (map (check_unless_uploaded true) (data_items w)) w) ;;
  log TSelectedAll false.

Definition deselect_all_data : UI unit :=
  modify (fun w => set_data_items (map (check_unless_uploaded false) (data_items w)) w) ;;
  log TDeselectedAll false.

(** The operator ticks or clears the check box of the row of [file_path];
    the box stays enabled after an upload. *)
Definition operator_checks (file_path : string) (b : bool) : UI unit :=
  modify (fun w => set_data_items
            (dict_update file_path (with_widget (set_checked b)) (data_items w)) w).

(** The list comprehension of [upload_data]. *)
Definition selected_entries (d : list (string * file_info)) : list (string * file_info) :=
  filter (fun entry => is_selected (widget (snd entry))) d.

(** The body of the loop of [upload_data]: the row is marked as
    uploading and a worker for it is handed to the pool. *)
Definition start_worker (device_id hardware_key : string)
    (entry : string * file_info) : UI unit :=
  modify (fun w => set_data_items
            (dict_update (fst entry)
               (with_widget (fun x =>
                  set_progress 0 (set_status "上传中..." "blue" x)))
               (data_items w)) w) ;;
  tell [PoolStart device_id hardware_key (data (snd entry))].

Definition upload_data : UI unit :=
  w <- read ;;
  if negb (authenticated w) then tell [WarningBox (TLiteral "请先连接服务器")]
  else
    match data_items w with
    | [] => tell [WarningBox (TLiteral "请先添加要上传的数据")]
    | _ =>
        let selected_items := selected_entries (data_items w) in
        match selected_items with
        | [] => tell [WarningBox (TLiteral "请选择要上传的数据")]
        | _ =>
            tell [SetEnabled upload_btn false; SetEnabled stop_upload_btn true;
                  SetEnabled add_excel_btn false; SetEnabled add_image_btn false] ;;
            log (TUploadStart (length selected_items)) false ;;
            let excel_count :=
              length (filter (fun entry => is_excel (data (snd entry))) selected_items) in
            log (TExcelCount excel_count) false ;;
            log (TImageCount (length selected_items - excel_count)) false ;;
            for_each selected_items
              (start_worker (cfg_device_id (lower_config w))
                 (cfg_hardware_key (lower_config w)))
        end
    end.

Definition restore_upload_buttons : UI unit :=
  tell [SetEnabled upload_btn true; SetEnabled stop_upload_btn false;
        SetEnabled add_excel_btn true; SetEnabled add_image_btn true].

Definition stop_upload (reply_yes : bool) : UI unit :=
  tell [QuestionBox (TLiteral "确定要停止所有上传任务吗？")] ;;
  if reply_yes then
    tell [PoolClear] ;; log TUploadsStopped false ;; restore_upload_buttons
  else ret tt.

Definition named (file_name : string) (fi : file_info) : bool :=
  String.eqb (path_name (file_path (data fi))) file_name.

Definition on_upload_progress (file_name : string) (progress : Z) : UI unit :=
  modify (fun w => set_data_items
            (update_first (named file_name) (with_widget (set_progress progress))
               (data_items w)) w).

(** The loop of [check_all_uploads_finished]. *)
Definition tally_step (acc : bool * nat * nat) (fi : file_info) : bool * nat * nat :=
  let '(all_finished, success_count, fail_count) := acc in
  let status := status_label (widget fi) in
  if contains "上传中" status then (false, success_count, fail_count)
  else if contains "成功" status then (all_finished, S success_count, fail_count)
  else if contains "失败" status then (all_finished, success_count, S fail_count)
  else acc.

Definition tally (d : list (string * file_info)) : bool * nat * nat :=
  fold_left tally_step (values d) (true, 0%nat, 0%nat).

Definition check_all_uploads_finished : UI unit :=
  w <- read ;;
  let '(all_finished, success_count, fail_count) := tally (data_items w) in
  if all_finished && ((0 <? success_count)%nat || (0 <? fail_count)%nat) then
    restore_upload_buttons ;;
    log (TAllDone success_count fail_count) false ;;
    tell [InformationBox (TAllDone success_count fail_count)]
  else ret tt.

Definition on_upload_finished (file_name : string) (success : bool)
    (message : string) : UI unit :=
  w <- read ;;
  (if existsb (named file_name) (values (data_items w)) then
     if success then
       modify (fun w => set_data_items
                 (update_first (named file_name)
                    (with_widget (fun x =>
                       set_uploaded true
                         (set_progress 100 (set_status "✓ 成功" "green" x))))
                    (data_items w)) w) ;;
       log (TFinishedOk file_name message) false
     else
       modify (fun w => set_data_items
                 (update_first (named file_name)
                    (with_widget (fun x =>
                       set_progress 0 (set_status "✗ 失败" "red" x)))
                    (data_items w)) w) ;;
       log (TFinishedFail file_name message) true
   else ret tt) ;;
  check_all_uploads_finished.

Definition truthy (s : string) : bool :=
  match s with EmptyString => false | _ => true end.

(** The [except] branch of [connect_to_server]. *)
Definition connect_failed (e : Py.exn) : UI unit :=
  modify (set_authenticated false) ;;
  log (TConnectFailed e) true ;;
  tell [StatusBar "连接失败 ✗"; CriticalBox (TConnectFailed e)].

(** [device_ip] is what [get_local_ip()] returns and
    [authenticate_device] how the call of that name on the new
    [APIClient] ends. *)
Definition connect_to_server (device_ip : string)
    (authenticate_device : Py.result Py.value) : UI unit :=
  w <- read ;;
  let server_url := str_strip (server_input w) in
  let device_id := str_strip (device_id_input w) in
  let hardware_key := cfg_hardware_key (lower_config w) in
  if negb (truthy server_url && truthy device_id && truthy hardware_key) then
    tell [WarningBox (TLiteral "请填写必要信息")]
  else
    modify (set_client (Some (Polling.rstrip_slash server_url))) ;;
    tell [Authenticate (Polling.rstrip_slash server_url) device_id hardware_key device_ip] ;;
    match authenticate_device with
    | Py.Raise e => connect_failed e
    | Py.Ok result =>
        modify (set_authenticated true) ;;
        match Py.get result "message" Py.VNone with
        | Py.Raise e => connect_failed e
        | Py.Ok message =>
            log (TConnected message) false ;;
            match connection_mode w with
            | LongPollingMode =>
                let c := Polling.init server_url device_id hardware_key in
                modify (set_long_polling_thread (Some c)) ;;
                tell [StartLongPolling c] ;;
                log TStartingHeartbeat false ;;
                tell [StatusBar "已连接 ✓ (HTTP长轮询)"]
            | WebSocketMode =>
                let p := {| ws_server_url := server_url; ws_device_id := device_id;
                            ws_hardware_key := hardware_key |} in
                modify (set_ws_thread (Some p)) ;;
                tell [StartWebSocket p] ;;
                log TStartingWebSocket false ;;
                tell [StatusBar "已连接 ✓ (WebSocket)"]
            end ;;
            tell [SetEnabled add_excel_btn true; SetEnabled add_image_btn true;
                  SetEnabled remove_file_btn true; SetEnabled clear_files_btn true] ;;
            tell [InformationBox (TLiteral "连接服务器成功！")]
        end
    end.

Definition api_timeout : Z := 30.

(** [quit_qt_application]; [set_device_offline] is how the call of that
    name on [window.client] ends. [LowerLongPollingThread.join] calls
    [stop()] once more before it waits. *)
Definition quit_qt_application (set_device_offline : Py.result Py.value) : UI unit :=
  w <- read ;;
  if authenticated w then
    match ws_thread w with
    | Some _ => tell [Logger false (TLiteral "关闭 WebSocket 连接..."); WsStop; WsJoin 3]
    | None => ret tt
    end ;;
    match long_polling_thread w with
    | Some _ => tell [Logger false (TLiteral "停止HTTP心跳..."); LongPollingStop;
                      LongPollingStop; LongPollingJoin 3]
    | None => ret tt
    end ;;
    match client w with
    | Some server =>
        tell [SetDeviceOffline server (str_strip (device_id_input w))
                (cfg_hardware_key (lower_config w)) api_timeout] ;;
        match set_device_offline with
        | Py.Ok _ => tell [Logger false (TLiteral "设备已设置为离线")]
        | Py.Raise e => tell [Logger true (TOfflineFailed e)]
        end
    | None => ret tt
    end
  else ret tt.

(** ** What can happen to the window *)

(** The operator's actions and the signals of the workers, with what the
    environment contributes to each. *)
Inductive op : Type :=
| AddMeterData (file_path : string) (data_type : DataType)
    (excel_description image_description : string) (now : Z)
| RemoveSelectedData (selected_items : list string)
| ClearDataList (reply_yes : bool)
| SelectAllData
| DeselectAllData
| OperatorChecks (file_path : string) (b : bool)
| UploadData
| StopUpload (reply_yes : bool)
| OnUploadProgress (file_name : string) (progress : Z)
| OnUploadFinished (file_name : string) (success : bool) (message : string)
| ConnectToServer (device_ip : string) (authenticate_device : Py.result Py.value).

Definition perform (o : op) : UI unit :=
  match o with
  | AddMeterData file_path data_type excel_description image_description now =>
      add_meter_data file_path data_type excel_description image_description now
  | RemoveSelectedData selected_items => remove_selected_data selected_items
  | ClearDataList reply_yes => clear_data_list reply_yes
  | SelectAllData => select_all_data
  | DeselectAllData => deselect_all_data
  | OperatorChecks file_path b => operator_checks file_path b
  | UploadData => upload_data
  | StopUpload reply_yes => stop_upload reply_yes
  | OnUploadProgress file_name progress => on_upload_progress file_name progress
  | OnUploadFinished file_name success message =>
      on_upload_finished file_name success message
  | ConnectToServer device_ip authenticate_device =>
      connect_to_server device_ip authenticate_device
  end.

Definition run_ops (ops : list op) : UI unit := for_each ops perform.

(** The operation takes the row of [key] out of the queue. *)
Definition removes (key : string) (o : op) : bool :=
  match o with
  | RemoveSelectedData selected_items => mem key selected_items
  | ClearDataList reply_yes => reply_yes
  | _ => false
  end.

(** The keys of the batch [upload_data] would hand to the pool. *)
Definition submitted (w : LowerComputerWindow) : list string :=
  map fst (selected_entries (data_items w)).

Definition pool_starts (es : list effect) : list MeterData :=
  flat_map (fun e => match e with PoolStart _ _ m => [m] | _ => [] end) es.

End Methods.

(** ** A POSIX reading of the library functions, for the examples *)

Module Posix.

(** The part of [s] after its last [sep], if [sep] occurs. *)
Fixpoint after_last (sep : ascii) (s : string) : option string :=
  match s with
  | EmptyString => None
  | String c rest =>
      match after_last sep rest with
      | Some t => Some t
      | None => if Ascii.eqb c sep then Some rest else None
      end
  end.

Definition name (p : string) : string :=
  match after_last "/" p with
  | Some t => t
  | None => p
  end.

(** [Path.suffix]: from the last dot of the name, unless the name starts
    or ends with it. *)
Definition suffix (p : string) : string :=
  let n := name p in
  match after_last "." n with
  | Some ext =>
      if (String.length ext =? 0)%nat then ""
      else if (String.length n =? S (String.length ext))%nat then ""
      else String "."%char ext
  | None => ""
  end.

Definition stem (p : string) : string :=
  let n := name p in
  String.substring 0 (String.length n - String.length (suffix p)) n.

Definition lower_ascii (c : ascii) : ascii :=
  let n := nat_of_ascii c in
  if ((65 <=? n) && (n <=? 90))%nat then ascii_of_nat (n + 32) else c.

Fixpoint lower (s : string) : string :=
  match s with
  | EmptyString => EmptyString
  | String c rest => String (lower_ascii c) (lower rest)
  end.

Definition is_space (c : ascii) : bool :=
  let n := nat_of_ascii c in
  ((n =? 32) || ((9 <=? n) && (n <=? 13)))%nat.

Fixpoint lstrip (s : string) : string :=
  match s with
  | EmptyString => EmptyString
  | String c rest => if is_space c then lstrip rest else s
  end.

Fixpoint rstrip (s : string) : string :=
  match s with
  | EmptyString => EmptyString
  | String c rest =>
      match rstrip rest with
      | EmptyString => if is_space c then EmptyString else String c EmptyString
      | rest' => String c rest'
      end
  end.

Definition strip (s : string) : string := rstrip (lstrip s).

End Posix.

End Window.

(* ================================================================== *)
(** * The hardware key                                              *)
(* ================================================================== *)

Module HardwareKey.

(** [range(start, stop, step)] for a positive [step]. *)
Definition range (start stop step : Z) : list Z :=
  map (fun i => start + step * Z.of_nat i)
    (seq 0 (Z.to_nat ((stop - start + step - 1) / step))).

(** ['{:02x}'.format(n)] for [n >= 0]: the hexadecimal digits in lower
    case, padded with a zero to a width of two. *)
Definition format_02x (n : Z) : string :=
  let digits := NilZero.string_of_uint (N.to_hex_uint (Z.to_N n)) in
  if (String.length digits <? 2)%nat then "0" ++ digits else digits.

(** The list comprehension of [get_machine_id], before it is reversed:
    one number per value of [elements]. *)
Definition octets (node : Z) : list Z :=
  map (fun elements => Z.land (Z.shiftr node elements) 255) (range 0 (2 * 6) 2).

(** [mac]; [node] is what [uuid.getnode()] returns. *)
Definition mac_of (node : Z) : string :=
  String.concat ":" (rev (map format_02x (octets node))).

Section Generator.

Variable py_str : Py.value -> string.
Variable sha256_hexdigest : string -> string.
Variable exn_str : Py.exn -> string.

Definition get_machine_id (node : Z) (cpu_count : Py.result Py.value)
    : list string * option string :=
  match cpu_count with
  | Py.Ok count =>
      let mac := mac_of node in
      let cpu_info := py_str count in
      let unique_info := mac ++ "-" ++ cpu_info in
      ([], Some (sha256_hexdigest unique_info))
  | Py.Raise e => (["Failed to generate hardware key: " ++ exn_str e], None)
  end.

End Generator.

End HardwareKey.

(* ================================================================== *)
(** * The HTTP client                                               *)
(* ================================================================== *)

Module Api.
Import Py.

(** The fields of [APIClient] that its methods read: [session] is the
    connection the requests go through. *)
Record APIClient : Type := mkAPIClient {
  base_url : string;
  timeout : Z
}.

(** [__init__]; [timeout] is 30 unless the caller gives one. *)
Definition default_timeout : Z := 30.

Definition init (base_url : string) (timeout : Z) : APIClient :=
  {| base_url := Polling.rstrip_slash base_url; timeout := timeout |}.

(** What the methods read of a [requests] response: the status and what
    [response.json()] returns or raises. *)
Record response : Type := mkResponse {
  status_code : Z;
  json : result value
}.

(** What a method does to the outside: it opens a file, posts a form
    (with the open file under its name, for an upload), writes an error
    line to the log. *)
Inductive call : Type :=
| Open (file_path : string)
| Post (url : string) (data : list (string * value))
    (files : option (string * string)) (timeout : Z)
| LoggerError (message : string) (e : exn).

(** A method issues calls and either returns or raises. *)
Definition M (A : Type) : Type := (list call * result A)%type.

Definition ret {A} (a : A) : M A := ([], Ok a).

Definition lift {A} (r : result A) : M A := ([], r).

Definition does {A} (c : call) (r : result A) : M A := ([c], r).

Definition mbind {A B} (m : M A) (k : A -> M B) : M B :=
  match m with
  | (out, Ok a) => let (out', r) := k a in ((out ++ out')%list, r)
  | (out, Raise e) => (out, Raise e)
  end.

(** [try: body  except Exception as e: logger.error(f"{message}: {e}"); raise] *)
Definition logged {A} (message : string) (body : M A) : M A :=
  match body with
  | (out, Ok a) => (out, Ok a)
  | (out, Raise e) => ((out ++ [LoggerError message e])%list, Raise e)
  end.

Declare Scope api_scope.
Delimit Scope api_scope with api.
Notation "x <- m ;; k" := (mbind m (fun x => k))
  (at level 61, m at next level, right associativity) : api_scope.
Notation "m ;; k" := (mbind m (fun _ => k))
  (at level 61, right associativity) : api_scope.

(** A form field that may be [None]. *)
Definition str_or_none (s : option string) : value :=
  match s with
  | Some s => VStr s
  | None => VNone
  end.

(** [s or ''] *)
Definition or_empty (s : option string) : string :=
  match s with
  | Some s => s
  | None => ""
  end.

(** [data[key] = v] *)
Fixpoint set_item (key : string) (v : value) (data : list (string * value))
    : list (string * value) :=
  match data with
  | [] => [(key, v)]
  | (k, v') :: rest =>
      if String.eqb k key then (k, v) :: rest else (k, v') :: set_item key v rest
  end.

(** [if s: data[key] = s] *)
Definition set_if_given (key : string) (s : option string)
    (data : list (string * value)) : list (string * value) :=
  match s with
  | Some (String _ _ as s) => set_item key (VStr s) data
  | _ => data
  end.

Section Methods.

(** [Path.name], and the message of the [HTTPError] that
    [raise_for_status] builds from a response. *)
Variable path_name : string -> string.
Variable http_error_msg : response -> string.

(** [response.raise_for_status()] *)
Definition raise_for_status (r : response) : result unit :=
  if (400 <=? status_code r) && (status_code r <? 600)
  then Raise (Raised "HTTPError" (http_error_msg r))
  else Ok tt.

(** [self.session.post(url, data=data, timeout=self.timeout)], which
    ends as [answer]. *)
Definition post (self : APIClient) (url : string) (data : list (string * value))
    (files : option (string * string)) (answer : result response) : M response :=
  does (Post url data files (timeout self)) answer.

(** [with open(file_path, 'rb') as f: files = ...; response = post(...)];
    [opened] is how [open] ends. *)
Definition post_file (self : APIClient) (url : string)
    (data : list (string * value)) (file_path : string)
    (opened : result unit) (answer : result response) : M response :=
  (does (Open file_path) opened ;;
   post self url data (Some (path_name file_path, file_path)) answer)%api.

Local Open Scope api_scope.

Definition register_device (self : APIClient)
    (device_id device_name hardware_key : string) (device_ip : option string)
    (answer : result response) : M value :=
  logged "Device registration failed"
    (let url := base_url self ++ "/api/device/register" in
     let data := [("device_id", VStr device_id);
                  ("device_name", VStr device_name);
                  ("hardware_key", VStr hardware_key);
                  ("device_ip", str_or_none device_ip)] in
     response <- post self url data None answer ;;
     lift (json response)).

Definition authenticate_device (self : APIClient)
    (device_id hardware_key : string) (device_ip : option string)
    (answer : result response) : M value :=
  logged "Device authentication failed"
    (let url := base_url self ++ "/api/device/authenticate" in
     let data := [("device_id", VStr device_id);
                  ("hardware_key", VStr hardware_key);
                  ("device_ip", str_or_none device_ip)] in
     response <- post self url data None answer ;;
     lift (raise_for_status response) ;;
     lift (json response)).

Definition upload_file (self : APIClient) (device_id hardware_key : string)
    (file_path : string) (description meter_model meter_sn image_type : option string)
    (opened : result unit) (answer : result response) : M value :=
  logged "File upload failed"
    (let url := base_url self ++ "/api/upload/file" in
     let data := [("device_id", VStr device_id);
                  ("hardware_key", VStr hardware_key);
                  ("description", VStr (or_empty description))] in
     let data := set_if_given "meter_model" meter_model data in
     let data := set_if_given "meter_sn" meter_sn data in
     let data := set_if_given "image_type" image_type data in
     response <- post_file self url data file_path opened answer ;;
     lift (raise_for_status response) ;;
     lift (json response)).

Definition upload_excel (self : APIClient) (device_id hardware_key : string)
    (file_path : string) (description meter_model meter_sn : option string)
    (opened : result unit) (answer : result response) : M value :=
  logged "Excel upload failed"
    (let url := base_url self ++ "/api/upload/excel" in
     let data := [("device_id", VStr device_id);
                  ("hardware_key", VStr hardware_key);
                  ("description", VStr (or_empty description))] in
     let data := set_if_given "meter_model" meter_model data in
     let data := set_if_given "meter_sn" meter_sn data in
     response <- post_file self url data file_path opened answer ;;
     lift (raise_for_status response) ;;
     lift (json response)).

Definition upload_image (self : APIClient) (device_id hardware_key : string)
    (file_path : string) (description image_type : option string)
    (opened : result unit) (answer : result response) : M value :=
  logged "Image upload failed"
    (let url := base_url self ++ "/api/upload/image" in
     let data := [("device_id", VStr device_id);
                  ("hardware_key", VStr hardware_key);
                  ("description", VStr (or_empty description))] in
     let data := set_if_given "image_type" image_type data in
     response <- post_file self url data file_path opened answer ;;
     lift (raise_for_status response) ;;
     lift (json response)).

Definition set_device_status (self : APIClient)
    (device_id hardware_key status : string)
    (answer : result response) : M value :=
  logged "Failed to set device status"
    (let url := base_url self ++ "/api/device/set-status" in
     let data := [("device_id", VStr device_id);
                  ("hardware_key", VStr hardware_key);
                  ("status", VStr status)] in
     response <- post self url data None answer ;;
     lift (raise_for_status response) ;;
     lift (json response)).

Definition set_device_offline (self : APIClient)
    (device_id hardware_key : string)
    (answer : result response) : M value :=
  logged "Failed to set device offline"
    (let url := base_url self ++ "/api/device/offline" in
     let data := [("device_id", VStr device_id);
                  ("hardware_key", VStr hardware_key)] in
     response <- post self url data None answer ;;
     lift (raise_for_status response) ;;
     lift (json response)).

(** The client an [UploadWorker] holds: [run] calls [upload_file] with
    the four positional arguments and no other. [opened] and [answer]
    are how opening and posting the file at a path end. *)
Definition for_worker (self : APIClient) (opened : string -> result unit)
    (answer : string -> result response) : Upload.APIClient :=
  fun device_id hardware_key file_path description =>
    snd (upload_file self device_id hardware_key file_path (Some description)
           None None None (opened file_path) (answer file_path)).

End Methods.

End Api.

(* ================================================================== *)
(** * Dialogs of the window                                         *)
(* ================================================================== *)

Module Dialogs.
Import Meter Window.

(** ** Picking files: [add_excel_files], [add_image_files] *)

(** One file the operator picked in the dialog: its path as
    [str(Path(file_path))] gives it, and what [add_meter_data] gets from
    the configuration and the clock when the loop comes to it. *)
Record pick : Type := mkPick {
  picked_path : string;
  excel_description : string;
  image_description : string;
  picked_at : Z
}.

Section Methods.

Variable path_name : string -> string.
Variable path_suffix : string -> string.
Variable path_stem : string -> string.
Variable str_lower : string -> string.
Variable str_strip : string -> string.
Variable fs : string -> option Z.

Local Open Scope ui_scope.

Let add_meter_data := Window.add_meter_data path_name path_suffix path_stem str_lower fs.

(** [file_paths] is what the dialog returns and [saved] how the write
    of the browsed folder to the configuration ends; an exception
    leaves the method, which has no handler. *)
Definition add_excel_files (file_paths : list pick) (saved : Py.result unit)
    : UI (Py.result unit) :=
  match file_paths with
  | [] => ret (Py.Ok tt)
  | _ :: _ =>
      match saved with
      | Py.Raise e => ret (Py.Raise e)
      | Py.Ok _ =>
          for_each file_paths (fun p =>
            add_meter_data (picked_path p) EXCEL (excel_description p)
              (image_description p) (picked_at p)) ;;
          ret (Py.Ok tt)
      end
  end.

Definition add_image_files (file_paths : list pick) (saved : Py.result unit)
    : UI (Py.result unit) :=
  match file_paths with
  | [] => ret (Py.Ok tt)
  | _ :: _ =>
      match saved with
      | Py.Raise e => ret (Py.Raise e)
      | Py.Ok _ =>
          for_each file_paths (fun p =>
            add_meter_data (picked_path p) IMAGE (excel_description p)
              (image_description p) (picked_at p)) ;;
          ret (Py.Ok tt)
      end
  end.

(** ** Closing the window: [closeEvent] *)

(** How [closeEvent] leaves the event: ignored, or accepted after a
    wait for the pool of so many milliseconds. *)
Inductive closing : Type :=
| Ignored
| Accepted (wait_for_done : Z).

(** [active] is [thread_pool.activeThreadCount()] and [reply_yes] the
    operator's answer, if asked.  [LowerLongPollingThread.join] calls
    [stop()] once more before it waits. *)
Definition closeEvent (active : Z) (reply_yes : bool) : UI closing :=
  w <- read ;;
  proceed <- (if 0 <? active then
                tell [QuestionBox (TLiteral "还有数据正在上传，确定要退出吗？")] ;;
                ret reply_yes
              else ret true) ;;
  if proceed : bool then
    match ws_thread w with
    | Some _ => tell [LogLine false (TLiteral "正在断开 WebSocket 连接...");
                      WsStop; WsJoin 3]
    | None => ret tt
    end ;;
    match long_polling_thread w with
    | Some _ => tell [LogLine false (TLiteral "正在停止HTTP心跳...");
                      LongPollingStop; LongPollingStop; LongPollingJoin 3]
    | None => ret tt
    end ;;
    ret (Accepted 3000)
  else ret Ignored.

End Methods.

(** ** Registering the device: [register_device] *)

(** What [register_device] logs and shows. *)
Inductive notice : Type :=
| Registered (message : Py.value)
| RegistrationFailed (detail : Py.value)
| RegistrationError (e : Py.exn).

Inductive action : Type :=
| Register (server device_id device_name hardware_key device_ip : string)
| Log (error : bool) (n : notice)
| Information (text : string)
| Critical (n : notice).

(** [v is not None] *)
Definition is_not_none (v : Py.value) : bool :=
  match v with Py.VNone => false | _ => true end.

(** The [except] branch. *)
Definition registration_error (e : Py.exn) : list action :=
  [Log true (RegistrationError e); Critical (RegistrationError e)].

(** The part of [register_device] after the configuration is written:
    the request through the new [APIClient], and the reading of its
    answer. *)
Definition request (server_url device_id device_name hardware_key device_ip : string)
    (register_device : Py.result Py.value) : list action :=
  Register (Polling.rstrip_slash server_url) device_id device_name hardware_key
    device_ip
  :: match register_device with
     | Py.Raise e => registration_error e
     | Py.Ok result =>
         match Py.get result "message" Py.VNone with
         | Py.Raise e => registration_error e
         | Py.Ok message =>
             if is_not_none message then
               [Log false (Registered message); Information "设备注册成功！"]
             else
               match Py.get result "detail" Py.VNone with
               | Py.Raise e => registration_error e
               | Py.Ok detail =>
                   [Log true (RegistrationFailed detail);
                    Critical (RegistrationFailed detail)]
               end
         end
     end.

End Dialogs.

(* ================================================================== *)
(** * Properties of the upload worker                                 *)
(* ================================================================== *)

Module UploadFacts.
Import Py Meter Upload.

(** "(original - compressed) / original x 100" read in Python's
    arithmetic on two ints: the correctly rounded binary64 quotient,
    times the float 100. *)
Definition percent_of (difference original : Z) : result value :=
  match SFdiv prec emax (exact_of_int difference) (exact_of_int original) with
  | S754_infinity _ => Raise OverflowError
  | q => Ok (VFloat (SFmul prec emax q (binary_normalize prec emax 100 0 false)))
  end.

(** A response of the upload endpoint for an image. *)
Definition sample_response : list (string * value) :=
  [("file_id", VInt 7); ("original_size", VInt 2000000);
   ("compressed_size", VInt 500000)].

Definition sample_image : MeterData :=
  {| data_type := IMAGE; file_path := "/data/meter.png"; timestamp := 0;
     description := "几何量数据_20240101_000000"; file_size := 2000000 |}.

Definition sample_worker (answer : result value) : UploadWorker :=
  {| client := fun _ _ _ _ => answer; device_id := "dev-1";
     hardware_key := "key-1"; meter_data := sample_image |}.

(** ** Stand-ins for the formatting of the instances *)

Definition decimal (n : Z) : string :=
  DecimalString.NilZero.string_of_uint (N.to_uint (Z.to_N n)).

Fixpoint zero_padded (width : nat) (s : string) : string :=
  match width with
  | O => s
  | S width' =>
      if (String.length s <=? width')%nat then zero_padded width' ("0" ++ s) else s
  end.

(** [str(v)] of an int or of [None]. *)
Definition str_of (v : value) : string :=
  match v with
  | VInt z => if z <? 0 then "-" ++ decimal (- z) else decimal z
  | VNone => "None"
  | _ => "?"
  end.

(** [f"{x:.Nf}"] of a finite float: the exact value rounded half to even
    at the [digits]-th decimal. *)
Definition fixed (digits : nat) (f : spec_float) : string :=
  let shown (negative : bool) (scaled : Z) :=
    let unit := 10 ^ Z.of_nat digits in
    (if negative then "-" else "")
    ++ decimal (scaled / unit)
    ++ match digits with
       | O => ""
       | S _ => "." ++ zero_padded digits (decimal (scaled mod unit))
       end in
  match f with
  | S754_nan => "nan"
  | S754_infinity s => if s then "-inf" else "inf"
  | S754_zero s => shown s 0
  | S754_finite s m e =>
      let numerator := Zpos m * 10 ^ Z.of_nat digits * 2 ^ Z.max e 0 in
      let denominator := 2 ^ Z.max (- e) 0 in
      let q := numerator / denominator in
      let r := numerator mod denominator in
      shown s (if 2 * r <? denominator then q
               else if denominator <? 2 * r then q + 1
               else if Z.even q then q else q + 1)
  end.

Lemma float_100 : float_of_int 100 = Ok (binary_normalize prec emax 100 0 false).
Proof. reflexivity. Qed.

Lemma ratio_of_int_sizes (o c : Z) :
  ratio_of_sizes (VInt o) (VInt c) = if 0 <? o then percent_of (o - c) o else Ok (VInt 0).
Proof.
  unfold ratio_of_sizes. cbn [gt_zero as_number bind].
  destruct (0 <? o) eqn:Hpos; [|reflexivity].
  apply Z.ltb_lt in Hpos.
  cbn [sub as_number bind truediv].
  replace (o =? 0) with false by (symmetry; apply Z.eqb_neq; lia).
  unfold percent_of, fmul_int. rewrite float_100.
  destruct (SFdiv prec emax (exact_of_int (o - c)) (exact_of_int o));
    reflexivity.
Qed.

(** The ratio of 2,000,000 and 500,000, and the two sizes in MB. *)
Definition ratio_of_sample : spec_float :=
  Eval vm_compute in
    match percent_of (2000000 - 500000) 2000000 with
    | Ok (VFloat f) => f
    | _ => S754_nan
    end.

Definition mb_of (size : Z) : spec_float :=
  match truediv (VInt size) (VInt (1024 * 1024)) with
  | Ok f => f
  | Raise _ => S754_nan
  end.

Definition mb_before : spec_float := Eval vm_compute in mb_of 2000000.

Definition mb_after : spec_float := Eval vm_compute in mb_of 500000.

Lemma ratio_of_sample_is_75 :
  percent_of (2000000 - 500000) 2000000 = Ok (VFloat ratio_of_sample) /\
  (exists q, to_Q ratio_of_sample = Some q /\ (q == 75)%Q) /\
  SFltb (S754_zero false) ratio_of_sample = true /\
  truediv (VInt 2000000) (VInt (1024 * 1024)) = Ok mb_before /\
  truediv (VInt 500000) (VInt (1024 * 1024)) = Ok mb_after.
Proof.
  split; [vm_compute; reflexivity|]. split.
  - eexists. split; [reflexivity|]. vm_compute. reflexivity.
  - repeat split; vm_compute; reflexivity.
Qed.

Section Worker.

Variable path_name : string -> string.
Variable py_str : value -> string.
Variable fmt_fixed : nat -> spec_float -> string.
Variable exn_str : exn -> string.

Let run := Upload.run path_name py_str fmt_fixed exn_str.
Let run_all := Upload.run_all path_name py_str fmt_fixed exn_str.
Let format_f := Upload.format_f fmt_fixed.

(** The innermost pending call decides how the run continues. *)
Ltac next_call :=
  match goal with
  | |- context [match ?x with _ => _ end] =>
      lazymatch x with
      | context [match _ with _ => _ end] => fail
      | _ => destruct x eqn:?
      end
  end.

(** The call of [upload_file] that [run] makes. *)
Definition transfer (w : UploadWorker) : result value :=
  client w (device_id w) (hardware_key w) (file_path (meter_data w))
    (description (meter_data w)).

Definition failure_message (e : exn) : string := "上传失败: " ++ exn_str e.

(** Line 61, and lines 67-69 appended to it. *)
Definition success_message (file_id : value) : string :=
  "上传成功！文件ID: " ++ py_str file_id ++ nl.

Definition size_report (size_mb_before size_mb_after : spec_float) (percent : string)
    : string :=
  "原始大小: " ++ fmt_fixed 2 size_mb_before ++ "MB" ++ nl
  ++ "压缩后: " ++ fmt_fixed 2 size_mb_after ++ "MB" ++ nl
  ++ "压缩率: " ++ percent ++ "%".

(** The signals of a run that ends well, and of one that fails after
    the transfer has returned. *)
Definition reported (w : UploadWorker) (message : string) : list signal :=
  let name := path_name (file_path (meter_data w)) in
  [Progress name 30; Progress name 100; Finished name true message].

Definition failed_on_the_response (w : UploadWorker) (e : exn) : list signal :=
  let name := path_name (file_path (meter_data w)) in
  [Progress name 30; Progress name 100; Progress name 0;
   Finished name false (failure_message e)].

(** The three shapes a run can take: success; the transfer raised; the
    transfer returned and the response could not be read. *)
Lemma run_shape (w : UploadWorker) :
  let name := path_name (file_path (meter_data w)) in
  (exists msg,
     run w = ([Progress name 30; Progress name 100; Finished name true msg], Ok tt))
  \/ (exists e,
     client w (device_id w) (hardware_key w) (file_path (meter_data w))
       (description (meter_data w)) = Raise e /\
     run w = ([Progress name 30; Progress name 0;
               Finished name false (failure_message e)], Ok tt))
  \/ (exists e,
     run w = ([Progress name 30; Progress name 100; Progress name 0;
               Finished name false (failure_message e)], Ok tt)).
Proof.
  intro name. subst run. unfold Upload.run. fold name.
  unfold try_except, mbind, lift, emit, ret, failure_message.
  repeat (next_call; simpl;
          try (left; eexists; reflexivity);
          try (right; left; eexists; split; reflexivity);
          try (right; right; eexists; reflexivity)).
Qed.

Lemma failure_message_not_empty (e : exn) : failure_message e <> "".
Proof. unfold failure_message. simpl. discriminate. Qed.

Lemma one_result_per_worker (workers : list UploadWorker) :
  length (filter is_finished (run_all workers)) = length workers.
Proof.
  subst run_all. unfold Upload.run_all.
  induction workers as [|w rest IH]; [reflexivity|].
  simpl. rewrite filter_app, length_app, IH. f_equal.
  destruct (run_shape w) as [[m E]|[[e [_ E]]|[e E]]];
    subst run; cbv zeta in E; rewrite E; reflexivity.
Qed.

(** A run whose transfer returned, by what reading the response comes
    to: the two sizes, the ratio derived from them, the file id, and
    whether the sizes are reported. *)
Lemma run_on_a_response (w : UploadWorker)
    (result original_size compressed_size compression_ratio file_id : value)
    (with_sizes : bool) :
  transfer w = Ok result ->
  get result "original_size" (VInt 0) = Ok original_size ->
  get result "compressed_size" (VInt 0) = Ok compressed_size ->
  ratio_of_sizes original_size compressed_size = Ok compression_ratio ->
  get result "file_id" VNone = Ok file_id ->
  (if is_image (meter_data w) then gt_zero compression_ratio else Ok false)
  = Ok with_sizes ->
  fst (run w)
  = if with_sizes then
      match truediv original_size (VInt (1024 * 1024)),
            truediv compressed_size (VInt (1024 * 1024)),
            format_f 1 compression_ratio with
      | Ok size_mb_before, Ok size_mb_after, Ok percent =>
          reported w (success_message file_id
                      ++ size_report size_mb_before size_mb_after percent)
      | Raise e, _, _ | Ok _, Raise e, _ | Ok _, Ok _, Raise e =>
          failed_on_the_response w e
      end
    else reported w (success_message file_id).
Proof.
  intros Ht Ho Hc Hr Hf Hs. subst run format_f. unfold Upload.run, transfer in *.
  rewrite Ht. unfold try_except, mbind, lift, emit, ret. cbn [fst snd app].
  rewrite Ho, Hc, Hr, Hf. cbn [fst snd app].
  destruct (is_image (meter_data w)).
  - rewrite Hs. destruct with_sizes; [|reflexivity].
    destruct (truediv original_size (VInt (1024 * 1024))); [|reflexivity].
    destruct (truediv compressed_size (VInt (1024 * 1024))); [|reflexivity].
    destruct (Upload.format_f fmt_fixed 1 compression_ratio); reflexivity.
  - injection Hs as <-. reflexivity.
Qed.

Lemma run_on_a_failed_reading (w : UploadWorker)
    (result original_size compressed_size : value) (e : exn) :
  transfer w = Ok result ->
  get result "original_size" (VInt 0) = Ok original_size ->
  get result "compressed_size" (VInt 0) = Ok compressed_size ->
  ratio_of_sizes original_size compressed_size = Raise e ->
  fst (run w) = failed_on_the_response w e.
Proof.
  intros Ht Ho Hc Hr. subst run. unfold Upload.run, transfer in *.
  rewrite Ht. unfold try_except, mbind, lift, emit, ret. cbn [fst snd app].
  rewrite Ho, Hc, Hr. reflexivity.
Qed.

(** C4.  A run whose transfer returns a JSON object that reports the
    int sizes [o] and [c].  The ratio it derives on line 59 is
    [(o - c) / o * 100] in Python's arithmetic when [o > 0] and the
    int 0 when it is not, and the run shows it: with [o <= 0] the run
    ends well, no division having been made, and the message names no
    ratio; with [o > 0] the message of an image whose ratio is positive
    ends in that ratio, to one decimal, and a quotient out of range
    makes the run fail.  For 2,000,000 and 500,000 the ratio in the
    message of an image is the float whose value is exactly 75. *)
Theorem compression_ratio_formula (w : UploadWorker) (d : list (string * value))
    (o c : Z) :
  transfer w = Ok (VDict d) ->
  lookup "original_size" d = Some (VInt o) ->
  lookup "compressed_size" d = Some (VInt c) ->
  let file_id := match lookup "file_id" d with Some v => v | None => VNone end in
  let plain := reported w (success_message file_id) in
  let with_ratio size_mb_before size_mb_after ratio :=
    reported w (success_message file_id
                ++ size_report size_mb_before size_mb_after (fmt_fixed 1 ratio)) in
  ratio_of_sizes (VInt o) (VInt c)
  = (if 0 <? o then percent_of (o - c) o else Ok (VInt 0)) /\
  (o <= 0 -> fst (run w) = plain) /\
  (0 < o -> forall e, percent_of (o - c) o = Raise e ->
     fst (run w) = failed_on_the_response w e) /\
  (0 < o -> forall ratio, percent_of (o - c) o = Ok (VFloat ratio) ->
     if is_image (meter_data w) && SFltb (S754_zero false) ratio then
       forall size_mb_before size_mb_after,
         truediv (VInt o) (VInt (1024 * 1024)) = Ok size_mb_before ->
         truediv (VInt c) (VInt (1024 * 1024)) = Ok size_mb_after ->
         fst (run w) = with_ratio size_mb_before size_mb_after ratio
     else fst (run w) = plain) /\
  (o = 2000000 -> c = 500000 -> is_image (meter_data w) = true ->
   exists ratio q size_mb_before size_mb_after,
     to_Q ratio = Some q /\ (q == 75)%Q /\
     fst (run w) = with_ratio size_mb_before size_mb_after ratio).
Proof.
  intros Ht Ho Hc file_id plain with_ratio.
  assert (Go : get (VDict d) "original_size" (VInt 0) = Ok (VInt o))
    by (unfold get; now rewrite Ho).
  assert (Gc : get (VDict d) "compressed_size" (VInt 0) = Ok (VInt c))
    by (unfold get; now rewrite Hc).
  assert (Gf : get (VDict d) "file_id" VNone = Ok file_id)
    by (unfold get; subst file_id; destruct (lookup "file_id" d); reflexivity).
  pose proof (ratio_of_int_sizes o c) as Hratio.
  assert (Hpositive : 0 < o -> forall ratio, percent_of (o - c) o = Ok (VFloat ratio) ->
     if is_image (meter_data w) && SFltb (S754_zero false) ratio then
       forall size_mb_before size_mb_after,
         truediv (VInt o) (VInt (1024 * 1024)) = Ok size_mb_before ->
         truediv (VInt c) (VInt (1024 * 1024)) = Ok size_mb_after ->
         fst (run w) = with_ratio size_mb_before size_mb_after ratio
     else fst (run w) = plain).
  { intros Hpos ratio Hp.
    apply Z.ltb_lt in Hpos. rewrite Hpos, Hp in Hratio.
    destruct (is_image (meter_data w)) eqn:Hi; cbn [andb].
    - destruct (SFltb (S754_zero false) ratio) eqn:Hlt.
      + intros before after Hb Ha.
        rewrite (run_on_a_response w _ _ _ _ _ true Ht Go Gc Hratio Gf)
          by (rewrite Hi; cbn [gt_zero as_number]; now rewrite Hlt).
        rewrite Hb, Ha. reflexivity.
      + rewrite (run_on_a_response w _ _ _ _ _ false Ht Go Gc Hratio Gf)
          by (rewrite Hi; cbn [gt_zero as_number]; now rewrite Hlt).
        reflexivity.
    - rewrite (run_on_a_response w _ _ _ _ _ false Ht Go Gc Hratio Gf)
        by (now rewrite Hi).
      reflexivity. }
  split; [exact Hratio|]. split; [|split; [|split; [exact Hpositive|]]].
  - intro Hle.
    replace (0 <? o) with false in Hratio by (symmetry; apply Z.ltb_ge; lia).
    rewrite (run_on_a_response w _ _ _ _ _ false Ht Go Gc Hratio Gf);
      [reflexivity|]. destruct (is_image (meter_data w)); reflexivity.
  - intros Hpos e He. apply Z.ltb_lt in Hpos. rewrite Hpos, He in Hratio.
    exact (run_on_a_failed_reading w _ _ _ e Ht Go Gc Hratio).
  - intros -> -> Hi.
    destruct ratio_of_sample_is_75 as (Hp & (q & Hq & H75) & Hlt & Hb & Ha).
    exists ratio_of_sample, q, mb_before, mb_after.
    split; [exact Hq|]. split; [exact H75|].
    assert (Hpos : 0 < 2000000) by lia.
    specialize (Hpositive Hpos ratio_of_sample Hp).
    rewrite Hi, Hlt in Hpositive. exact (Hpositive _ _ Hb Ha).
Qed.

(** C1. Whatever the transfer does, a run of a worker returns normally
    and emits exactly one [finished] signal, as its last signal, after
    progress signals only: on success after the 100% report; when the
    transfer raises [e], a failure whose message is not empty.  When the
    transfer returns and the response is read, the result is a success
    that carries the message of lines 61-69; when reading the response
    raises, it is the one failure.  A pool that runs any workers one
    after another gets one result per worker. *)
Theorem run_emits_exactly_one_result (w : UploadWorker) :
  let name := path_name (file_path (meter_data w)) in
  let transfer := client w (device_id w) (hardware_key w)
                    (file_path (meter_data w)) (description (meter_data w)) in
  snd (run w) = Ok tt /\
  length (filter is_finished (fst (run w))) = 1%nat /\
  (exists before ok msg,
     fst (run w) = (before ++ [Finished name ok msg])%list /\
     forallb is_progress before = true /\
     (ok = true -> exists earlier, before = (earlier ++ [Progress name 100])%list) /\
     (ok = false -> msg <> "")) /\
  (forall e, transfer = Raise e ->
     fst (run w) = [Progress name 30; Progress name 0;
                    Finished name false (failure_message e)]) /\
  (forall result original_size compressed_size compression_ratio file_id,
     transfer = Ok result ->
     get result "original_size" (VInt 0) = Ok original_size ->
     get result "compressed_size" (VInt 0) = Ok compressed_size ->
     ratio_of_sizes original_size compressed_size = Ok compression_ratio ->
     get result "file_id" VNone = Ok file_id ->
     ((if is_image (meter_data w) then gt_zero compression_ratio else Ok false)
      = Ok false ->
      fst (run w)
      = [Progress name 30; Progress name 100;
         Finished name true (success_message file_id)]) /\
     (forall size_mb_before size_mb_after percent,
        is_image (meter_data w) = true -> gt_zero compression_ratio = Ok true ->
        truediv original_size (VInt (1024 * 1024)) = Ok size_mb_before ->
        truediv compressed_size (VInt (1024 * 1024)) = Ok size_mb_after ->
        format_f 1 compression_ratio = Ok percent ->
        fst (run w)
        = [Progress name 30; Progress name 100;
           Finished name true
             (success_message file_id
              ++ size_report size_mb_before size_mb_after percent)])) /\
  (forall d, transfer = Ok (VDict d) -> lookup "original_size" d = None ->
     fst (run w)
     = [Progress name 30; Progress name 100;
        Finished name true
          (success_message (match lookup "file_id" d with
                            | Some v => v
                            | None => VNone
                            end))]) /\
  (forall others_before others_after,
     length (filter is_finished (run_all (others_before ++ w :: others_after)))
     = length (others_before ++ w :: others_after)).
Proof.
  intros name transfer0.
  assert (Hpool : forall others_before others_after,
     length (filter is_finished (run_all (others_before ++ w :: others_after)))
     = length (others_before ++ w :: others_after))
    by (intros; apply one_result_per_worker).
  assert (Hread : forall result original_size compressed_size compression_ratio file_id,
     transfer0 = Ok result ->
     get result "original_size" (VInt 0) = Ok original_size ->
     get result "compressed_size" (VInt 0) = Ok compressed_size ->
     ratio_of_sizes original_size compressed_size = Ok compression_ratio ->
     get result "file_id" VNone = Ok file_id ->
     ((if is_image (meter_data w) then gt_zero compression_ratio else Ok false)
      = Ok false ->
      fst (run w)
      = [Progress name 30; Progress name 100;
         Finished name true (success_message file_id)]) /\
     (forall size_mb_before size_mb_after percent,
        is_image (meter_data w) = true -> gt_zero compression_ratio = Ok true ->
        truediv original_size (VInt (1024 * 1024)) = Ok size_mb_before ->
        truediv compressed_size (VInt (1024 * 1024)) = Ok size_mb_after ->
        format_f 1 compression_ratio = Ok percent ->
        fst (run w)
        = [Progress name 30; Progress name 100;
           Finished name true
             (success_message file_id
              ++ size_report size_mb_before size_mb_after percent)])).
  { intros result o c r fid Ht Ho Hc Hr Hf. split.
    - intro Hs. exact (run_on_a_response w _ _ _ _ _ false Ht Ho Hc Hr Hf Hs).
    - intros b a p Hi Hg Hb Ha Hp.
      rewrite (run_on_a_response w _ _ _ _ _ true Ht Ho Hc Hr Hf)
        by (now rewrite Hi).
      rewrite Hb, Ha, Hp. reflexivity. }
  assert (Hbare : forall d, transfer0 = Ok (VDict d) -> lookup "original_size" d = None ->
     fst (run w)
     = [Progress name 30; Progress name 100;
        Finished name true
          (success_message (match lookup "file_id" d with
                            | Some v => v
                            | None => VNone
                            end))]).
  { intros d Ht Hnone.
    assert (Go : get (VDict d) "original_size" (VInt 0) = Ok (VInt 0))
      by (unfold get; now rewrite Hnone).
    assert (Gc : exists c, get (VDict d) "compressed_size" (VInt 0) = Ok c)
      by (unfold get; destruct (lookup "compressed_size" d); eexists; reflexivity).
    destruct Gc as [c Gc].
    assert (Gf : get (VDict d) "file_id" VNone
                 = Ok (match lookup "file_id" d with Some v => v | None => VNone end))
      by (unfold get; destruct (lookup "file_id" d); reflexivity).
    apply (proj1 (Hread (VDict d) (VInt 0) c (VInt 0) _ Ht Go Gc eq_refl Gf)).
    destruct (is_image (meter_data w)); reflexivity. }
  destruct (run_shape w) as [[m E]|[[e [Hraise E]]|[e E]]];
    cbv zeta in E; fold name in E.
  - assert (Hok : forall e, transfer0 <> Raise e).
    { intros e He. subst run. unfold Upload.run in E. fold name transfer0 in E.
      rewrite He in E. discriminate E. }
    rewrite E in *. cbn [fst snd] in *.
    split; [reflexivity|]. split; [reflexivity|].
    split; [|split; [|split; [exact Hread|split; [exact Hbare|exact Hpool]]]].
    + exists [Progress name 30; Progress name 100], true, m.
      split; [reflexivity|]. split; [reflexivity|]. split.
      * intros _. exists [Progress name 30]. reflexivity.
      * discriminate.
    + intros e He. destruct (Hok e He).
  - rewrite E in *. cbn [fst snd] in *.
    split; [reflexivity|]. split; [reflexivity|].
    split; [|split; [|split; [exact Hread|split; [exact Hbare|exact Hpool]]]].
    + exists [Progress name 30; Progress name 0], false, (failure_message e).
      split; [reflexivity|]. split; [reflexivity|]. split.
      * discriminate.
      * intros _. apply failure_message_not_empty.
    + intros e' He'. fold transfer0 in Hraise. congruence.
  - assert (Hok : forall e, transfer0 <> Raise e).
    { intros e' He. subst run. unfold Upload.run in E. fold name transfer0 in E.
      rewrite He in E. discriminate E. }
    rewrite E in *. cbn [fst snd] in *.
    split; [reflexivity|]. split; [reflexivity|].
    split; [|split; [|split; [exact Hread|split; [exact Hbare|exact Hpool]]]].
    + exists [Progress name 30; Progress name 100; Progress name 0], false,
        (failure_message e).
      split; [reflexivity|]. split; [reflexivity|]. split.
      * discriminate.
      * intros _. apply failure_message_not_empty.
    + intros e' He. destruct (Hok e' He).
Qed.

End Worker.

(** The image of the sample is uploaded and the server reports the two
    sizes: the message carries the ratio. *)
Lemma compression_ratio_formula_witness :
  fst (Upload.run Window.Posix.name str_of fixed (fun _ => "")
         (sample_worker (Ok (VDict sample_response))))
  = [Progress "meter.png" 30; Progress "meter.png" 100;
     Finished "meter.png" true
       ("上传成功！文件ID: 7" ++ nl ++ "原始大小: 1.91MB" ++ nl
        ++ "压缩后: 0.48MB" ++ nl ++ "压缩率: 75.0%")].
Proof.
  destruct ratio_of_sample_is_75 as (Hp & _ & Hlt & Hb & Ha).
  pose proof (proj1 (proj2 (proj2 (proj2
    (compression_ratio_formula Window.Posix.name str_of fixed (fun _ => "")
       (sample_worker (Ok (VDict sample_response))) sample_response
       2000000 500000 eq_refl eq_refl eq_refl)))) eq_refl ratio_of_sample Hp) as H.
  cbn [sample_worker meter_data sample_image is_image data_type andb] in H.
  rewrite Hlt in H. rewrite (H mb_before mb_after Hb Ha).
  vm_compute. reflexivity.
Defined.

(** A response that is a JSON list: the transfer returned, so 100% was
    reported, then [result.get] raised and the run ended as a failure. *)
Example run_on_unreadable_response :
  Upload.run Window.Posix.name (fun _ => "") (fun _ _ => "") (fun _ => "AttributeError")
    (sample_worker (Ok (VList [])))
  = ([Progress "meter.png" 30; Progress "meter.png" 100; Progress "meter.png" 0;
      Finished "meter.png" false "上传失败: AttributeError"], Ok tt).
Proof. reflexivity. Qed.

(** Sizes 3 and 2: the float Python prints as 33.33333333333333. *)
Example ratio_of_three_and_two :
  ratio_of_sizes (VInt 3) (VInt 2)
  = Ok (VFloat (S754_finite false 4691249611844266 (-47))).
Proof. vm_compute. reflexivity. Qed.

End UploadFacts.

(* ================================================================== *)
(** * Properties of the heartbeat client                              *)
(* ================================================================== *)

Module PollingFacts.
Import Polling.
Local Open Scope list_scope.

(** The client as [connect_to_server] builds it. *)
Definition default_client : client :=
  init "http://localhost:8000/" "meter-01" "0123abcd".

(** The longest the thread can stay in the loop once the flag is clear. *)
Definition bound (c : client) : Z := Z.max (heartbeat_interval c) heartbeat_timeout.

Definition departure_of (c : client) : event :=
  Post (server_url c) offline_path (device_id c) (hardware_key c) offline_timeout.

Definition departure_posts (s : state) : list event :=
  filter (is_post_to offline_path) (trace s).

Definition same_settings (c c' : client) : Prop :=
  server_url c' = server_url c /\ device_id c' = device_id c /\
  hardware_key c' = hardware_key c /\
  heartbeat_interval c' = heartbeat_interval c.

Definition flag_of (cleared : option Z) : bool :=
  match cleared with None => true | Some _ => false end.

Definition left_at (c : client) (s : state) : Prop :=
  exists ts te, cleared_at s = Some ts /\ exited_at s = Some te /\
                ts <= te /\ te <= ts + bound c /\ te <= now s.

(** What holds at each point of [start()]. *)
Definition at_invariant (c : client) (s : state) : Prop :=
  match at_pc s with
  | Entry => exited_at s = None /\ departure_posts s = []
  | While | IfRunning =>
      exited_at s = None /\ departure_posts s = [] /\
      forall ts, cleared_at s = Some ts -> now s <= ts + bound c
  | Heartbeat _ wake =>
      exited_at s = None /\ departure_posts s = [] /\
      now s <= wake /\ wake <= now s + heartbeat_timeout /\
      forall ts, cleared_at s = Some ts -> wake <= ts + heartbeat_timeout
  | Sleeping wake =>
      exited_at s = None /\ departure_posts s = [] /\
      now s <= wake /\ wake <= now s + heartbeat_interval c /\
      forall ts, cleared_at s = Some ts -> wake <= ts + heartbeat_interval c
  | Offline _ wake =>
      departure_posts s = [departure_of c] /\ now s <= wake /\ left_at c s
  | Returned =>
      departure_posts s = [departure_of c] /\ connected (self s) = false /\
      left_at c s
  | Crashed => False
  end.

Definition invariant (c : client) (s : state) : Prop :=
  same_settings c (self s) /\
  (forall ts, cleared_at s = Some ts -> ts <= now s) /\
  (at_pc s <> Entry -> running (self s) = flag_of (cleared_at s)) /\
  at_invariant c s.

Lemma on_heartbeat_settings (o : outcome) (c : client) :
  same_settings c (fst (on_heartbeat o c)) /\
  running (fst (on_heartbeat o c)) = running c /\
  filter (is_post_to offline_path) (snd (on_heartbeat o c)) = [].
Proof.
  unfold same_settings.
  destruct o as [code| | |]; simpl;
    [destruct (code =? 200); [destruct (connected c)|]|..]; simpl; auto 8.
Qed.

Lemma on_offline_posts (o : outcome) :
  filter (is_post_to offline_path) (on_offline o ++ [Log InfoStopped]) = [].
Proof. destruct o; reflexivity. Qed.

Lemma invariant_boot (c : client) : invariant c (boot c).
Proof.
  unfold invariant, same_settings, at_invariant; simpl.
  repeat split; try discriminate. intros H; now destruct H.
Qed.

Ltac crush_invariant :=
  unfold invariant, same_settings, at_invariant, left_at, departure_posts,
    bound, heartbeat_timeout, offline_timeout, in_range in *;
  simpl in *.

Ltac break_hyps :=
  repeat match goal with
         | H : _ /\ _ |- _ => destruct H
         | H : exists _, _ |- _ => destruct H
         | H : False |- _ => destruct H
         | H : Some _ = Some _ |- _ => inversion H; subst; clear H
         end.

Ltac finish :=
  repeat split; auto; try discriminate; try congruence; try lia;
  try (intros ? E; inversion E; subst; lia);
  try (do 2 eexists; split; [reflexivity|]; split; [reflexivity|]; lia).

Lemma invariant_stop (c : client) (s : state) :
  invariant c s -> invariant c (stop s).
Proof.
  intros (Hset & Hts & Hrun & Hat).
  destruct s as [me p n tr cl ex]. crush_invariant.
  rewrite filter_app; simpl. rewrite app_nil_r.
  split; [exact Hset|]. split.
  - destruct cl; intros ts E; inversion E; subst; [auto|lia].
  - split; [destruct cl; reflexivity|].
    destruct p; destruct cl as [t|]; break_hyps; try discriminate;
      repeat split; auto;
      try (intros ts E; inversion E; subst; auto; lia);
      try (do 2 eexists; split; [reflexivity|]; split; [reflexivity|]; lia).
Qed.

Lemma invariant_tick (c : client) (d : Z) (s s' : state) :
  invariant c s -> tick d s = Some s' -> invariant c s'.
Proof.
  intros (Hset & Hts & Hrun & Hat) Htick.
  destruct s as [me p n tr cl ex]. unfold tick in Htick. simpl in Htick.
  destruct p; simpl in Htick; try discriminate;
    match type of Htick with
    | (if ?b then _ else _) = _ => destruct b eqn:Hd; [|discriminate]
    end;
    inversion Htick; subst; clear Htick;
    apply andb_true_iff in Hd; destruct Hd as [Hd1 Hd2];
    apply Z.leb_le in Hd1; apply Z.leb_le in Hd2;
    crush_invariant;
    (split; [exact Hset|]);
    (split; [intros ts E; specialize (Hts ts E); lia|]);
    (split; [exact Hrun|]).
  - destruct Hat as (? & ? & ? & ? & ?). repeat split; auto; lia.
  - destruct Hat as (? & ? & ? & ? & ?). repeat split; auto; lia.
  - destruct Hat as (? & ? & ts & te & ? & ? & ? & ? & ?).
    repeat split; auto; try lia. exists ts, te. repeat split; auto; lia.
Qed.

Lemma invariant_thread (c : client) (o : outcome) (d : Z) (s s' : state) :
  0 <= heartbeat_interval c ->
  invariant c s -> start_step o d s = Some s' -> invariant c s'.
Proof.
  intros Hpos (Hset & Hts & Hrun & Hat) Hstep.
  destruct s as [me p n tr cl ex]. unfold start_step in Hstep. simpl in Hstep.
  destruct p; simpl in Hstep.
  - (* Entry *)
    inversion Hstep; subst; clear Hstep. crush_invariant.
    rewrite filter_app; simpl. rewrite app_nil_r.
    intuition (try discriminate).
  - (* While *)
    destruct (running me) eqn:Hr.
    + destruct (in_range 0 d heartbeat_timeout) eqn:Hd; [|discriminate].
      inversion Hstep; subst; clear Hstep.
      apply andb_true_iff in Hd; destruct Hd as [Hd1 Hd2].
      apply Z.leb_le in Hd1; apply Z.leb_le in Hd2.
      crush_invariant. rewrite filter_app; simpl. rewrite app_nil_r.
      specialize (Hrun ltac:(discriminate)). rewrite Hr in Hrun.
      destruct cl as [ts0|]; [simpl in Hrun; discriminate Hrun|]. intuition (try discriminate; try lia).
    + destruct (in_range 0 d offline_timeout) eqn:Hd; [|discriminate].
      inversion Hstep; subst; clear Hstep.
      apply andb_true_iff in Hd; destruct Hd as [Hd1 Hd2].
      apply Z.leb_le in Hd1; apply Z.leb_le in Hd2.
      crush_invariant. rewrite filter_app; simpl.
      destruct Hset as (U & D & K & I). rewrite U, D, K.
      destruct Hat as (Hex & Hdep & Hb). rewrite Hdep.
      specialize (Hrun ltac:(discriminate)). rewrite Hr in Hrun.
      destruct cl as [ts|]; [|simpl in Hrun; discriminate Hrun].
      specialize (Hb ts eq_refl). specialize (Hts ts eq_refl).
      finish.
  - (* Heartbeat *)
    destruct (n =? wake) eqn:Hw; [|discriminate]. apply Z.eqb_eq in Hw. subst wake.
    destruct (on_heartbeat_settings o0 me) as (Hs' & Hr' & Hf').
    destruct (on_heartbeat o0 me) as [me' logs] eqn:Hh. simpl in Hs', Hr', Hf'.
    inversion Hstep; subst; clear Hstep.
    crush_invariant. rewrite filter_app, Hf', app_nil_r.
    destruct Hs' as (U & D & K & I). destruct Hset as (U0 & D0 & K0 & I0).
    destruct Hat as (Hex & Hdep & Hle & Hle' & Hb).
    repeat split; try congruence; auto.
    + intros _. rewrite Hr'. apply Hrun. discriminate.
    + intros ts E. specialize (Hb ts E). lia.
  - (* IfRunning *)
    destruct (running me) eqn:Hr.
    + assert (Hi : (heartbeat_interval me <? 0) = false).
      { apply Z.ltb_ge. destruct Hset as (_ & _ & _ & I). simpl in I. lia. }
      rewrite Hi in Hstep. inversion Hstep; subst; clear Hstep.
      crush_invariant.
      specialize (Hrun ltac:(discriminate)). rewrite Hr in Hrun.
      destruct cl as [ts0|]; [simpl in Hrun; discriminate Hrun|].
      destruct Hset as (U & D & K & I). rewrite I.
      intuition (try discriminate; try lia).
    + inversion Hstep; subst; clear Hstep. crush_invariant.
      specialize (Hrun ltac:(discriminate)). intuition.
  - (* Sleeping *)
    destruct (n =? wake) eqn:Hw; [|discriminate]. apply Z.eqb_eq in Hw. subst wake.
    inversion Hstep; subst; clear Hstep. crush_invariant.
    destruct Hat as (Hex & Hdep & Hle & Hle' & Hb).
    specialize (Hrun ltac:(discriminate)).
    repeat split; auto; try apply Hset.
    intros ts E. specialize (Hb ts E). lia.
  - (* Offline *)
    destruct (n =? wake) eqn:Hw; [|discriminate]. apply Z.eqb_eq in Hw. subst wake.
    inversion Hstep; subst; clear Hstep. crush_invariant.
    rewrite filter_app, (on_offline_posts o0), app_nil_r.
    destruct Hat as (Hdep & Hle & Hleft).
    specialize (Hrun ltac:(discriminate)).
    repeat split; auto; try apply Hset.
  - discriminate.
  - discriminate.
Qed.

Lemma invariant_run (c : client) (acts : list action) :
  0 <= heartbeat_interval c ->
  forall s s', invariant c s -> run_actions acts s = Some s' -> invariant c s'.
Proof.
  intros Hpos. induction acts as [|a rest IH]; intros s s' Hinv Hrun; simpl in Hrun.
  - inversion Hrun; subst; exact Hinv.
  - destruct (do_action a s) as [s1|] eqn:Ha; [|discriminate].
    apply (IH s1 s'); [|exact Hrun].
    destruct a as [o d| |d]; simpl in Ha.
    + eapply invariant_thread; eauto.
    + inversion Ha; subst. now apply invariant_stop.
    + eapply invariant_tick; eauto.
Qed.

Lemma invariant_reachable (c : client) (s : state) :
  0 <= heartbeat_interval c -> reachable c s -> invariant c s.
Proof.
  intros Hpos [acts Hrun].
  eapply invariant_run; eauto using invariant_boot.
Qed.

(** ** Runs of the thread when nobody interferes *)

Lemma run_actions_app (a b : list action) (s : state) :
  run_actions (a ++ b) s =
  match run_actions a s with
  | Some s' => run_actions b s'
  | None => None
  end.
Proof.
  revert s. induction a as [|x a IH]; intro s; simpl; [reflexivity|].
  destruct (do_action x s); [apply IH|reflexivity].
Qed.

Lemma on_heartbeat_posts (o : outcome) (c : client) :
  filter (is_post_to heartbeat_path) (snd (on_heartbeat o c)) = [].
Proof.
  destruct o as [code| | |]; simpl;
    [destruct (code =? 200); [destruct (connected c)|]|..]; reflexivity.
Qed.

Lemma in_range_refl (x : Z) : 0 <= x -> in_range 0 x x = true.
Proof.
  intro H. unfold in_range. apply andb_true_iff. split; apply Z.leb_le; lia.
Qed.

(** What a stretch of the run leaves as it was. *)
Definition keeps (s s' : state) : Prop :=
  running (self s') = running (self s) /\
  heartbeat_interval (self s') = heartbeat_interval (self s) /\
  heartbeats s' = heartbeats s.

Ltac open_state s :=
  destruct s as [me p n tr cl ex]; simpl in *; subst; unfold keeps, heartbeats;
  cbn [run_actions do_action start_step tick wake_of at_pc now self trace
       cleared_at exited_at].

Lemma from_while (s : state) (o : outcome) (d : Z) :
  at_pc s = While -> running (self s) = true ->
  in_range 0 d heartbeat_timeout = true ->
  exists s', run_actions [Thread o d] s = Some s' /\
             at_pc s' = Heartbeat o (now s' + d) /\
             heartbeats s' = S (heartbeats s).
Proof.
  intros Hpc Hr Hd. open_state s. rewrite Hr, Hd.
  eexists. split; [reflexivity|]. split; [reflexivity|].
  simpl. rewrite filter_app, length_app. simpl. lia.
Qed.

Lemma from_sleeping (s : state) (wake : Z) (o : outcome) (d : Z) :
  at_pc s = Sleeping wake -> now s <= wake ->
  exists s', run_actions [Tick (wake - now s); Thread o d] s = Some s' /\
             at_pc s' = While /\ keeps s s'.
Proof.
  intros Hpc Hle. open_state s. rewrite in_range_refl by lia.
  cbn [start_step at_pc now self trace cleared_at exited_at].
  replace (n + (wake - n)) with wake by lia. rewrite Z.eqb_refl.
  eexists. split; [reflexivity|]. simpl. auto.
Qed.

Lemma from_if_running (s : state) (o : outcome) (d : Z) :
  at_pc s = IfRunning -> running (self s) = true ->
  0 <= heartbeat_interval (self s) ->
  exists s', run_actions [Thread o d; Tick (heartbeat_interval (self s)); Thread o d] s
             = Some s' /\
             at_pc s' = While /\ keeps s s'.
Proof.
  intros Hpc Hr Hi. open_state s. rewrite Hr.
  replace (heartbeat_interval me <? 0) with false by (symmetry; apply Z.ltb_ge; lia).
  cbn [tick wake_of at_pc now self trace cleared_at exited_at].
  replace (n + heartbeat_interval me - n) with (heartbeat_interval me) by lia.
  rewrite in_range_refl by lia.
  cbn [start_step at_pc now self trace cleared_at exited_at].
  rewrite Z.eqb_refl.
  eexists. split; [reflexivity|]. simpl. auto.
Qed.

Lemma from_if_stopped (s : state) (o : outcome) (d : Z) :
  at_pc s = IfRunning -> running (self s) = false ->
  exists s', run_actions [Thread o d] s = Some s' /\
             at_pc s' = While /\ keeps s s'.
Proof.
  intros Hpc Hr. open_state s. rewrite Hr.
  eexists. split; [reflexivity|]. simpl. auto.
Qed.

Lemma from_heartbeat (s : state) (o' : outcome) (wake : Z) (o : outcome) (d : Z) :
  at_pc s = Heartbeat o' wake -> now s <= wake ->
  exists s', run_actions [Tick (wake - now s); Thread o d] s = Some s' /\
             at_pc s' = IfRunning /\ keeps s s'.
Proof.
  intros Hpc Hle. open_state s. rewrite in_range_refl by lia.
  cbn [start_step at_pc now self trace cleared_at exited_at].
  replace (n + (wake - n)) with wake by lia. rewrite Z.eqb_refl.
  destruct (on_heartbeat_settings o' me) as ((_ & _ & _ & Hi) & Hr & _).
  pose proof (on_heartbeat_posts o' me) as Hp.
  destruct (on_heartbeat o' me) as [me' logs]. simpl in Hi, Hr, Hp.
  eexists. split; [reflexivity|]. simpl.
  rewrite filter_app, length_app, Hp. simpl. auto with zarith.
Qed.

Lemma from_while_stopped (s : state) (o : outcome) (d : Z) :
  at_pc s = While -> running (self s) = false ->
  in_range 0 d offline_timeout = true ->
  exists s', run_actions [Thread o d; Tick d; Thread o d] s = Some s' /\
             at_pc s' = Returned.
Proof.
  intros Hpc Hr Hd. open_state s. rewrite Hr, Hd.
  cbn [tick wake_of at_pc now self trace cleared_at exited_at].
  replace (n + d - n) with d by lia.
  assert (0 <= d) by (apply andb_true_iff in Hd; destruct Hd as [H _];
                      now apply Z.leb_le in H).
  rewrite in_range_refl by lia.
  cbn [start_step at_pc now self trace cleared_at exited_at].
  rewrite Z.eqb_refl. eexists. split; reflexivity.
Qed.

Lemma from_offline (s : state) (o' : outcome) (wake : Z) (o : outcome) (d : Z) :
  at_pc s = Offline o' wake -> now s <= wake ->
  exists s', run_actions [Tick (wake - now s); Thread o d] s = Some s' /\
             at_pc s' = Returned.
Proof.
  intros Hpc Hle. open_state s. rewrite in_range_refl by lia.
  cbn [start_step at_pc now self trace cleared_at exited_at].
  replace (n + (wake - n)) with wake by lia. rewrite Z.eqb_refl.
  eexists. split; reflexivity.
Qed.

Ltac chain H s1 :=
  let E := fresh "E" in
  let P := fresh "P" in
  let K := fresh "K" in
  destruct H as (s1 & E & P & K);
  rewrite run_actions_app, E.

Lemma next_heartbeat_is_issued (c : client) (s : state) (o : outcome) (d : Z) :
  0 <= heartbeat_interval c -> invariant c s ->
  in_loop (at_pc s) = true -> running (self s) = true ->
  in_range 0 d heartbeat_timeout = true ->
  exists s', run_actions (to_next_heartbeat o d s) s = Some s' /\
             at_pc s' = Heartbeat o (now s' + d) /\
             heartbeats s' = S (heartbeats s).
Proof.
  intros Hpos (Hset & _ & _ & Hat) Hloop Hr Hd.
  destruct Hset as (_ & _ & _ & Hi).
  unfold at_invariant in Hat. unfold to_next_heartbeat.
  destruct (at_pc s) eqn:Hpc; try discriminate.
  - now apply from_while.
  - destruct Hat as (_ & _ & Hle & _).
    change [Tick (wake - now s); Thread o d; Thread o d;
            Tick (heartbeat_interval (self s)); Thread o d; Thread o d]
      with ([Tick (wake - now s); Thread o d]
            ++ [Thread o d; Tick (heartbeat_interval (self s)); Thread o d]
            ++ [Thread o d]).
    chain (from_heartbeat s o0 wake o d Hpc Hle) s1.
    destruct K as (Kr & Ki & Kh). rewrite <- Ki.
    assert (Hr1 : running (self s1) = true) by congruence.
    assert (Hi1 : 0 <= heartbeat_interval (self s1)) by lia.
    chain (from_if_running s1 o d P Hr1 Hi1) s2.
    destruct K as (Kr2 & Ki2 & Kh2).
    assert (Hr2 : running (self s2) = true) by congruence.
    destruct (from_while s2 o d P0 Hr2 Hd) as (s3 & E3 & P3 & H3).
    exists s3. repeat split; auto. lia.
  - change [Thread o d; Tick (heartbeat_interval (self s)); Thread o d; Thread o d]
      with ([Thread o d; Tick (heartbeat_interval (self s)); Thread o d]
            ++ [Thread o d]).
    assert (Hi0 : 0 <= heartbeat_interval (self s)) by lia.
    chain (from_if_running s o d Hpc Hr Hi0) s1.
    destruct K as (Kr & Ki & Kh).
    assert (Hr1 : running (self s1) = true) by congruence.
    destruct (from_while s1 o d P Hr1 Hd) as (s2 & E2 & P2 & H2).
    exists s2. repeat split; auto. lia.
  - destruct Hat as (_ & _ & Hle & _).
    change [Tick (wake - now s); Thread o d; Thread o d]
      with ([Tick (wake - now s); Thread o d] ++ [Thread o d]).
    chain (from_sleeping s wake o d Hpc Hle) s1.
    destruct K as (Kr & Ki & Kh).
    assert (Hr1 : running (self s1) = true) by congruence.
    destruct (from_while s1 o d P Hr1 Hd) as (s2 & E2 & P2 & H2).
    exists s2. repeat split; auto. lia.
Qed.

Lemma returns_once_stopped (c : client) (s : state) (o : outcome) (d : Z) :
  invariant c s ->
  in_loop (at_pc s) = true \/ left_loop (at_pc s) = true ->
  at_pc s <> Returned ->
  running (self s) = false ->
  in_range 0 d offline_timeout = true ->
  exists s', run_actions (to_return o d s) s = Some s' /\ at_pc s' = Returned.
Proof.
  intros (_ & _ & _ & Hat) Hwhere Hnot Hr Hd.
  unfold at_invariant in Hat. unfold to_return.
  destruct (at_pc s) eqn:Hpc; try (destruct Hwhere; discriminate);
    try congruence.
  - now apply from_while_stopped.
  - destruct Hat as (_ & _ & Hle & _).
    change [Tick (wake - now s); Thread o d; Thread o d; Thread o d; Tick d; Thread o d]
      with ([Tick (wake - now s); Thread o d] ++ [Thread o d]
            ++ [Thread o d; Tick d; Thread o d]).
    chain (from_heartbeat s o0 wake o d Hpc Hle) s1.
    destruct K as (Kr & _).
    assert (Hr1 : running (self s1) = false) by congruence.
    chain (from_if_stopped s1 o d P Hr1) s2.
    destruct K as (Kr2 & _).
    assert (Hr2 : running (self s2) = false) by congruence.
    now apply from_while_stopped.
  - change [Thread o d; Thread o d; Tick d; Thread o d]
      with ([Thread o d] ++ [Thread o d; Tick d; Thread o d]).
    chain (from_if_stopped s o d Hpc Hr) s1.
    destruct K as (Kr & _).
    assert (Hr1 : running (self s1) = false) by congruence.
    now apply from_while_stopped.
  - destruct Hat as (_ & _ & Hle & _).
    change [Tick (wake - now s); Thread o d; Thread o d; Tick d; Thread o d]
      with ([Tick (wake - now s); Thread o d] ++ [Thread o d; Tick d; Thread o d]).
    chain (from_sleeping s wake o d Hpc Hle) s1.
    destruct K as (Kr & _).
    assert (Hr1 : running (self s1) = false) by congruence.
    now apply from_while_stopped.
  - destruct Hat as (_ & Hle & _). now apply (from_offline s o0 wake).
Qed.

(** The flag is recorded as cleared only in runs with a call of [stop()]. *)
Lemma cleared_only_by_stop (acts : list action) :
  forall s s' ts, run_actions acts s = Some s' -> cleared_at s = None ->
                  cleared_at s' = Some ts -> In Stop acts.
Proof.
  induction acts as [|a rest IH]; intros s s' ts Hrun Hnone Hsome; simpl in Hrun.
  - inversion Hrun; subst; congruence.
  - destruct (do_action a s) as [s1|] eqn:Ha; [|discriminate].
    destruct a as [o d| |d]; simpl in Ha; [right|now left|right];
      apply (IH s1 s' ts Hrun); auto.
    + destruct s as [me p n tr cl ex]. unfold start_step in Ha. simpl in *.
      destruct p; simpl in Ha;
        repeat match type of Ha with
               | (if ?b then _ else _) = _ => destruct b
               | (let (_, _) := ?x in _) = _ => destruct x
               end;
        inversion Ha; subst; auto.
    + unfold tick in Ha. destruct (wake_of (at_pc s)); [|discriminate].
      destruct (in_range 0 d (z - now s)); inversion Ha; subst; auto.
Qed.

Lemma cleared_kept_by_thread (acts : list action) :
  forall s s', run_actions acts s = Some s' -> at_pc s <> Entry ->
               ~ In Stop acts ->
               cleared_at s' = cleared_at s /\ at_pc s' <> Entry.
Proof.
  induction acts as [|a rest IH]; intros s s' Hrun Hpc Hno; simpl in Hrun.
  - inversion Hrun; subst; auto.
  - destruct (do_action a s) as [s1|] eqn:Ha; [|discriminate].
    assert (H1 : cleared_at s1 = cleared_at s /\ at_pc s1 <> Entry).
    { destruct a as [o d| |d]; simpl in Ha.
      - destruct s as [me p n tr cl ex]. unfold start_step in Ha. simpl in *.
        destruct p; simpl in Ha; try congruence;
          repeat match type of Ha with
                 | (if ?b then _ else _) = _ => destruct b
                 | (let (_, _) := ?x in _) = _ => destruct x
                 end;
          inversion Ha; subst; simpl; split; auto; discriminate.
      - exfalso. apply Hno. now left.
      - unfold tick in Ha. destruct (wake_of (at_pc s)); [|discriminate].
        destruct (in_range 0 d (z - now s)); inversion Ha; subst; auto. }
    destruct H1 as [Hc Hp].
    destruct (IH s1 s' Hrun Hp) as [Hc' Hp']; [intro; apply Hno; now right|].
    split; congruence.
Qed.

Lemma to_next_heartbeat_no_stop (o : outcome) (d : Z) (s : state) :
  ~ In Stop (to_next_heartbeat o d s).
Proof.
  unfold to_next_heartbeat. destruct (at_pc s); simpl; intuition discriminate.
Qed.

Lemma to_return_no_stop (o : outcome) (d : Z) (s : state) :
  ~ In Stop (to_return o d s).
Proof.
  unfold to_return. destruct (at_pc s); simpl; intuition discriminate.
Qed.

(** ** Sample runs *)

Definition ok : outcome := Response 200.

(** [start()] is entered, a first heartbeat succeeds after one time
    unit, and the thread goes to sleep. *)
Definition connect_and_sleep : list action :=
  [Thread ok 0; Thread ok 1; Tick 1; Thread ok 0; Thread ok 0].

(** A second heartbeat is under way and will time out. *)
Definition second_probe_fails : list action :=
  connect_and_sleep ++ [Tick 30; Thread ok 0; Thread Timeout 10].

Definition state_after (acts : list action) (c : client) : state :=
  match run_actions acts (boot c) with
  | Some s => s
  | None => boot c
  end.

(** The claim of a bound that does not depend on the heartbeat interval:
    once the flag is cleared at [ts], the thread is in the loop no later
    than [ts + latency]. *)
Definition wakes_within (c : client) (latency : Z) : Prop :=
  forall acts s ts,
    run_actions acts (boot c) = Some s ->
    cleared_at s = Some ts -> in_loop (at_pc s) = true ->
    now s <= ts + latency.

(** C2. From a client whose interval is not negative: [start()] never
    ends by an exception; it is past its loop only in runs that contain
    a call of [stop()], the flag being clear; and from anywhere in the
    loop, whatever the outcome of the heartbeat under way, while the flag
    is set the thread alone reaches the issue of the next heartbeat. *)
Theorem loop_ends_only_by_stop (c : client) (acts : list action) (s : state) :
  0 <= heartbeat_interval c ->
  run_actions acts (boot c) = Some s ->
  at_pc s <> Crashed /\
  (left_loop (at_pc s) = true -> In Stop acts /\ running (self s) = false) /\
  (in_loop (at_pc s) = true -> running (self s) = true ->
   forall o d, in_range 0 d heartbeat_timeout = true ->
     ~ In Stop (to_next_heartbeat o d s) /\
     exists s', run_actions (to_next_heartbeat o d s) s = Some s' /\
                at_pc s' = Heartbeat o (now s' + d) /\
                heartbeats s' = S (heartbeats s)).
Proof.
  intros Hpos Hrun.
  assert (Hinv : invariant c s) by (apply invariant_reachable; [assumption|now exists acts]).
  split; [|split].
  - destruct Hinv as (_ & _ & _ & Hat). unfold at_invariant in Hat.
    intro E. now rewrite E in Hat.
  - intro Hleft.
    destruct Hinv as (_ & _ & Hflag & Hat). unfold at_invariant in Hat.
    assert (Hc : exists ts, cleared_at s = Some ts).
    { destruct (at_pc s); try discriminate; destruct Hat as (_ & _ & ts & _ & E & _);
        now exists ts. }
    destruct Hc as [ts Hc]. split.
    + exact (cleared_only_by_stop acts _ _ ts Hrun eq_refl Hc).
    + rewrite Hflag, Hc; [reflexivity|]. destruct (at_pc s); discriminate.
  - intros Hloop Hr o d Hd. split; [apply to_next_heartbeat_no_stop|].
    now apply (next_heartbeat_is_issued c).
Qed.

Lemma loop_ends_only_by_stop_witness :
  let s := state_after second_probe_fails default_client in
  at_pc s = Heartbeat Timeout 41 /\
  exists s', run_actions (to_next_heartbeat ConnectionError 3 s) s = Some s' /\
             at_pc s' = Heartbeat ConnectionError (now s' + 3) /\
             heartbeats s' = S (heartbeats s).
Proof.
  split; [reflexivity|].
  apply (loop_ends_only_by_stop default_client second_probe_fails
           (state_after second_probe_fails default_client));
    try reflexivity.
  simpl; lia.
Defined.

(** ** Stopping *)

(** The state after a first successful heartbeat, for any interval. *)
Definition probed (i : Z) : state :=
  let c := set_heartbeat_interval i default_client in
  {| self := set_connected true (set_running true c);
     at_pc := IfRunning; now := 1;
     trace := [Log InfoStart;
               Post (server_url c) heartbeat_path (device_id c) (hardware_key c)
                 heartbeat_timeout;
               Log InfoConnected; Log DebugBeat];
     cleared_at := None; exited_at := None |}.

Lemma probed_run (i : Z) :
  run_actions [Thread ok 0; Thread ok 1; Tick 1; Thread ok 0]
    (boot (set_heartbeat_interval i default_client)) = Some (probed i).
Proof. reflexivity. Qed.

(** [stop()] is called as the sleep begins; the thread is still asleep a
    whole interval later. *)
Lemma sleeps_through_stop (i : Z) :
  0 <= i ->
  exists s, run_actions ([Thread ok 0; Thread ok 1; Tick 1; Thread ok 0]
                         ++ [Thread ok 0; Stop; Tick i])
              (boot (set_heartbeat_interval i default_client)) = Some s /\
            at_pc s = Sleeping (1 + i) /\ cleared_at s = Some 1 /\ now s = 1 + i.
Proof.
  intro Hi. rewrite run_actions_app, probed_run.
  unfold probed.
  cbn [run_actions do_action start_step at_pc self now trace cleared_at exited_at
       running set_running set_connected set_heartbeat_interval heartbeat_interval].
  replace (i <? 0) with false by (symmetry; apply Z.ltb_ge; lia).
  cbn [stop tick wake_of at_pc self now trace cleared_at exited_at].
  replace (1 + i - 1) with i by lia. rewrite in_range_refl by lia.
  eexists. split; [reflexivity|]. simpl. auto.
Qed.

(** C3, as stated, fails.  With the settings of the source (interval 30,
    timeout 10), [stop()] called when the sleep begins at time 1 finds
    the thread still asleep at time 31; and no bound of the form
    timeout + eps holds for every interval. *)
Lemma stop_waits_for_the_sleep :
  (let s := state_after (connect_and_sleep ++ [Stop; Tick 30]) default_client in
   at_pc s = Sleeping 31 /\ running (self s) = false /\
   cleared_at s = Some 1 /\ now s = 31) /\
  ~ (exists eps, forall interval, 0 <= interval ->
       wakes_within (set_heartbeat_interval interval default_client)
         (heartbeat_timeout + eps)).
Proof.
  split; [repeat split|].
  intros [eps H].
  assert (Hi : 0 <= Z.max eps 0 + 11) by lia.
  destruct (sleeps_through_stop _ Hi) as (s & Hrun & Hpc & Hc & Hnow).
  specialize (H _ Hi _ s 1 Hrun Hc). rewrite Hpc in H. specialize (H eq_refl).
  unfold heartbeat_timeout in H. lia.
Qed.

(** C3, amended.  [stop()] itself takes no time and moves nothing but
    the flag.  Once it has cleared the flag at [ts], the thread is in the
    loop no later than [ts + max interval timeout], leaves it within that
    bound, and does leave it: alone it runs on to the end of [start()]. *)
Theorem stop_latency_bound (c : client) (acts : list action) (s : state) (ts : Z) :
  0 <= heartbeat_interval c ->
  run_actions acts (boot c) = Some s ->
  cleared_at s = Some ts ->
  (now (stop s) = now s /\ at_pc (stop s) = at_pc s) /\
  (in_loop (at_pc s) = true ->
   now s <= ts + Z.max (heartbeat_interval c) heartbeat_timeout) /\
  (forall te, exited_at s = Some te ->
   ts <= te <= ts + Z.max (heartbeat_interval c) heartbeat_timeout) /\
  (in_loop (at_pc s) = true ->
   forall o d, in_range 0 d offline_timeout = true ->
     ~ In Stop (to_return o d s) /\
     exists s' te, run_actions (to_return o d s) s = Some s' /\
                   at_pc s' = Returned /\ exited_at s' = Some te /\
                   te <= ts + Z.max (heartbeat_interval c) heartbeat_timeout).
Proof.
  intros Hpos Hrun Hc.
  assert (Hinv : invariant c s) by (apply invariant_reachable; [assumption|now exists acts]).
  split; [split; reflexivity|].
  assert (Hloop : in_loop (at_pc s) = true ->
                  now s <= ts + Z.max (heartbeat_interval c) heartbeat_timeout).
  { intro Hin. destruct Hinv as (_ & Hts & _ & Hat). unfold at_invariant, bound in Hat.
    specialize (Hts ts Hc).
    destruct (at_pc s); try discriminate; break_hyps;
      match goal with H : forall t, _ = Some t -> _ |- _ => specialize (H ts Hc) end;
      unfold heartbeat_timeout in *; lia. }
  split; [exact Hloop|]. split.
  - intros te He. destruct Hinv as (_ & _ & _ & Hat).
    unfold at_invariant, left_at, bound in Hat.
    destruct (at_pc s); break_hyps; try congruence;
      match goal with
      | E1 : cleared_at s = Some ?a, E2 : exited_at s = Some ?b |- _ =>
          assert (a = ts) by congruence; assert (b = te) by congruence; subst; lia
      end.
  - intros Hin o d Hd. split; [apply to_return_no_stop|].
    assert (Hentry : at_pc s <> Entry) by (destruct (at_pc s); discriminate).
    assert (Hr : running (self s) = false).
    { destruct Hinv as (_ & _ & Hflag & _). rewrite (Hflag Hentry), Hc. reflexivity. }
    destruct (returns_once_stopped c s o d Hinv (or_introl Hin)) as (s' & Hrun' & Hpc');
      auto; [destruct (at_pc s); discriminate|].
    assert (Hinv' : invariant c s').
    { apply invariant_reachable; [assumption|]. exists (acts ++ to_return o d s).
      now rewrite run_actions_app, Hrun. }
    destruct (cleared_kept_by_thread _ _ _ Hrun' Hentry (to_return_no_stop o d s))
      as [Hkept _].
    destruct Hinv' as (_ & _ & _ & Hat'). unfold at_invariant, left_at, bound in Hat'.
    rewrite Hpc' in Hat'. destruct Hat' as (_ & _ & ts' & te & Hc' & He' & _ & Hle & _).
    exists s', te. repeat split; auto.
    assert (ts' = ts) by congruence. subst. exact Hle.
Qed.

Lemma stop_latency_bound_witness :
  let s := state_after (connect_and_sleep ++ [Stop; Tick 30]) default_client in
  in_loop (at_pc s) = true /\ now s = 31 /\
  now s <= 1 + Z.max (heartbeat_interval default_client) heartbeat_timeout.
Proof.
  split; [reflexivity|]. split; [reflexivity|].
  refine (proj1 (proj2 (stop_latency_bound default_client
                          (connect_and_sleep ++ [Stop; Tick 30])
                          (state_after (connect_and_sleep ++ [Stop; Tick 30])
                             default_client) 1 _ _ _)) _);
    try reflexivity.
  simpl; lia.
Defined.

(** ** The departure notice *)

Lemma departure_notice (c : client) (acts : list action) (s : state) :
  0 <= heartbeat_interval c ->
  run_actions acts (boot c) = Some s ->
  (left_loop (at_pc s) = true -> departure_posts s = [departure_of c]) /\
  (left_loop (at_pc s) = false -> departure_posts s = []) /\
  (at_pc s = Returned -> connected (self s) = false) /\
  (forall o wake, at_pc s = Offline o wake ->
     exists s', run_actions [Tick (wake - now s); Thread o 0] s = Some s' /\
                at_pc s' = Returned /\
                trace s' = trace s ++ on_offline o ++ [Log InfoStopped]) /\
  (at_pc s <> Entry -> cleared_at s <> None -> is_connected (self s) = false).
Proof.
  intros Hpos Hrun.
  assert (Hinv : invariant c s) by (apply invariant_reachable; [assumption|now exists acts]).
  destruct Hinv as (_ & _ & Hflag & Hat). unfold at_invariant in Hat.
  repeat split.
  - intro H. destruct (at_pc s); try discriminate; apply Hat.
  - intro H. destruct (at_pc s); try discriminate; try apply Hat. destruct Hat.
  - intro H. rewrite H in Hat. apply Hat.
  - intros o wake Hpc. rewrite Hpc in Hat. destruct Hat as (_ & Hle & _).
    clear Hflag Hrun. destruct s as [me p n tr cl ex]. simpl in *. subst p.
    cbn [run_actions do_action tick wake_of at_pc now self trace cleared_at exited_at].
    rewrite in_range_refl by lia.
    cbn [start_step at_pc now self trace cleared_at exited_at].
    replace (n + (wake - n)) with wake by lia. rewrite Z.eqb_refl.
    eexists. repeat split.
  - intros Hentry Hc. unfold is_connected. rewrite (Hflag Hentry).
    destruct (cleared_at s); [apply andb_false_r|congruence].
Qed.

(** C7, as stated, fails.  After a successful heartbeat the client
    reports connected; the call of [stop()] makes it report disconnected
    at once, the thread still in its loop and no departure notice sent;
    and a failed notice leaves no log line. *)
Lemma disconnected_before_departure :
  (let s := state_after connect_and_sleep default_client in
   let s' := state_after (connect_and_sleep ++ [Stop]) default_client in
   is_connected (self s) = true /\ s' = stop s /\
   is_connected (self s') = false /\ in_loop (at_pc s') = true /\
   departure_posts s' = []) /\
  on_offline Timeout = [] /\ on_offline ConnectionError = [] /\
  on_offline OtherException = [].
Proof. repeat split. Qed.

(** C5, as stated, fails: [start()] of a client built with empty
    credentials enters the loop and posts a heartbeat that carries them. *)
Lemma start_probes_with_empty_identity :
  let s := state_after [Thread ok 0; Thread ok 0] (init "http://localhost:8000" "" "") in
  at_pc s = Heartbeat ok 0 /\
  trace s = [Log InfoStart;
             Post "http://localhost:8000" heartbeat_path "" "" heartbeat_timeout] /\
  heartbeats s = 1%nat.
Proof. repeat split. Qed.

End PollingFacts.

(* ================================================================== *)
(** * Properties of the work queue                                    *)
(* ================================================================== *)

Module WindowFacts.
Import Meter Window.
Local Open Scope list_scope.

(** ** Sample data *)

Definition sample_files (p : string) : option Z :=
  if String.eqb p "/data/a.xlsx" then Some 2048
  else if String.eqb p "/data/b.png" then Some 4096
  else if String.eqb p "/data/c.XLS" then Some 1024
  else None.

Definition sample_config : LowerConfig :=
  {| cfg_server_url := "http://localhost:8000"; cfg_device_id := "meter-01";
     cfg_hardware_key := "0123abcd"; cfg_concurrent_uploads := None |}.

Definition sample_window : LowerComputerWindow := new_window sample_config.

Definition sample_run (ops : list op) : UI unit :=
  run_ops Posix.name Posix.suffix Posix.stem Posix.lower Posix.strip sample_files ops.

Definition sample_connect : op :=
  ConnectToServer "10.0.0.2" (Py.Ok (Py.VDict [("message", Py.VStr "ok")])).

(** A first batch: one spreadsheet, uploaded with success. *)
Definition first_batch : list op :=
  [sample_connect; AddMeterData "/data/a.xlsx" EXCEL "e1" "i1" 1; UploadData;
   OnUploadFinished "a.xlsx" true "done"].

(** A second batch: one image is added and submitted. *)
Definition second_batch : list op :=
  [AddMeterData "/data/b.png" IMAGE "e2" "i2" 2; UploadData].

(** ** How an operation may change a row *)

Definition succeeded (x : MeterDataListItem) : bool := contains "成功" (status_label x).

(** A row whose label says success carries the upload mark. *)
Definition status_ok (x : MeterDataListItem) : Prop :=
  succeeded x = true -> uploaded x = true.

Definition no_worse (x y : MeterDataListItem) : Prop :=
  meter_data y = meter_data x /\
  (uploaded x = true -> uploaded y = true) /\
  (status_ok x -> status_ok y).

Definition touched (e e' : string * file_info) : Prop :=
  fst e' = fst e /\ data (snd e') = data (snd e) /\
  no_worse (widget (snd e)) (widget (snd e')).

Definition retouched (d d' : list (string * file_info)) : Prop :=
  Forall2 touched d d'.

Lemma no_worse_refl (x : MeterDataListItem) : no_worse x x.
Proof. unfold no_worse; auto. Qed.

Lemma touched_refl (e : string * file_info) : touched e e.
Proof. unfold touched; auto using no_worse_refl. Qed.

Lemma retouched_refl (d : list (string * file_info)) : retouched d d.
Proof. induction d; constructor; auto using touched_refl. Qed.

Lemma touched_trans (a b c : string * file_info) :
  touched a b -> touched b c -> touched a c.
Proof.
  unfold touched, no_worse.
  intros (K1 & D1 & M1 & U1 & S1) (K2 & D2 & M2 & U2 & S2).
  repeat split; try congruence; auto.
Qed.

Lemma retouched_trans (a b c : list (string * file_info)) :
  retouched a b -> retouched b c -> retouched a c.
Proof.
  intros Hab. revert c.
  induction Hab as [|x y a b Hxy _ IH]; intros c Hbc; inversion Hbc; subst;
    constructor; [eapply touched_trans; eassumption|apply IH; assumption].
Qed.

Lemma retouched_keys (d d' : list (string * file_info)) :
  retouched d d' -> map fst d' = map fst d.
Proof.
  induction 1 as [|e e' d d' (K & _) _ IH]; simpl; [reflexivity|congruence].
Qed.

Lemma retouched_in (d d' : list (string * file_info)) (e' : string * file_info) :
  retouched d d' -> In e' d' -> exists e, In e d /\ touched e e'.
Proof.
  induction 1 as [|e0 e0' d d' H0 _ IH]; simpl; [tauto|].
  intros [->|Hin]; [exists e0; auto|].
  destruct (IH Hin) as (e & He & Ht). exists e; auto.
Qed.

Lemma retouched_in_before (d d' : list (string * file_info)) (e : string * file_info) :
  retouched d d' -> In e d -> exists e', In e' d' /\ touched e e'.
Proof.
  induction 1 as [|e0 e0' d d' H0 _ IH]; simpl; [tauto|].
  intros [->|Hin]; [exists e0'; auto|].
  destruct (IH Hin) as (e' & He & Ht). exists e'; auto.
Qed.

Section Retouching.

Variable f : MeterDataListItem -> MeterDataListItem.
Hypothesis f_no_worse : forall x, no_worse x (f x).

Lemma with_widget_touched (k : string) (fi : file_info) :
  touched (k, fi) (k, with_widget f fi).
Proof. unfold touched; simpl; auto. Qed.

Lemma dict_update_retouched (key : string) (d : list (string * file_info)) :
  retouched d (dict_update key (with_widget f) d).
Proof.
  induction d as [|[k v] d IH]; simpl; [constructor|].
  destruct (String.eqb k key); constructor;
    auto using with_widget_touched, touched_refl; apply retouched_refl.
Qed.

Lemma update_first_retouched (p : file_info -> bool) (d : list (string * file_info)) :
  retouched d (update_first p (with_widget f) d).
Proof.
  induction d as [|[k v] d IH]; simpl; [constructor|].
  destruct (p v); constructor;
    auto using with_widget_touched, touched_refl; apply retouched_refl.
Qed.

End Retouching.

Lemma set_checked_no_worse (b : bool) (x : MeterDataListItem) :
  no_worse x (set_checked b x).
Proof. unfold no_worse, status_ok, succeeded; simpl; auto. Qed.

Lemma set_progress_no_worse (v : Z) (x : MeterDataListItem) :
  no_worse x (set_progress v x).
Proof. unfold no_worse, status_ok, succeeded; simpl; auto. Qed.

Lemma mark_uploading_no_worse (x : MeterDataListItem) :
  no_worse x (set_progress 0 (set_status "上传中..." "blue" x)).
Proof.
  unfold no_worse, status_ok, succeeded; simpl status_label; simpl uploaded.
  repeat split; auto. intros _ H. vm_compute in H. discriminate.
Qed.

Lemma mark_success_no_worse (x : MeterDataListItem) :
  no_worse x (set_uploaded true (set_progress 100 (set_status "✓ 成功" "green" x))).
Proof. unfold no_worse, status_ok; simpl; auto. Qed.

Lemma mark_failure_no_worse (x : MeterDataListItem) :
  no_worse x (set_progress 0 (set_status "✗ 失败" "red" x)).
Proof.
  unfold no_worse, status_ok, succeeded; simpl status_label; simpl uploaded.
  repeat split; auto. intros _ H. vm_compute in H. discriminate.
Qed.

Lemma check_unless_uploaded_retouched (b : bool) (d : list (string * file_info)) :
  retouched d (map (check_unless_uploaded b) d).
Proof.
  induction d as [|[k v] d IH]; simpl; constructor; auto.
  destruct (uploaded (widget v)); [apply touched_refl|].
  apply with_widget_touched, set_checked_no_worse.
Qed.

(** ** Dict facts *)

Lemma dict_mem_in (key : string) (d : list (string * file_info)) :
  dict_mem key d = true <-> In key (map fst d).
Proof.
  unfold dict_mem. induction d as [|[k v] d IH]; simpl; [split; [discriminate|tauto]|].
  destruct (String.eqb_spec k key) as [->|Hne]; [tauto|].
  rewrite IH. split; [auto|]. intros [E|H]; [contradiction|exact H].
Qed.

Lemma dict_set_fresh (key : string) (v : file_info) (d : list (string * file_info)) :
  dict_mem key d = false -> dict_set key v d = d ++ [(key, v)].
Proof.
  unfold dict_mem. induction d as [|[k v'] d IH]; simpl; [reflexivity|].
  destruct (String.eqb k key); [discriminate|]. intro H. now rewrite IH.
Qed.

Lemma dict_del_keys (key : string) (d : list (string * file_info)) :
  map fst (dict_del key d) = remove_row key (map fst d).
Proof.
  induction d as [|[k v] d IH]; simpl; [reflexivity|].
  destruct (String.eqb k key); simpl; congruence.
Qed.

Lemma dict_del_incl (key : string) (d : list (string * file_info)) (e : string * file_info) :
  In e (dict_del key d) -> In e d.
Proof.
  induction d as [|[k v] d IH]; simpl; [tauto|].
  destruct (String.eqb k key); simpl; tauto.
Qed.

Lemma dict_del_other (key : string) (d : list (string * file_info)) (e : string * file_info) :
  fst e <> key -> In e d -> In e (dict_del key d).
Proof.
  intro Hne. induction d as [|[k v] d IH]; simpl; [tauto|].
  destruct (String.eqb_spec k key) as [->|Hk]; simpl.
  - intros [<-|H]; [contradiction|exact H].
  - tauto.
Qed.

Lemma remove_row_incl (key : string) (rows : list string) (r : string) :
  In r (remove_row key rows) -> In r rows.
Proof.
  induction rows as [|x rows IH]; simpl; [tauto|].
  destruct (String.eqb x key); simpl; tauto.
Qed.

Lemma remove_row_NoDup (key : string) (rows : list string) :
  NoDup rows -> NoDup (remove_row key rows).
Proof.
  induction 1 as [|x rows Hx Hnd IH]; simpl; [constructor|].
  destruct (String.eqb x key); [assumption|].
  constructor; [|assumption]. intro H. apply Hx. eapply remove_row_incl; eauto.
Qed.

Lemma dict_del_absent (key : string) (d : list (string * file_info)) :
  dict_mem key d = false -> dict_del key d = d.
Proof.
  unfold dict_mem. induction d as [|[k v] d IH]; simpl; [reflexivity|].
  destruct (String.eqb k key); [discriminate|]. intro H. now rewrite IH.
Qed.

(** ** How an operation may change the queue *)

(** One change of the queue and of the rows of the list widget: rows are
    retouched in place, a row is appended under a key that was absent, the
    row of a key in [gone] is deleted, or (when every key is in [gone])
    the queue is cleared. *)
Inductive change (gone : string -> Prop) (w w' : LowerComputerWindow) : Prop :=
| Retouch :
    data_list_widget w' = data_list_widget w ->
    retouched (data_items w) (data_items w') -> change gone w w'
| Append (k : string) (m : MeterData) :
    dict_mem k (data_items w) = false ->
    data_items w' = data_items w ++ [(k, {| widget := new_item m; data := m |})] ->
    data_list_widget w' = data_list_widget w ++ [k] -> change gone w w'
| Delete (k : string) :
    gone k ->
    data_items w' = dict_del k (data_items w) ->
    data_list_widget w' = remove_row k (data_list_widget w) -> change gone w w'
| Clear :
    (forall k, gone k) ->
    data_items w' = [] -> data_list_widget w' = [] -> change gone w w'.

Inductive changes (gone : string -> Prop) : LowerComputerWindow -> LowerComputerWindow -> Prop :=
| changes_none (w : LowerComputerWindow) : changes gone w w
| changes_more (w1 w2 w3 : LowerComputerWindow) :
    change gone w1 w2 -> changes gone w2 w3 -> changes gone w1 w3.

Lemma changes_one (gone : string -> Prop) (w w' : LowerComputerWindow) :
  change gone w w' -> changes gone w w'.
Proof. intro H. eapply changes_more; [exact H|constructor]. Qed.

Lemma changes_app (gone : string -> Prop) (w1 w2 w3 : LowerComputerWindow) :
  changes gone w1 w2 -> changes gone w2 w3 -> changes gone w1 w3.
Proof.
  induction 1 as [|a b c Hab _ IH]; [auto|].
  intro H. eapply changes_more; [exact Hab|auto].
Qed.

Lemma changes_weaken (gone gone' : string -> Prop) (w w' : LowerComputerWindow) :
  (forall k, gone k -> gone' k) -> changes gone w w' -> changes gone' w w'.
Proof.
  intros Hsub. induction 1 as [|a b c Hab _ IH]; [constructor|].
  eapply changes_more; [|exact IH].
  destruct Hab as [R1 R2|k m A1 A2 A3|k G D1 D2|G Q1 Q2];
    [eapply Retouch|eapply Append|eapply Delete|eapply Clear]; eauto.
Qed.

(** The rows of the list widget are the keys of the queue, each once. *)
Definition well_formed (w : LowerComputerWindow) : Prop :=
  NoDup (map fst (data_items w)) /\
  data_list_widget w = map fst (data_items w).

(** Every row labelled as succeeded carries the upload mark. *)
Definition marks_agree (w : LowerComputerWindow) : Prop :=
  forall e, In e (data_items w) -> status_ok (widget (snd e)).

(** The queue holds [key], and every row under [key] carries the mark. *)
Definition stuck (key : string) (w : LowerComputerWindow) : Prop :=
  In key (map fst (data_items w)) /\
  forall e, In e (data_items w) -> fst e = key -> uploaded (widget (snd e)) = true.

Lemma change_well_formed (gone : string -> Prop) (w w' : LowerComputerWindow) :
  change gone w w' -> well_formed w -> well_formed w'.
Proof.
  unfold well_formed.
  intros [R1 R2|k m A1 A2 A3|k G D1 D2|G Q1 Q2] [Hnd Hrows].
  - rewrite (retouched_keys _ _ R2), R1. auto.
  - rewrite A2, A3, map_app, Hrows. simpl. split; [|reflexivity].
    apply NoDup_app; [exact Hnd|repeat constructor; simpl; tauto|].
    intros x Hx [<-|[]].
    apply dict_mem_in in Hx. congruence.
  - rewrite D1, D2, dict_del_keys, Hrows. split; [|reflexivity].
    now apply remove_row_NoDup.
  - rewrite Q1, Q2. split; [constructor|reflexivity].
Qed.

Lemma change_marks_agree (gone : string -> Prop) (w w' : LowerComputerWindow) :
  change gone w w' -> marks_agree w -> marks_agree w'.
Proof.
  unfold marks_agree.
  intros [R1 R2|k m A1 A2 A3|k G D1 D2|G Q1 Q2] H e He.
  - destruct (retouched_in _ _ _ R2 He) as (e0 & He0 & _ & _ & _ & _ & Hs).
    apply Hs, H, He0.
  - rewrite A2 in He. apply in_app_or in He. destruct He as [He|[<-|[]]]; [auto|].
    unfold status_ok, succeeded. simpl. intro Hc. vm_compute in Hc. discriminate.
  - rewrite D1 in He. apply dict_del_incl in He. auto.
  - rewrite Q1 in He. destruct He.
Qed.

Lemma change_stuck (gone : string -> Prop) (key : string) (w w' : LowerComputerWindow) :
  ~ gone key -> change gone w w' -> stuck key w -> stuck key w'.
Proof.
  unfold stuck.
  intros Hkeep [R1 R2|k m A1 A2 A3|k G D1 D2|G Q1 Q2] [Hin Hup].
  - split; [now rewrite (retouched_keys _ _ R2)|].
    intros e' He' Hk.
    destruct (retouched_in _ _ _ R2 He') as (e & He & K & _ & _ & U & _).
    apply U, (Hup e He). congruence.
  - rewrite A2. split; [rewrite map_app; apply in_or_app; now left|].
    intros e He Hk. apply in_app_or in He. destruct He as [He|[<-|[]]]; [auto|].
    simpl in Hk. subst k. apply dict_mem_in in Hin. congruence.
  - assert (Hne : k <> key) by (intros ->; contradiction).
    rewrite D1. split.
    + apply in_map_iff in Hin. destruct Hin as (e & <- & He).
      apply in_map, dict_del_other; auto.
    + intros e He Hk. apply dict_del_incl in He. auto.
  - destruct (Hkeep (G key)).
Qed.

Lemma changes_well_formed (gone : string -> Prop) (w w' : LowerComputerWindow) :
  changes gone w w' -> well_formed w -> well_formed w'.
Proof. induction 1; eauto using change_well_formed. Qed.

Lemma changes_marks_agree (gone : string -> Prop) (w w' : LowerComputerWindow) :
  changes gone w w' -> marks_agree w -> marks_agree w'.
Proof. induction 1; eauto using change_marks_agree. Qed.

Lemma changes_stuck (gone : string -> Prop) (key : string) (w w' : LowerComputerWindow) :
  ~ gone key -> changes gone w w' -> stuck key w -> stuck key w'.
Proof. intro Hk. induction 1; eauto using change_stuck. Qed.

(** ** The methods, one by one *)

Lemma state_after_bind {A B} (m : UI A) (k : A -> UI B) (w : LowerComputerWindow) :
  state_after (bind m k) w = state_after (k (fst (fst (m w)))) (state_after m w).
Proof.
  unfold state_after, bind.
  destruct (m w) as [[a w1] e1]. simpl. destruct (k a w1) as [[b w2] e2].
  reflexivity.
Qed.

Lemma effects_of_bind {A B} (m : UI A) (k : A -> UI B) (w : LowerComputerWindow) :
  effects_of (bind m k) w
  = effects_of m w ++ effects_of (k (fst (fst (m w)))) (state_after m w).
Proof.
  unfold effects_of, state_after, bind.
  destruct (m w) as [[a w1] e1]. simpl. destruct (k a w1) as [[b w2] e2].
  reflexivity.
Qed.

Lemma for_each_changes {A} (gone : string -> Prop) (body : A -> UI unit) (l : list A) :
  (forall x w, In x l -> changes gone w (state_after (body x) w)) ->
  forall w, changes gone w (state_after (for_each l body) w).
Proof.
  induction l as [|x l IH]; intros H w; simpl.
  - constructor.
  - rewrite state_after_bind. eapply changes_app.
    + apply H. now left.
    + apply IH. intros y w' Hy. apply H. now right.
Qed.

Lemma update_data_count_state (w : LowerComputerWindow) :
  state_after update_data_count w = w.
Proof. reflexivity. Qed.

Lemma mem_in (x : string) (l : list string) : mem x l = true <-> In x l.
Proof.
  unfold mem. rewrite existsb_exists. split.
  - intros (y & Hy & E). apply String.eqb_eq in E. now subst.
  - intro H. exists x. split; [exact H|apply String.eqb_refl].
Qed.

Lemma remove_item_changes (gone : string -> Prop) (k : string) (w : LowerComputerWindow) :
  gone k -> changes gone w (state_after (remove_item k) w).
Proof.
  intro G. apply changes_one. apply (Delete gone _ _ k G).
  - unfold remove_item, state_after, bind, modify; simpl.
    destruct (dict_mem k (data_items w)) eqn:E; simpl; [reflexivity|].
    now rewrite dict_del_absent.
  - unfold remove_item, state_after, bind, modify; simpl.
    destruct (dict_mem k (data_items w)); reflexivity.
Qed.

Lemma start_worker_changes (gone : string -> Prop) (dev key : string)
    (entry : string * file_info) (w : LowerComputerWindow) :
  changes gone w (state_after (start_worker dev key entry) w).
Proof.
  apply changes_one, Retouch; [reflexivity|].
  unfold start_worker, state_after, bind, modify, tell; simpl.
  apply dict_update_retouched, mark_uploading_no_worse.
Qed.

Lemma check_all_state (w : LowerComputerWindow) :
  state_after check_all_uploads_finished w = w.
Proof.
  unfold check_all_uploads_finished, state_after, bind, read; simpl.
  destruct (tally (data_items w)) as [[all_finished s] f].
  destruct (all_finished && _); reflexivity.
Qed.

Section Methods.

Variable path_name : string -> string.
Variable path_suffix : string -> string.
Variable path_stem : string -> string.
Variable str_lower : string -> string.
Variable str_strip : string -> string.
Variable fs : string -> option Z.

Let add_meter_data := Window.add_meter_data path_name path_suffix path_stem str_lower fs.
Let on_upload_finished := Window.on_upload_finished path_name.
Let on_upload_progress := Window.on_upload_progress path_name.
Let connect_to_server := Window.connect_to_server str_strip.
Let perform := Window.perform path_name path_suffix path_stem str_lower str_strip fs.
Let run_ops := Window.run_ops path_name path_suffix path_stem str_lower str_strip fs.

Lemma create_meter_data_path (k : string) (description : option string) (now : Z)
    (m : MeterData) :
  create_meter_data path_suffix path_stem str_lower fs k description now = Some m ->
  file_path m = k.
Proof.
  unfold create_meter_data. destruct (fs k); [|discriminate].
  destruct (detect_data_type _ _ k); [|discriminate].
  intro H. inversion H. reflexivity.
Qed.

Lemma add_meter_data_present (k : string) (t : DataType) (ed id : string) (now : Z)
    (w : LowerComputerWindow) :
  dict_mem k (data_items w) = true ->
  add_meter_data k t ed id now w = (tt, w, [LogLine false (TAlreadyInList (path_name k))]).
Proof.
  intro H. subst add_meter_data.
  unfold Window.add_meter_data, bind, read; simpl. rewrite H. reflexivity.
Qed.

Lemma add_meter_data_changes (gone : string -> Prop) (k : string) (t : DataType)
    (ed id : string) (now : Z) (w : LowerComputerWindow) :
  changes gone w (state_after (add_meter_data k t ed id now) w).
Proof.
  subst add_meter_data.
  unfold Window.add_meter_data, state_after, bind, read; simpl.
  destruct (dict_mem k (data_items w)) eqn:E; simpl; [constructor|].
  destruct (create_meter_data _ _ _ _ k _ now) as [m|]; simpl; [|constructor].
  apply changes_one, (Append gone _ _ k m E); simpl; [|reflexivity].
  now apply dict_set_fresh.
Qed.

Lemma connect_to_server_queue (ip : string) (auth : Py.result Py.value)
    (w : LowerComputerWindow) :
  data_items (state_after (connect_to_server ip auth) w) = data_items w /\
  data_list_widget (state_after (connect_to_server ip auth) w) = data_list_widget w.
Proof.
  subst connect_to_server.
  unfold Window.connect_to_server, state_after, bind, read, modify, tell, log,
    connect_failed; simpl.
  destruct (negb _); simpl; [auto|].
  destruct auth as [r|e]; simpl; [|auto].
  destruct (Py.get r "message" Py.VNone); simpl; [|auto].
  destruct (connection_mode w); simpl; auto.
Qed.

Lemma perform_changes (o : op) (w : LowerComputerWindow) :
  changes (fun k => removes k o = true) w (state_after (perform o) w).
Proof.
  subst perform. destruct o; unfold Window.perform.
  - apply add_meter_data_changes.
  - unfold remove_selected_data. destruct selected_items as [|k l] eqn:E; [constructor|].
    rewrite <- E. rewrite !state_after_bind.
    unfold log. unfold state_after at 1. unfold tell. simpl snd.
    rewrite update_data_count_state.
    apply for_each_changes. intros x w' Hx.
    apply remove_item_changes. simpl. now apply mem_in.
  - unfold clear_data_list, state_after, bind, read, modify, tell, log; simpl.
    destruct (data_items w) eqn:E; [constructor|].
    destruct reply_yes; simpl; [|constructor].
    apply changes_one, Clear; auto.
  - apply changes_one, Retouch; [reflexivity|].
    unfold select_all_data, state_after, bind, modify, log, tell; simpl.
    apply check_unless_uploaded_retouched.
  - apply changes_one, Retouch; [reflexivity|].
    unfold deselect_all_data, state_after, bind, modify, log, tell; simpl.
    apply check_unless_uploaded_retouched.
  - apply changes_one, Retouch; [reflexivity|].
    unfold operator_checks, state_after, modify; simpl.
    apply dict_update_retouched, set_checked_no_worse.
  - unfold upload_data. rewrite state_after_bind. unfold read at 2. simpl fst.
    unfold state_after at 2. unfold read at 1. simpl snd.
    destruct (negb (authenticated w)); [constructor|].
    destruct (data_items w) as [|e0 d0] eqn:Ed; [constructor|]. rewrite <- Ed.
    destruct (selected_entries (data_items w)) as [|s0 l0] eqn:Es; [constructor|].
    rewrite <- Es. rewrite !state_after_bind.
    apply for_each_changes. intros x w' _. apply start_worker_changes.
  - unfold stop_upload, state_after, bind, tell, log, restore_upload_buttons; simpl.
    destruct reply_yes; constructor.
  - apply changes_one, Retouch; [reflexivity|].
    unfold Window.on_upload_progress, state_after, modify; simpl.
    apply update_first_retouched, set_progress_no_worse.
  - unfold Window.on_upload_finished. rewrite !state_after_bind.
    rewrite check_all_state. unfold read. simpl fst. unfold state_after at 2. simpl snd.
    destruct (existsb _ _); [|constructor].
    destruct success; apply changes_one, Retouch; try reflexivity;
      unfold state_after, bind, modify, log, tell; simpl;
      apply update_first_retouched;
      [apply mark_success_no_worse|apply mark_failure_no_worse].
  - destruct (connect_to_server_queue device_ip authenticate_device w) as [Hd Hr].
    apply changes_one, Retouch; [exact Hr|]. subst connect_to_server.
    rewrite Hd. apply retouched_refl.
Qed.

Lemma run_ops_changes (ops : list op) (w : LowerComputerWindow) :
  changes (fun k => existsb (removes k) ops = true) w (state_after (run_ops ops) w).
Proof.
  subst run_ops. unfold Window.run_ops. revert w.
  induction ops as [|o ops IH]; intro w; simpl; [constructor|].
  rewrite state_after_bind. eapply changes_app.
  - eapply changes_weaken; [|apply (perform_changes o w)].
    simpl. intros k Hk. rewrite Hk. reflexivity.
  - eapply changes_weaken; [|apply IH].
    simpl. intros k Hk. rewrite Hk. apply orb_true_r.
Qed.

Lemma new_window_well_formed (cfg : LowerConfig) :
  well_formed (new_window cfg) /\ marks_agree (new_window cfg).
Proof.
  unfold well_formed, marks_agree; simpl. repeat split; [constructor|tauto].
Qed.

(** ** Adding a file *)

(** C10.  Adding a path that is in the queue changes nothing in the
    window and only logs that the data is already listed; adding the
    same path twice leaves the window as adding it once does; and in
    every window reached from the initial one, whatever is done, the
    keys of the queue are pairwise different and are the rows of the
    list. *)
Theorem add_same_path_is_noop (w : LowerComputerWindow) (k : string)
    (t t' : DataType) (ed id ed' id' : string) (now now' : Z)
    (cfg : LowerConfig) (ops : list op) :
  (dict_mem k (data_items w) = true ->
   add_meter_data k t ed id now w
   = (tt, w, [LogLine false (TAlreadyInList (path_name k))])) /\
  state_after (add_meter_data k t' ed' id' now')
    (state_after (add_meter_data k t ed id now) w)
  = state_after (add_meter_data k t ed id now) w /\
  well_formed (state_after (run_ops ops) (new_window cfg)).
Proof.
  split; [apply add_meter_data_present|]. split.
  - destruct (dict_mem k (data_items w)) eqn:E.
    + unfold state_after.
      rewrite (add_meter_data_present k t ed id now w E). simpl.
      now rewrite (add_meter_data_present k t' ed' id' now' w E).
    + unfold add_meter_data, Window.add_meter_data, state_after, bind, read; simpl.
      rewrite E.
      unfold create_meter_data.
      destruct (fs k) as [size|]; simpl; [|rewrite E; reflexivity].
      destruct (detect_data_type path_suffix str_lower k) as [dt|]; simpl;
        [|rewrite E; reflexivity].
      rewrite (dict_set_fresh _ _ _ E).
      assert (M : dict_mem k (data_items w ++ [(k,
                   {| widget := new_item
                        {| data_type := dt; file_path := k; timestamp := now;
                           description := match t with EXCEL => ed | IMAGE => id end;
                           file_size := size |};
                      data := {| data_type := dt; file_path := k; timestamp := now;
                                 description := match t with EXCEL => ed | IMAGE => id end;
                                 file_size := size |} |})]) = true).
      { apply dict_mem_in. rewrite map_app. apply in_or_app. right. now left. }
      rewrite M. reflexivity.
  - eapply changes_well_formed; [apply run_ops_changes|].
    apply new_window_well_formed.
Qed.

(** ** The aggregate check *)

Definition uploading (fi : file_info) : bool :=
  contains "上传中" (status_label (widget fi)).

Definition counted_success (fi : file_info) : bool :=
  negb (uploading fi) && contains "成功" (status_label (widget fi)).

Definition counted_failure (fi : file_info) : bool :=
  negb (uploading fi) && negb (contains "成功" (status_label (widget fi)))
  && contains "失败" (status_label (widget fi)).

Lemma tally_step_cases (a : bool) (s f : nat) (fi : file_info) :
  tally_step (a, s, f) fi
  = if uploading fi then (false, s, f)
    else if counted_success fi then (a, S s, f)
    else if counted_failure fi then (a, s, S f)
    else (a, s, f).
Proof.
  unfold tally_step, counted_success, counted_failure, uploading.
  destruct (contains "上传中" (status_label (widget fi))),
    (contains "成功" (status_label (widget fi))),
    (contains "失败" (status_label (widget fi))); reflexivity.
Qed.

Lemma tally_fold (l : list file_info) (a : bool) (s f : nat) :
  fold_left tally_step l (a, s, f)
  = (a && forallb (fun fi => negb (uploading fi)) l,
     (s + length (filter counted_success l))%nat,
     (f + length (filter counted_failure l))%nat).
Proof.
  revert a s f. induction l as [|fi l IH]; intros a s f.
  - simpl. now rewrite andb_true_r, !Nat.add_0_r.
  - cbn [fold_left forallb filter]. rewrite tally_step_cases.
    assert (Hs : counted_success fi = true -> uploading fi = false)
      by (unfold counted_success; destruct (uploading fi); simpl; congruence).
    assert (Hf : counted_failure fi = true ->
                 uploading fi = false /\ counted_success fi = false).
    { unfold counted_failure, counted_success.
      destruct (uploading fi), (contains "成功" (status_label (widget fi)));
        simpl; auto; discriminate. }
    destruct (uploading fi) eqn:U.
    + destruct (counted_success fi); [specialize (Hs eq_refl); discriminate|].
      destruct (counted_failure fi); [destruct (Hf eq_refl); discriminate|].
      rewrite IH. cbn [negb andb]. now rewrite andb_false_r.
    + cbn [negb andb]. destruct (counted_success fi) eqn:S1.
      * destruct (counted_failure fi); [destruct (Hf eq_refl); discriminate|].
        rewrite IH. cbn [length]. f_equal. f_equal. lia.
      * destruct (counted_failure fi); rewrite IH; cbn [length];
          [f_equal; lia|reflexivity].
Qed.

Definition all_done_effects (success_count fail_count : nat) : list effect :=
  [SetEnabled upload_btn true; SetEnabled stop_upload_btn false;
   SetEnabled add_excel_btn true; SetEnabled add_image_btn true;
   LogLine false (TAllDone success_count fail_count);
   InformationBox (TAllDone success_count fail_count)].

(** C6, as stated, fails.  A spreadsheet is uploaded in a first batch; a
    second batch submits one image; when the image succeeds the check
    reports two successes, and it acts on the buttons, the log and a
    message box: evaluated again it does all that again. *)
Lemma tally_counts_earlier_batches :
  let w1 := state_after (sample_run first_batch) sample_window in
  let w2 := state_after (sample_run second_batch) w1 in
  let w3 := state_after (sample_run [OnUploadFinished "b.png" true "done"]) w2 in
  map file_path (pool_starts (effects_of (sample_run second_batch) w1)) = ["/data/b.png"] /\
  tally (data_items w3) = (true, 2%nat, 0%nat) /\
  effects_of check_all_uploads_finished w3 = all_done_effects 2 0 /\
  effects_of check_all_uploads_finished
    (state_after check_all_uploads_finished w3) = all_done_effects 2 0.
Proof. repeat split. Qed.

(** C6, amended.  The check leaves the window, so every row, as it is,
    and evaluated again it finds the same tally and acts in the same way.
    The tally is over all the rows of the queue: it is complete when no
    label says uploading, and counts the labels that say success and
    those that say failure.  When it is complete and not empty the check
    enables the upload buttons, logs the tally and shows it in a box;
    otherwise it does nothing. *)
Theorem check_all_is_repeatable (w : LowerComputerWindow) :
  state_after check_all_uploads_finished w = w /\
  tally (data_items (state_after check_all_uploads_finished w)) = tally (data_items w) /\
  effects_of check_all_uploads_finished (state_after check_all_uploads_finished w)
  = effects_of check_all_uploads_finished w /\
  tally (data_items w)
  = (forallb (fun fi => negb (uploading fi)) (values (data_items w)),
     length (filter counted_success (values (data_items w))),
     length (filter counted_failure (values (data_items w)))) /\
  effects_of check_all_uploads_finished w
  = (let '(all_finished, success_count, fail_count) := tally (data_items w) in
     if all_finished && ((0 <? success_count)%nat || (0 <? fail_count)%nat)
     then all_done_effects success_count fail_count
     else []).
Proof.
  rewrite check_all_state. repeat split.
  - unfold tally. now rewrite tally_fold.
  - unfold check_all_uploads_finished, effects_of, bind, read; simpl.
    destruct (tally (data_items w)) as [[a sc] fc].
    destruct (a && _); reflexivity.
Qed.

(** ** Connecting *)

Lemma truthy_empty (s : string) : truthy s = false <-> s = "".
Proof. destruct s; simpl; split; congruence. Qed.

(** C5, amended.  The guard is in [connect_to_server]: when the server
    address or the device id is empty once stripped, or the hardware key
    is empty, it shows a warning and returns, the window unchanged: no
    client is built, nothing is sent and no heartbeat thread is started.
    A heartbeat client it does start has a device id and a hardware key
    that are not empty. *)
Theorem connect_requires_identity (w : LowerComputerWindow) (ip : string)
    (auth : Py.result Py.value) :
  (str_strip (server_input w) = "" \/ str_strip (device_id_input w) = "" \/
   cfg_hardware_key (lower_config w) = "" ->
   connect_to_server ip auth w
   = (tt, w, [WarningBox (TLiteral "请填写必要信息")])) /\
  (forall c, In (StartLongPolling c) (effects_of (connect_to_server ip auth) w) ->
             Polling.device_id c <> "" /\ Polling.hardware_key c <> "").
Proof.
  subst connect_to_server. unfold Window.connect_to_server. split.
  - intro H. unfold bind, read; simpl.
    assert (E : truthy (str_strip (server_input w))
                && truthy (str_strip (device_id_input w))
                && truthy (cfg_hardware_key (lower_config w)) = false).
    { destruct H as [H|[H|H]]; rewrite H; simpl;
        rewrite ?andb_false_r; reflexivity. }
    rewrite E. reflexivity.
  - intros c. unfold effects_of, bind, read, modify, tell, log, connect_failed; simpl.
    destruct (truthy (str_strip (server_input w))) eqn:E1; simpl;
      [|intros [H|[]]; discriminate].
    destruct (truthy (str_strip (device_id_input w))) eqn:E2; simpl;
      [|intros [H|[]]; discriminate].
    destruct (truthy (cfg_hardware_key (lower_config w))) eqn:E3; simpl;
      [|intros [H|[]]; discriminate].
    assert (N2 : str_strip (device_id_input w) <> "")
      by (intro H; apply truthy_empty in H; congruence).
    assert (N3 : cfg_hardware_key (lower_config w) <> "")
      by (intro H; apply truthy_empty in H; congruence).
    destruct auth as [r|e]; simpl;
      [|intros H; repeat (destruct H as [H|H]; [discriminate|]); destruct H].
    destruct (Py.get r "message" Py.VNone); simpl;
      [|intros H; repeat (destruct H as [H|H]; [discriminate|]); destruct H].
    destruct (connection_mode w); simpl; intros H;
      repeat match type of H with
             | _ \/ _ => destruct H as [H|H]; [try discriminate H|]
             end;
      try contradiction;
      inversion H; subst; simpl; auto.
Qed.

(** ** Selection after a success *)

Lemma only_entry_of_key (d : list (string * file_info)) (e e' : string * file_info) :
  NoDup (map fst d) -> In e d -> In e' d -> fst e' = fst e -> e' = e.
Proof.
  induction d as [|x d IH]; simpl; [tauto|].
  intros Hnd [->|He] [->|He'] Hk; inversion Hnd; subst; auto.
  - exfalso. apply H1. rewrite <- Hk. now apply in_map.
  - exfalso. apply H1. rewrite Hk. now apply in_map.
Qed.

Lemma finished_with_success (file_name message : string) (w : LowerComputerWindow) :
  data_items (state_after (on_upload_finished file_name true message) w)
  = update_first (named path_name file_name)
      (with_widget (fun x =>
         set_uploaded true (set_progress 100 (set_status "✓ 成功" "green" x))))
      (data_items w).
Proof.
  unfold on_upload_finished, Window.on_upload_finished.
  rewrite !state_after_bind, check_all_state.
  unfold read. simpl fst. unfold state_after at 2. simpl snd.
  destruct (existsb (named path_name file_name) (values (data_items w))) eqn:E.
  - reflexivity.
  - unfold state_after, ret; simpl. unfold values in E.
    induction (data_items w) as [|[k v] d IH]; simpl in *; [reflexivity|].
    apply orb_false_iff in E. destruct E as [E1 E2]. rewrite E1.
    f_equal. auto.
Qed.

(** C8.  In every window reached from the initial one, a row whose label
    says success carries the upload mark.  Whatever is done afterwards,
    as long as the row is not removed from the queue, the row under its
    key keeps the mark, so it is not selected, not even when its box is
    checked again, and no batch contains its key.  The update that
    [on_upload_finished] applies on success sets the label, clears the
    box and leaves the row not selected. *)
Theorem succeeded_item_is_never_selected (cfg : LowerConfig)
    (before after : list op) (e : string * file_info) :
  let w := state_after (run_ops before) (new_window cfg) in
  let w' := state_after (run_ops after) w in
  In e (data_items w) ->
  succeeded (widget (snd e)) = true ->
  existsb (removes (fst e)) after = false ->
  uploaded (widget (snd e)) = true /\
  In (fst e) (map fst (data_items w')) /\
  (forall e', In e' (data_items w') -> fst e' = fst e ->
     uploaded (widget (snd e')) = true /\
     is_selected (widget (snd e')) = false /\
     forall b, is_selected (set_checked b (widget (snd e'))) = false) /\
  ~ In (fst e) (submitted w') /\
  (forall file_name message w0,
     data_items (state_after (on_upload_finished file_name true message) w0)
     = update_first (named path_name file_name)
         (with_widget (fun x =>
            set_uploaded true (set_progress 100 (set_status "✓ 成功" "green" x))))
         (data_items w0)) /\
  (forall x,
     let y := set_uploaded true (set_progress 100 (set_status "✓ 成功" "green" x)) in
     succeeded y = true /\ checkbox y = false /\ is_selected y = false).
Proof.
  intros w w' Hin Hs Hkeep.
  destruct (new_window_well_formed cfg) as [Hwf0 Hm0].
  assert (Hwf : well_formed w)
    by (eapply changes_well_formed; [apply run_ops_changes|exact Hwf0]).
  assert (Hm : marks_agree w)
    by (eapply changes_marks_agree; [apply run_ops_changes|exact Hm0]).
  assert (Hup : uploaded (widget (snd e)) = true) by (apply (Hm e Hin), Hs).
  assert (Hstuck : stuck (fst e) w).
  { split; [now apply in_map|].
    intros e2 He2 Hk. destruct Hwf as [Hnd _].
    now rewrite (only_entry_of_key _ _ _ Hnd Hin He2 Hk). }
  assert (Hstuck' : stuck (fst e) w').
  { eapply changes_stuck; [|apply run_ops_changes|exact Hstuck].
    simpl. rewrite Hkeep. discriminate. }
  destruct Hstuck' as [Hin' Hall].
  assert (Hrows : forall e', In e' (data_items w') -> fst e' = fst e ->
            uploaded (widget (snd e')) = true /\
            is_selected (widget (snd e')) = false /\
            forall b, is_selected (set_checked b (widget (snd e'))) = false).
  { intros e' He' Hk. pose proof (Hall e' He' Hk) as U.
    unfold is_selected; simpl. rewrite U. simpl.
    repeat split; try intro; apply andb_false_r. }
  split; [exact Hup|]. split; [exact Hin'|]. split; [exact Hrows|]. split.
  - unfold submitted, selected_entries. intro H.
    apply in_map_iff in H. destruct H as (e' & Hk & He').
    apply filter_In in He'. destruct He' as [He' Hsel].
    destruct (Hrows e' He' Hk) as (_ & Hno & _). congruence.
  - split; [intros; apply finished_with_success|].
    intros x y. repeat split.
Qed.

End Methods.

(** ** What the pool is given *)

Definition uploading_label : string := "上传中...".

Lemma dict_get_update (k k' : string) (f : file_info -> file_info)
    (d : list (string * file_info)) :
  dict_get k' (dict_update k f d)
  = if String.eqb k' k then option_map f (dict_get k d) else dict_get k' d.
Proof.
  induction d as [|[x v] d IH]; simpl.
  - destruct (String.eqb k' k); reflexivity.
  - destruct (String.eqb_spec x k) as [->|Hx]; simpl.
    + destruct (String.eqb_spec k k') as [->|Hk].
      * now rewrite String.eqb_refl.
      * destruct (String.eqb_spec k' k) as [->|_]; [contradiction|reflexivity].
    + destruct (String.eqb_spec x k') as [->|Hx'].
      * destruct (String.eqb_spec k' k) as [->|_]; [contradiction|reflexivity].
      * exact IH.
Qed.

Lemma start_worker_items (dev key : string) (e : string * file_info)
    (w : LowerComputerWindow) :
  data_items (state_after (start_worker dev key e) w)
  = dict_update (fst e)
      (with_widget (fun x => set_progress 0 (set_status uploading_label "blue" x)))
      (data_items w).
Proof. reflexivity. Qed.

Lemma for_each_start_worker_pool (dev key : string) (l : list (string * file_info)) :
  forall w,
    pool_starts (effects_of (for_each l (start_worker dev key)) w)
    = map (fun e => data (snd e)) l /\
    max_thread_count (state_after (for_each l (start_worker dev key)) w)
    = max_thread_count w.
Proof.
  induction l as [|e l IH]; intro w; [split; reflexivity|].
  cbn [for_each]. rewrite effects_of_bind, state_after_bind.
  destruct (IH (state_after (start_worker dev key e) w)) as [IH1 IH2].
  split.
  - unfold pool_starts in *. rewrite flat_map_app, IH1. reflexivity.
  - rewrite IH2. reflexivity.
Qed.

Lemma for_each_start_worker_absent (dev key : string) (l : list (string * file_info)) :
  forall w k, dict_get k (data_items w) = None ->
              dict_get k (data_items (state_after (for_each l (start_worker dev key)) w))
              = None.
Proof.
  induction l as [|e l IH]; intros w k Hk; [exact Hk|].
  cbn [for_each]. rewrite state_after_bind. apply IH.
  rewrite start_worker_items, dict_get_update.
  destruct (String.eqb_spec k (fst e)) as [->|_]; [now rewrite Hk|exact Hk].
Qed.

Lemma for_each_start_worker_labels (dev key : string) (l : list (string * file_info)) :
  forall (w : LowerComputerWindow) (k : string) (fi : file_info),
    dict_get k (data_items (state_after (for_each l (start_worker dev key)) w)) = Some fi ->
    (In k (map fst l) \/
     exists fi0, dict_get k (data_items w) = Some fi0 /\
                 status_label (widget fi0) = uploading_label) ->
    status_label (widget fi) = uploading_label.
Proof.
  induction l as [|e l IH]; intros w k fi Hget Hk.
  - destruct Hk as [[]|(fi0 & H0 & L0)].
    change (dict_get k (data_items w) = Some fi) in Hget. congruence.
  - cbn [for_each] in Hget. rewrite state_after_bind in Hget.
    destruct (dict_get k (data_items (state_after (start_worker dev key e) w)))
      as [fi1|] eqn:E1.
    + apply (IH _ k fi Hget).
      rewrite start_worker_items, dict_get_update in E1.
      destruct Hk as [[E|Hin]|(fi0 & H0 & L0)].
      * right. exists fi1. rewrite start_worker_items, dict_get_update.
        subst k. rewrite String.eqb_refl in *.
        destruct (dict_get (fst e) (data_items w)); [|discriminate].
        inversion E1; subst. split; reflexivity.
      * now left.
      * right. exists fi1. rewrite start_worker_items, dict_get_update.
        destruct (String.eqb_spec k (fst e)) as [->|Hne]; rewrite H0 in *;
          inversion E1; subst; split; auto.
    + rewrite (for_each_start_worker_absent dev key l _ k E1) in Hget. discriminate.
Qed.

Lemma upload_data_idle (w : LowerComputerWindow) :
  authenticated w = false \/ selected_entries (data_items w) = [] ->
  state_after upload_data w = w /\ pool_starts (effects_of upload_data w) = [].
Proof.
  intro H. unfold upload_data, state_after, effects_of, bind, read; simpl.
  destruct (authenticated w); simpl; [|split; reflexivity].
  destruct H as [H|H]; [discriminate|].
  destruct (data_items w) as [|e0 d0]; [split; reflexivity|].
  rewrite H. split; reflexivity.
Qed.

Lemma read_bind {A} (k : LowerComputerWindow -> UI A) (w : LowerComputerWindow) :
  state_after (bind read k) w = state_after (k w) w /\
  effects_of (bind read k) w = effects_of (k w) w.
Proof.
  unfold state_after, effects_of, bind, read.
  destruct (k w w) as [[a w1] e1]. split; reflexivity.
Qed.

Lemma tell_bind {A} (es : list effect) (m : UI A) (w : LowerComputerWindow) :
  state_after (bind (tell es) (fun _ => m)) w = state_after m w /\
  effects_of (bind (tell es) (fun _ => m)) w = es ++ effects_of m w.
Proof.
  unfold state_after, effects_of, bind, tell.
  destruct (m w) as [[a w1] e1]. split; reflexivity.
Qed.

Lemma upload_data_busy (w : LowerComputerWindow) :
  authenticated w = true -> selected_entries (data_items w) <> [] ->
  let workers :=
    for_each (selected_entries (data_items w))
      (start_worker (cfg_device_id (lower_config w))
         (cfg_hardware_key (lower_config w))) in
  state_after upload_data w = state_after workers w /\
  pool_starts (effects_of upload_data w) = pool_starts (effects_of workers w).
Proof.
  intros Ha Hs workers. subst workers.
  unfold upload_data.
  destruct (read_bind
    (fun w0 =>
       if negb (authenticated w0)
       then tell [WarningBox (TLiteral "请先连接服务器")]
       else
         match data_items w0 with
         | [] => tell [WarningBox (TLiteral "请先添加要上传的数据")]
         | _ :: _ =>
             match selected_entries (data_items w0) with
             | [] => tell [WarningBox (TLiteral "请选择要上传的数据")]
             | _ :: _ =>
                 bind (tell [SetEnabled upload_btn false; SetEnabled stop_upload_btn true;
                             SetEnabled add_excel_btn false; SetEnabled add_image_btn false])
                   (fun _ =>
                 bind (log (TUploadStart (length (selected_entries (data_items w0)))) false)
                   (fun _ =>
                 bind (log (TExcelCount (length (filter
                         (fun entry => is_excel (data (snd entry)))
                         (selected_entries (data_items w0))))) false)
                   (fun _ =>
                 bind (log (TImageCount (length (selected_entries (data_items w0))
                         - length (filter
                             (fun entry => is_excel (data (snd entry)))
                             (selected_entries (data_items w0))))) false)
                   (fun _ =>
                 for_each (selected_entries (data_items w0))
                   (start_worker (cfg_device_id (lower_config w0))
                      (cfg_hardware_key (lower_config w0)))))))
             end
         end) w) as [Hst Hef].
  rewrite Hst, Hef. clear Hst Hef. rewrite Ha. simpl negb. cbv iota.
  destruct (data_items w) as [|e0 d0] eqn:Ed; [now destruct Hs|]. rewrite <- Ed in *.
  destruct (selected_entries (data_items w)) as [|s0 l0] eqn:Es; [now destruct Hs|].
  unfold log.
  repeat match goal with
         | |- context [state_after (bind (tell ?es) (fun _ => ?m)) w] =>
             rewrite (proj1 (tell_bind es m w)), (proj2 (tell_bind es m w))
         end.
  split; [reflexivity|]. unfold pool_starts. rewrite !flat_map_app. reflexivity.
Qed.


(** ** Instances *)

(** Two spreadsheets and an image are submitted together and all
    succeed: the last result makes the check report three successes. *)
Example three_items_all_succeed :
  let submit :=
    [sample_connect;
     AddMeterData "/data/a.xlsx" EXCEL "e" "i" 1;
     AddMeterData "/data/c.XLS" EXCEL "e" "i" 2;
     AddMeterData "/data/b.png" IMAGE "e" "i" 3;
     UploadData;
     OnUploadFinished "c.XLS" true "ok"; OnUploadFinished "a.xlsx" true "ok"] in
  let w := state_after (sample_run submit) sample_window in
  map file_path (pool_starts (effects_of (sample_run submit) sample_window))
  = ["/data/a.xlsx"; "/data/c.XLS"; "/data/b.png"] /\
  tally (data_items w) = (false, 2%nat, 0%nat) /\
  effects_of (sample_run [OnUploadFinished "b.png" true "ok"]) w
  = LogLine false (TFinishedOk "b.png" "ok") :: all_done_effects 3 0.
Proof. vm_compute. repeat split. Qed.


(** The row of the spreadsheet once the first batch is done. *)
Definition uploaded_row : string * file_info :=
  Eval vm_compute in
    match data_items (state_after (sample_run first_batch) sample_window) with
    | e :: _ => e
    | [] => ("", {| widget := new_item UploadFacts.sample_image;
                    data := UploadFacts.sample_image |})
    end.

(** The operator checks the box of the uploaded row again, selects
    everything, adds an image and submits. *)
Definition try_again : list op :=
  [OperatorChecks "/data/a.xlsx" true; SelectAllData;
   AddMeterData "/data/b.png" IMAGE "e2" "i2" 2; UploadData].

Lemma succeeded_item_is_never_selected_witness :
  let w := state_after (sample_run first_batch) sample_window in
  let w' := state_after (sample_run try_again) w in
  checkbox (widget (snd uploaded_row)) = false /\
  dict_get "/data/a.xlsx" (data_items w') <> None /\
  ~ In "/data/a.xlsx" (submitted w').
Proof.
  split; [reflexivity|]. split; [discriminate|].
  refine (proj1 (proj2 (proj2 (proj2
    (succeeded_item_is_never_selected Posix.name Posix.suffix Posix.stem
       Posix.lower Posix.strip sample_files
       sample_config first_batch try_again uploaded_row
       _ _ _))))).
  - left. reflexivity.
  - reflexivity.
  - reflexivity.
Defined.

Definition blank_window : LowerComputerWindow :=
  new_window {| cfg_server_url := "http://localhost:8000"; cfg_device_id := "   ";
                cfg_hardware_key := ""; cfg_concurrent_uploads := Some 2 |}.

Lemma connect_requires_identity_witness :
  Window.connect_to_server Posix.strip "10.0.0.2" (Py.Ok (Py.VDict [])) blank_window
  = (tt, blank_window, [WarningBox (TLiteral "请填写必要信息")]).
Proof.
  refine (proj1 (connect_requires_identity Posix.strip blank_window "10.0.0.2"
                   (Py.Ok (Py.VDict []))) _).
  right. left. reflexivity.
Defined.

Lemma add_same_path_is_noop_witness :
  let w := state_after (sample_run first_batch) sample_window in
  Window.add_meter_data Posix.name Posix.suffix Posix.stem Posix.lower sample_files
    "/data/a.xlsx" IMAGE "e9" "i9" 9 w
  = (tt, w, [LogLine false (TAlreadyInList "a.xlsx")]).
Proof.
  refine (proj1 (add_same_path_is_noop Posix.name Posix.suffix Posix.stem
                   Posix.lower Posix.strip sample_files
                   (state_after (sample_run first_batch) sample_window)
                   "/data/a.xlsx" IMAGE IMAGE "e9" "i9" "e9" "i9" 9 9
                   sample_config []) _).
  reflexivity.
Defined.

End WindowFacts.

(* ================================================================== *)
(** * Shutdown: the heartbeat thread and the application              *)
(* ================================================================== *)

Module ShutdownFacts.
Import Polling PollingFacts.
Local Open Scope list_scope.

Definition is_set_offline (e : Window.effect) : bool :=
  match e with
  | Window.SetDeviceOffline _ _ _ _ => true
  | _ => false
  end.

(** [stop()] during the first sleep; the thread wakes, leaves the loop,
    and its offline notice times out. *)
Definition stop_and_fail_to_notify : list action :=
  connect_and_sleep
  ++ [Stop; Tick 30; Thread ok 0; Thread Timeout 5; Tick 5; Thread ok 0].

(** What [quit_qt_application] does to the threads before it calls
    the server. *)
Definition closes_the_threads (w : Window.LowerComputerWindow) : list Window.effect :=
  match Window.ws_thread w with
  | Some _ => [Window.Logger false (Window.TLiteral "关闭 WebSocket 连接...");
               Window.WsStop; Window.WsJoin 3]
  | None => []
  end
  ++ match Window.long_polling_thread w with
     | Some _ => [Window.Logger false (Window.TLiteral "停止HTTP心跳...");
                  Window.LongPollingStop; Window.LongPollingStop;
                  Window.LongPollingJoin 3]
     | None => []
     end.

(** The line that tells how the offline call ended. *)
Definition offline_verdict (r : Py.result Py.value) : Window.effect :=
  match r with
  | Py.Ok _ => Window.Logger false (Window.TLiteral "设备已设置为离线")
  | Py.Raise e => Window.Logger true (Window.TOfflineFailed e)
  end.

Lemma quit_sets_offline (str_strip : string -> string)
    (w : Window.LowerComputerWindow) (r : Py.result Py.value) (server : string) :
  Window.authenticated w = true -> Window.client w = Some server ->
  Window.state_after (Window.quit_qt_application str_strip r) w = w /\
  filter is_set_offline (Window.effects_of (Window.quit_qt_application str_strip r) w)
  = [Window.SetDeviceOffline server (str_strip (Window.device_id_input w))
       (Window.cfg_hardware_key (Window.lower_config w)) Window.api_timeout] /\
  (forall e, r = Py.Raise e ->
     In (Window.Logger true (Window.TOfflineFailed e))
        (Window.effects_of (Window.quit_qt_application str_strip r) w)) /\
  Window.effects_of (Window.quit_qt_application str_strip r) w
  = closes_the_threads w
    ++ [Window.SetDeviceOffline server (str_strip (Window.device_id_input w))
          (Window.cfg_hardware_key (Window.lower_config w)) Window.api_timeout;
        offline_verdict r] /\
  (forall thread, Window.long_polling_thread w = Some thread ->
     exists before,
       Window.effects_of (Window.quit_qt_application str_strip r) w
       = before
         ++ [Window.LongPollingStop; Window.LongPollingStop; Window.LongPollingJoin 3;
             Window.SetDeviceOffline server (str_strip (Window.device_id_input w))
               (Window.cfg_hardware_key (Window.lower_config w)) Window.api_timeout;
             offline_verdict r]).
Proof.
  intros Ha Hc.
  assert (E : Window.effects_of (Window.quit_qt_application str_strip r) w
              = closes_the_threads w
                ++ [Window.SetDeviceOffline server
                      (str_strip (Window.device_id_input w))
                      (Window.cfg_hardware_key (Window.lower_config w))
                      Window.api_timeout;
                    offline_verdict r]).
  { unfold Window.quit_qt_application, Window.effects_of,
      Window.bind, Window.read, Window.tell, Window.ret, closes_the_threads,
      offline_verdict; simpl.
    rewrite Ha, Hc.
    destruct (Window.ws_thread w), (Window.long_polling_thread w), r; reflexivity. }
  split; [|split; [|split; [|split; [exact E|]]]].
  - unfold Window.quit_qt_application, Window.state_after,
      Window.bind, Window.read, Window.tell, Window.ret; simpl.
    rewrite Ha, Hc.
    destruct (Window.ws_thread w), (Window.long_polling_thread w), r; reflexivity.
  - rewrite E. unfold closes_the_threads.
    destruct (Window.ws_thread w), (Window.long_polling_thread w), r; reflexivity.
  - intros e ->. rewrite E. apply in_or_app. right. right. left. reflexivity.
  - intros thread Ht. rewrite E. unfold closes_the_threads. rewrite Ht.
    exists (match Window.ws_thread w with
            | Some _ => [Window.Logger false (Window.TLiteral "关闭 WebSocket 连接...");
                         Window.WsStop; Window.WsJoin 3]
            | None => []
            end
            ++ [Window.Logger false (Window.TLiteral "停止HTTP心跳...")]).
    rewrite <- !app_assoc. reflexivity.
Qed.

(** C7, amended.  The heartbeat thread posts its offline notice exactly
    once, with the timeout 5 of its own, when it has left the loop and not
    before.  However the notice ends, [start()] goes on to clear
    [connected], log that it stopped and return; a notice that fails
    leaves no log line.  [is_connected()] is false from the call of
    [stop()] on, while the thread is still in the loop.  On quit the
    application first stops the heartbeat thread the window holds and
    joins it for 3, the join calling [stop()] once more, and only then
    makes one more offline call of its own with the client's timeout
    30, whose failure it logs and does not raise; the line that tells
    how the call ended is the last thing it does. *)
Theorem departure_is_best_effort (str_strip : string -> string) (c : client)
    (acts : list action) (s : state)
    (w : Window.LowerComputerWindow) (r : Py.result Py.value) :
  0 <= heartbeat_interval c ->
  run_actions acts (boot c) = Some s ->
  (left_loop (at_pc s) = true -> departure_posts s = [departure_of c]) /\
  (left_loop (at_pc s) = false -> departure_posts s = []) /\
  (at_pc s = Returned -> connected (self s) = false) /\
  (forall o wake, at_pc s = Offline o wake ->
     exists s', run_actions [Tick (wake - now s); Thread o 0] s = Some s' /\
                at_pc s' = Returned /\
                trace s' = trace s ++ on_offline o ++ [Log InfoStopped]) /\
  (forall o, (forall code, o <> Response code) -> on_offline o = []) /\
  (at_pc s <> Entry -> cleared_at s <> None -> is_connected (self s) = false) /\
  (Window.authenticated w = true ->
   forall server, Window.client w = Some server ->
     Window.state_after (Window.quit_qt_application str_strip r) w = w /\
     filter is_set_offline
       (Window.effects_of (Window.quit_qt_application str_strip r) w)
     = [Window.SetDeviceOffline server (str_strip (Window.device_id_input w))
          (Window.cfg_hardware_key (Window.lower_config w)) Window.api_timeout] /\
     (forall e, r = Py.Raise e ->
        In (Window.Logger true (Window.TOfflineFailed e))
           (Window.effects_of (Window.quit_qt_application str_strip r) w)) /\
     Window.effects_of (Window.quit_qt_application str_strip r) w
     = closes_the_threads w
       ++ [Window.SetDeviceOffline server (str_strip (Window.device_id_input w))
             (Window.cfg_hardware_key (Window.lower_config w)) Window.api_timeout;
           offline_verdict r] /\
     (forall thread, Window.long_polling_thread w = Some thread ->
        exists before,
          Window.effects_of (Window.quit_qt_application str_strip r) w
          = before
            ++ [Window.LongPollingStop; Window.LongPollingStop;
                Window.LongPollingJoin 3;
                Window.SetDeviceOffline server (str_strip (Window.device_id_input w))
                  (Window.cfg_hardware_key (Window.lower_config w))
                  Window.api_timeout;
                offline_verdict r])).
Proof.
  intros Hpos Hrun.
  destruct (departure_notice c acts s Hpos Hrun) as (H1 & H2 & H3 & H4 & H5).
  repeat (split; [assumption|]). split.
  - intros o Ho. destruct o as [code| | |]; [destruct (Ho code eq_refl)|..]; reflexivity.
  - split; [exact H5|]. intros Ha server Hc. now apply quit_sets_offline.
Qed.

Lemma departure_is_best_effort_witness :
  let s := state_after stop_and_fail_to_notify default_client in
  at_pc s = Returned /\ departure_posts s = [departure_of default_client] /\
  connected (self s) = false.
Proof.
  split; [vm_compute; reflexivity|].
  assert (Hpos : 0 <= heartbeat_interval default_client) by (simpl; lia).
  assert (Hrun : run_actions stop_and_fail_to_notify (boot default_client)
                 = Some (state_after stop_and_fail_to_notify default_client))
    by (vm_compute; reflexivity).
  destruct (departure_is_best_effort Window.Posix.strip default_client
              stop_and_fail_to_notify
              (state_after stop_and_fail_to_notify default_client)
              WindowFacts.sample_window (Py.Ok Py.VNone) Hpos Hrun)
    as (H1 & _ & H3 & _).
  split; [apply H1|apply H3]; vm_compute; reflexivity.
Defined.

End ShutdownFacts.

(* ================================================================== *)
(** * Properties of the hardware key                                *)
(* ================================================================== *)

Module HardwareKeyFacts.
Import HardwareKey.
Local Open Scope list_scope.

(** The six numbers are windows of eight bits that start two bits
    apart. *)
Lemma octets_windows (node : Z) :
  octets node
  = [node mod 256; (node / 4) mod 256; (node / 16) mod 256;
     (node / 64) mod 256; (node / 256) mod 256; (node / 1024) mod 256].
Proof.
  unfold octets. change (range 0 (2 * 6) 2) with [0; 2; 4; 6; 8; 10].
  cbn [map]. change 255 with (Z.ones 8).
  rewrite !Z.land_ones, !Z.shiftr_div_pow2 by lia.
  change (2 ^ 0) with 1. rewrite Z.div_1_r. reflexivity.
Qed.

Lemma octets_of_low_bits (node node' : Z) :
  octets node = octets node' <-> node mod 2 ^ 18 = node' mod 2 ^ 18.
Proof.
  rewrite !octets_windows. change (2 ^ 18) with 262144. split.
  - intro H. injection H as H0 _ _ _ H8 H10.
    Z.div_mod_to_equations. lia.
  - intro H.
    assert (E0 : node mod 256 = node' mod 256) by (Z.div_mod_to_equations; lia).
    assert (E2 : (node / 4) mod 256 = (node' / 4) mod 256)
      by (Z.div_mod_to_equations; lia).
    assert (E4 : (node / 16) mod 256 = (node' / 16) mod 256)
      by (Z.div_mod_to_equations; lia).
    assert (E6 : (node / 64) mod 256 = (node' / 64) mod 256)
      by (Z.div_mod_to_equations; lia).
    assert (E8 : (node / 256) mod 256 = (node' / 256) mod 256)
      by (Z.div_mod_to_equations; lia).
    assert (E10 : (node / 1024) mod 256 = (node' / 1024) mod 256)
      by (Z.div_mod_to_equations; lia).
    now rewrite E0, E2, E4, E6, E8, E10.
Qed.

(** The value of a hexadecimal digit. *)
Definition hex_value (c : ascii) : Z :=
  match index 0 (String c "") "0123456789abcdef" with
  | Some i => Z.of_nat i
  | None => 16
  end.

Definition two_digits_of (b : Z) : bool :=
  match format_02x b with
  | String hi (String lo EmptyString) => 16 * hex_value hi + hex_value lo =? b
  | _ => false
  end.

Lemma format_02x_octet (b : Z) :
  0 <= b < 256 ->
  exists hi lo, format_02x b = String hi (String lo "") /\
                16 * hex_value hi + hex_value lo = b.
Proof.
  intro Hb.
  assert (Hall : forallb (fun n => two_digits_of (Z.of_nat n)) (seq 0 256) = true)
    by (vm_compute; reflexivity).
  rewrite forallb_forall in Hall.
  specialize (Hall (Z.to_nat b)). rewrite Z2Nat.id in Hall by lia.
  assert (Hin : In (Z.to_nat b) (seq 0 256)) by (apply in_seq; lia).
  specialize (Hall Hin). unfold two_digits_of in Hall.
  destruct (format_02x b) as [|hi [|lo [|]]]; try discriminate.
  exists hi, lo. split; [reflexivity|]. now apply Z.eqb_eq.
Qed.

Lemma mac_of_octets (node node' : Z) :
  mac_of node = mac_of node' <-> octets node = octets node'.
Proof.
  split; [|unfold mac_of; now intros ->].
  unfold mac_of. rewrite !octets_windows. cbn [map rev app].
  repeat match goal with
         | |- context [format_02x (?x mod 256)] =>
             let hi := fresh "hi" in
             let lo := fresh "lo" in
             let E := fresh "E" in
             let V := fresh "V" in
             destruct (format_02x_octet (x mod 256)) as (hi & lo & E & V);
               [apply Z.mod_pos_bound; lia|];
             rewrite E; clear E; rewrite <- V; clear V
         end.
  cbn [concat String.append]. intro H. injection H. intros. subst. reflexivity.
Qed.

(** The network address enters the key only through its low 18 bits:
    two addresses give the same [mac] string exactly when they agree
    modulo 2^18, and then, with the same CPU count, the same key. *)
Theorem hardware_key_uses_18_bits_of_the_address
    (py_str : Py.value -> string) (sha256_hexdigest : string -> string)
    (exn_str : Py.exn -> string) (node node' : Z)
    (cpu_count : Py.result Py.value) :
  (mac_of node = mac_of node' <-> node mod 2 ^ 18 = node' mod 2 ^ 18) /\
  (node mod 2 ^ 18 = node' mod 2 ^ 18 ->
   get_machine_id py_str sha256_hexdigest exn_str node cpu_count
   = get_machine_id py_str sha256_hexdigest exn_str node' cpu_count).
Proof.
  split.
  - rewrite mac_of_octets. apply octets_of_low_bits.
  - intro H. apply octets_of_low_bits, mac_of_octets in H.
    unfold get_machine_id. now rewrite H.
Qed.

(** The address 01:23:45:67:89:ab and one that differs from it in the
    manufacturer's half. *)
Example mac_of_sample :
  mac_of 1250999896491 = "e2:89:26:9a:6a:ab" /\
  mac_of (1250999896491 + 2 ^ 40) = "e2:89:26:9a:6a:ab".
Proof. split; vm_compute; reflexivity. Qed.

End HardwareKeyFacts.

(* ================================================================== *)
(** * Properties of the HTTP client                                 *)
(* ================================================================== *)

Module ApiFacts.
Import Py Api.
Local Open Scope list_scope.

Definition is_post (c : call) : bool :=
  match c with Post _ _ _ _ => true | _ => false end.

Definition is_logged (c : call) : bool :=
  match c with LoggerError _ _ => true | _ => false end.

(** How every method treats a failure: at most one request is made; a
    call that returns logs nothing; a call that raises [e] wrote one
    error line, for [e], as the last thing it did. *)
Definition reports {A} (message : string) (m : M A) : Prop :=
  (length (filter is_post (fst m)) <= 1)%nat /\
  match snd m with
  | Ok _ => filter is_logged (fst m) = []
  | Raise e =>
      exists before, fst m = before ++ [LoggerError message e] /\
                     filter is_logged before = []
  end.

(** How a request ends, from how its steps end: opening the file, the
    post, the status check (when the method makes one) and the
    decoding of the body, in that order. *)
Definition ending (http_error_msg : response -> string) (checks_status : bool)
    (opened : result unit) (answer : result response) : result value :=
  bind opened (fun _ =>
  bind answer (fun r =>
  bind (if checks_status then raise_for_status http_error_msg r else Ok tt) (fun _ =>
  json r))).

Lemma logged_reports {A} (message : string) (body : M A) :
  filter is_logged (fst body) = [] ->
  (length (filter is_post (fst body)) <= 1)%nat ->
  reports message (logged message body) /\
  snd (logged message body) = snd body.
Proof.
  destruct body as [out [a|e]]; unfold reports; simpl; intros Hl Hp.
  - auto.
  - rewrite filter_app, length_app. simpl. rewrite Nat.add_0_r.
    repeat split; auto. now exists out.
Qed.

Section Methods.

Variable path_name : string -> string.
Variable http_error_msg : response -> string.

(** The part of a method after its form is built, for a method that
    posts no file. *)
Definition plain (self : APIClient) (url : string) (data : list (string * value))
    (checks_status : bool) (answer : result response) : M value :=
  mbind (post self url data None answer) (fun response =>
  mbind (lift (if checks_status then raise_for_status http_error_msg response
               else Ok tt)) (fun _ =>
  lift (json response))).

Definition with_file (self : APIClient) (url : string) (data : list (string * value))
    (file_path : string) (opened : result unit) (answer : result response) : M value :=
  mbind (post_file path_name self url data file_path opened answer) (fun response =>
  mbind (lift (raise_for_status http_error_msg response)) (fun _ =>
  lift (json response))).

Lemma plain_calls (self : APIClient) (url : string) (data : list (string * value))
    (checks_status : bool) (answer : result response) :
  fst (plain self url data checks_status answer)
  = [Post url data None (timeout self)] /\
  snd (plain self url data checks_status answer)
  = ending http_error_msg checks_status (Ok tt) answer.
Proof.
  unfold plain, ending, post, does, mbind, lift, bind.
  destruct answer as [r|e]; [|split; reflexivity].
  destruct (if checks_status then raise_for_status http_error_msg r else Ok tt)
    as [[]|e]; [|split; reflexivity].
  destruct (json r); split; reflexivity.
Qed.

Lemma with_file_calls (self : APIClient) (url : string) (data : list (string * value))
    (file_path : string) (opened : result unit) (answer : result response) :
  fst (with_file self url data file_path opened answer)
  = match opened with
    | Ok _ => [Open file_path;
               Post url data (Some (path_name file_path, file_path)) (timeout self)]
    | Raise _ => [Open file_path]
    end /\
  snd (with_file self url data file_path opened answer)
  = ending http_error_msg true opened answer.
Proof.
  unfold with_file, ending, post_file, post, does, mbind, lift, bind.
  destruct opened as [[]|e]; [|split; reflexivity].
  destruct answer as [r|e]; [|split; reflexivity].
  destruct (raise_for_status http_error_msg r) as [[]|e]; [|split; reflexivity].
  destruct (json r); split; reflexivity.
Qed.

Lemma plain_reports (message : string) (self : APIClient) (url : string)
    (data : list (string * value)) (checks_status : bool) (answer : result response) :
  reports message (logged message (plain self url data checks_status answer)) /\
  snd (logged message (plain self url data checks_status answer))
  = ending http_error_msg checks_status (Ok tt) answer.
Proof.
  destruct (plain_calls self url data checks_status answer) as [Hf Hs].
  rewrite <- Hs. apply logged_reports; rewrite Hf; simpl; auto.
Qed.

Lemma with_file_reports (message : string) (self : APIClient) (url : string)
    (data : list (string * value)) (file_path : string) (opened : result unit)
    (answer : result response) :
  reports message (logged message (with_file self url data file_path opened answer)) /\
  snd (logged message (with_file self url data file_path opened answer))
  = ending http_error_msg true opened answer.
Proof.
  destruct (with_file_calls self url data file_path opened answer) as [Hf Hs].
  rewrite <- Hs. apply logged_reports; rewrite Hf; destruct opened; simpl; auto.
Qed.

(** Every method of the client makes at most one request, logs nothing
    when it returns, and when anything it does raises, writes one error
    line with its own message and raises the same exception again. *)
Theorem every_method_logs_and_reraises (self : APIClient)
    (device_id device_name hardware_key status file_path : string)
    (device_ip description meter_model meter_sn image_type : option string)
    (opened : result unit) (answer : result response) :
  reports "Device registration failed"
    (register_device self device_id device_name hardware_key device_ip answer) /\
  reports "Device authentication failed"
    (authenticate_device http_error_msg self device_id hardware_key device_ip answer) /\
  reports "File upload failed"
    (upload_file path_name http_error_msg self device_id hardware_key file_path
       description meter_model meter_sn image_type opened answer) /\
  reports "Excel upload failed"
    (upload_excel path_name http_error_msg self device_id hardware_key file_path
       description meter_model meter_sn opened answer) /\
  reports "Image upload failed"
    (upload_image path_name http_error_msg self device_id hardware_key file_path
       description image_type opened answer) /\
  reports "Failed to set device status"
    (set_device_status http_error_msg self device_id hardware_key status answer) /\
  reports "Failed to set device offline"
    (set_device_offline http_error_msg self device_id hardware_key answer).
Proof.
  split; [exact (proj1 (plain_reports _ self _ _ false answer))|].
  split; [exact (proj1 (plain_reports _ self _ _ true answer))|].
  split; [apply with_file_reports|].
  split; [apply with_file_reports|].
  split; [apply with_file_reports|].
  split; [exact (proj1 (plain_reports _ self _ _ true answer))|].
  exact (proj1 (plain_reports _ self _ _ true answer)).
Qed.

(** ** The status of the answer *)

Lemma ending_of_answer (checks_status : bool) (r : response) :
  ending http_error_msg checks_status (Ok tt) (Ok r)
  = if checks_status && (400 <=? status_code r) && (status_code r <? 600)
    then Raise (Raised "HTTPError" (http_error_msg r))
    else json r.
Proof.
  unfold ending, bind, raise_for_status.
  destruct checks_status; [|reflexivity]. cbn [andb].
  destruct ((400 <=? status_code r) && (status_code r <? 600)); reflexivity.
Qed.

(** [register_device] returns the decoded body of any answer, whatever
    its status.  The six other methods raise [HTTPError] on a status
    from 400 to 599, and return the decoded body on any other. *)
Theorem only_registration_accepts_an_error_status (self : APIClient)
    (device_id device_name hardware_key status file_path : string)
    (device_ip description meter_model meter_sn image_type : option string)
    (r : response) :
  let failure := Raise (Raised "HTTPError" (http_error_msg r)) in
  let others :=
    [snd (authenticate_device http_error_msg self device_id hardware_key device_ip
            (Ok r));
     snd (upload_file path_name http_error_msg self device_id hardware_key file_path
            description meter_model meter_sn image_type (Ok tt) (Ok r));
     snd (upload_excel path_name http_error_msg self device_id hardware_key file_path
            description meter_model meter_sn (Ok tt) (Ok r));
     snd (upload_image path_name http_error_msg self device_id hardware_key file_path
            description image_type (Ok tt) (Ok r));
     snd (set_device_status http_error_msg self device_id hardware_key status (Ok r));
     snd (set_device_offline http_error_msg self device_id hardware_key (Ok r))] in
  snd (register_device self device_id device_name hardware_key device_ip (Ok r))
  = json r /\
  (400 <= status_code r < 600 -> forall x, In x others -> x = failure) /\
  (status_code r < 400 \/ 600 <= status_code r ->
   forall x, In x others -> x = json r).
Proof.
  intros failure others.
  assert (Hothers : forall x, In x others -> x = ending http_error_msg true (Ok tt) (Ok r)).
  { intros x Hx. subst others. cbn [In] in Hx.
    destruct Hx as [<-|[<-|[<-|[<-|[<-|[<-|[]]]]]]].
    - exact (proj2 (plain_reports _ self _ _ true (Ok r))).
    - exact (proj2 (with_file_reports _ self _ _ file_path (Ok tt) (Ok r))).
    - exact (proj2 (with_file_reports _ self _ _ file_path (Ok tt) (Ok r))).
    - exact (proj2 (with_file_reports _ self _ _ file_path (Ok tt) (Ok r))).
    - exact (proj2 (plain_reports _ self _ _ true (Ok r))).
    - exact (proj2 (plain_reports _ self _ _ true (Ok r))). }
  split; [|split].
  - exact (proj2 (plain_reports _ self _ _ false (Ok r))).
  - intros [Hlo Hhi] x Hx. rewrite (Hothers x Hx), ending_of_answer.
    apply Z.leb_le in Hlo. apply Z.ltb_lt in Hhi. now rewrite Hlo, Hhi.
  - intros Hout x Hx. rewrite (Hothers x Hx), ending_of_answer. cbn [andb].
    destruct Hout as [H|H].
    + replace (400 <=? status_code r) with false
        by (symmetry; apply Z.leb_gt; lia). reflexivity.
    + replace (status_code r <? 600) with false
        by (symmetry; apply Z.ltb_ge; lia). now rewrite andb_false_r.
Qed.

(** ** The form of an upload *)

(** The value sent for an optional field, if one is sent. *)
Definition sent (s : option string) : option value :=
  match s with
  | Some (String _ _ as s) => Some (VStr s)
  | _ => None
  end.

(** The form as the server reads it. *)
Definition upload_form (device_id hardware_key : string)
    (description meter_model meter_sn image_type : option string) (key : string)
    : option value :=
  if String.eqb key "device_id" then Some (VStr device_id)
  else if String.eqb key "hardware_key" then Some (VStr hardware_key)
  else if String.eqb key "description" then Some (VStr (or_empty description))
  else if String.eqb key "meter_model" then sent meter_model
  else if String.eqb key "meter_sn" then sent meter_sn
  else if String.eqb key "image_type" then sent image_type
  else None.

Definition form_of (calls : list call) : list (list (string * value)) :=
  flat_map (fun c => match c with Post _ data _ _ => [data] | _ => [] end) calls.

Lemma lookup_set_if_given (key field : string) (s : option string)
    (data : list (string * value)) :
  lookup field data = None ->
  lookup key (set_if_given field s data)
  = if String.eqb key field then sent s else lookup key data.
Proof.
  intro Hfresh.
  assert (Hset : forall v, lookup key (set_item field v data)
                           = if String.eqb key field then Some v else lookup key data).
  { intro v. induction data as [|[k v'] rest IH]; simpl in *.
    - rewrite String.eqb_sym. destruct (String.eqb key field); reflexivity.
    - destruct (String.eqb_spec k field) as [->|Hk]; [discriminate|].
      simpl. destruct (String.eqb_spec k key) as [->|Hk'].
      + destruct (String.eqb_spec key field); [contradiction|reflexivity].
      + auto. }
  destruct s as [[|c s]|]; simpl.
  - destruct (String.eqb_spec key field) as [->|]; [now rewrite Hfresh|reflexivity].
  - apply Hset.
  - destruct (String.eqb_spec key field) as [->|]; [now rewrite Hfresh|reflexivity].
Qed.

Lemma form_of_logged {A} (message : string) (body : M A) :
  form_of (fst (logged message body)) = form_of (fst body).
Proof.
  destruct body as [out [a|e]]; simpl; [reflexivity|].
  unfold form_of. rewrite flat_map_app. simpl. apply app_nil_r.
Qed.

(** An upload whose file opens posts one form.  The server reads in it
    the device id, the hardware key and the description, empty when
    none is given; it reads a meter model, a serial number or an image
    type only where a value that is not empty was given, and nothing
    else.  [upload_excel] and [upload_image] post the form that
    [upload_file] posts when the fields they do not take are left out.
    When the file does not open, nothing is posted. *)
Theorem upload_sends_only_the_fields_given (self : APIClient)
    (device_id hardware_key file_path : string)
    (description meter_model meter_sn image_type : option string)
    (answer : result response) :
  let posted (m : M value) := form_of (fst m) in
  let upload_file := upload_file path_name http_error_msg self device_id hardware_key
                       file_path in
  (exists data,
     posted (upload_file description meter_model meter_sn image_type (Ok tt) answer)
     = [data] /\
     forall key, lookup key data
                 = upload_form device_id hardware_key description meter_model
                     meter_sn image_type key) /\
  posted (upload_excel path_name http_error_msg self device_id hardware_key file_path
            description meter_model meter_sn (Ok tt) answer)
  = posted (upload_file description meter_model meter_sn None (Ok tt) answer) /\
  posted (upload_image path_name http_error_msg self device_id hardware_key file_path
            description image_type (Ok tt) answer)
  = posted (upload_file description None None image_type (Ok tt) answer) /\
  (forall e,
     fst (upload_file description meter_model meter_sn image_type (Raise e) answer)
     = [Open file_path; LoggerError "File upload failed" e]).
Proof.
  intros posted upload_file'. subst posted upload_file'. cbv beta.
  assert (Hform : forall message url data,
            form_of (fst (logged message
                            (with_file self url data file_path (Ok tt) answer)))
            = [data]).
  { intros. rewrite form_of_logged.
    now rewrite (proj1 (with_file_calls self url data file_path (Ok tt) answer)). }
  split; [|split; [|split]].
  - eexists. split; [apply Hform|].
    intro key.
    set (base := [("device_id", VStr device_id); ("hardware_key", VStr hardware_key);
                  ("description", VStr (or_empty description))]).
    assert (L1 : forall k, lookup k (set_if_given "meter_model" meter_model base)
                           = if String.eqb k "meter_model" then sent meter_model
                             else lookup k base)
      by (intro k; now apply lookup_set_if_given).
    assert (L2 : forall k,
               lookup k (set_if_given "meter_sn" meter_sn
                           (set_if_given "meter_model" meter_model base))
               = if String.eqb k "meter_sn" then sent meter_sn
                 else lookup k (set_if_given "meter_model" meter_model base))
      by (intro k; apply lookup_set_if_given; now rewrite L1).
    rewrite lookup_set_if_given by (now rewrite L2, L1).
    rewrite L2, L1. unfold upload_form, base. cbn [lookup].
    rewrite !(String.eqb_sym _ key).
    destruct (String.eqb_spec key "image_type") as [->|]; [reflexivity|].
    destruct (String.eqb_spec key "meter_sn") as [->|]; [reflexivity|].
    destruct (String.eqb_spec key "meter_model") as [->|]; reflexivity.
  - change (Api.upload_excel path_name http_error_msg self device_id hardware_key
              file_path description meter_model meter_sn (Ok tt) answer)
      with (logged "Excel upload failed"
              (with_file self (base_url self ++ "/api/upload/excel")
                 (set_if_given "meter_sn" meter_sn
                    (set_if_given "meter_model" meter_model
                       [("device_id", VStr device_id);
                        ("hardware_key", VStr hardware_key);
                        ("description", VStr (or_empty description))]))
                 file_path (Ok tt) answer)).
    rewrite Hform. symmetry. apply Hform.
  - change (Api.upload_image path_name http_error_msg self device_id hardware_key
              file_path description image_type (Ok tt) answer)
      with (logged "Image upload failed"
              (with_file self (base_url self ++ "/api/upload/image")
                 (set_if_given "image_type" image_type
                    [("device_id", VStr device_id);
                     ("hardware_key", VStr hardware_key);
                     ("description", VStr (or_empty description))])
                 file_path (Ok tt) answer)).
    rewrite Hform. symmetry. apply Hform.
  - intro e. reflexivity.
Qed.

(** ** The worker on top of the client *)

Section Worker.

Variable py_str : value -> string.
Variable fmt_fixed : nat -> spec_float -> string.
Variable exn_str : exn -> string.

Let run := Upload.run path_name py_str fmt_fixed exn_str.

Lemma run_when_the_transfer_raises (w : Upload.UploadWorker) (e : exn) :
  Upload.client w (Upload.device_id w) (Upload.hardware_key w)
    (Meter.file_path (Upload.meter_data w))
    (Meter.description (Upload.meter_data w)) = Raise e ->
  fst (run w)
  = [Upload.Progress (path_name (Meter.file_path (Upload.meter_data w))) 30;
     Upload.Progress (path_name (Meter.file_path (Upload.meter_data w))) 0;
     Upload.Finished (path_name (Meter.file_path (Upload.meter_data w))) false
       ("上传失败: " ++ exn_str e)].
Proof.
  intro H. subst run. unfold Upload.run.
  unfold Upload.try_except, Upload.mbind, Upload.lift, Upload.emit.
  rewrite H. reflexivity.
Qed.

(** A worker whose client is an [APIClient]: when the file cannot be
    opened the run reports the failure and nothing was posted; when
    the post raises, or the server answers with a status from 400 to
    599, the run reports that failure; when the server answers with
    another status and a JSON object that gives no original size, the
    run reports success with the file id alone. *)
Theorem worker_reports_the_failure_of_its_request (self : APIClient)
    (opened : string -> result unit) (answer : string -> result response)
    (device_id hardware_key : string) (meter_data : Meter.MeterData) :
  let w := {| Upload.client := for_worker path_name http_error_msg self opened answer;
              Upload.device_id := device_id; Upload.hardware_key := hardware_key;
              Upload.meter_data := meter_data |} in
  let path := Meter.file_path meter_data in
  let name := path_name path in
  let failed e := [Upload.Progress name 30; Upload.Progress name 0;
                   Upload.Finished name false ("上传失败: " ++ exn_str e)] in
  let request :=
    fst (upload_file path_name http_error_msg self device_id hardware_key path
           (Some (Meter.description meter_data)) None None None
           (opened path) (answer path)) in
  (forall e, opened path = Raise e ->
     fst (run w) = failed e /\ filter is_post request = []) /\
  (forall e, opened path = Ok tt -> answer path = Raise e ->
     fst (run w) = failed e) /\
  (forall r, opened path = Ok tt -> answer path = Ok r ->
     400 <= status_code r < 600 ->
     fst (run w) = failed (Raised "HTTPError" (http_error_msg r))) /\
  (forall r d, opened path = Ok tt -> answer path = Ok r ->
     status_code r < 400 \/ 600 <= status_code r ->
     json r = Ok (VDict d) -> lookup "original_size" d = None ->
     fst (run w)
     = [Upload.Progress name 30; Upload.Progress name 100;
        Upload.Finished name true
          ("上传成功！文件ID: "
           ++ py_str (match lookup "file_id" d with Some v => v | None => VNone end)
           ++ Upload.nl)]).
Proof.
  intros w path name failed request.
  assert (Hcall : Upload.client w (Upload.device_id w) (Upload.hardware_key w)
                    (Meter.file_path (Upload.meter_data w))
                    (Meter.description (Upload.meter_data w))
                  = ending http_error_msg true (opened path) (answer path)).
  { exact (proj2 (with_file_reports _ self _ _ path (opened path) (answer path))). }
  split; [|split; [|split]].
  - intros e He. split.
    + apply run_when_the_transfer_raises. rewrite Hcall, He. reflexivity.
    + subst request. rewrite He. reflexivity.
  - intros e Ho He. apply run_when_the_transfer_raises.
    rewrite Hcall, Ho, He. reflexivity.
  - intros r Ho Ha [Hlo Hhi]. apply run_when_the_transfer_raises.
    rewrite Hcall, Ho, Ha, ending_of_answer.
    apply Z.leb_le in Hlo. apply Z.ltb_lt in Hhi. now rewrite Hlo, Hhi.
  - intros r d Ho Ha Hout Hj Hsize.
    assert (Hres : ending http_error_msg true (opened path) (answer path)
                   = Ok (VDict d)).
    { rewrite Ho, Ha, ending_of_answer, Hj. cbn [andb].
      destruct Hout as [H|H].
      - replace (400 <=? status_code r) with false
          by (symmetry; apply Z.leb_gt; lia). reflexivity.
      - replace (status_code r <? 600) with false
          by (symmetry; apply Z.ltb_ge; lia). now rewrite andb_false_r. }
    subst run. unfold Upload.run.
    unfold Upload.try_except, Upload.mbind, Upload.lift, Upload.emit, Upload.ret.
    rewrite Hcall, Hres. unfold get. rewrite Hsize.
    destruct (lookup "compressed_size" d); destruct (lookup "file_id" d);
      destruct (Meter.is_image (Upload.meter_data w)); reflexivity.
Qed.

End Worker.

End Methods.

(** ** The address of the server *)

Fixpoint slashes (n : nat) : string :=
  match n with
  | O => ""
  | S n => String "/" (slashes n)
  end.

Lemma rstrip_slash_app_slashes (s : string) (n : nat) :
  Polling.rstrip_slash (s ++ slashes n)%string = Polling.rstrip_slash s.
Proof.
  induction s as [|c s IH]; simpl.
  - induction n as [|n IHn]; simpl; [reflexivity|]. now rewrite IHn.
  - now rewrite IH.
Qed.

Lemma rstrip_slash_rest (s : string) :
  exists n, s = (Polling.rstrip_slash s ++ slashes n)%string.
Proof.
  induction s as [|c s [n IH]]; simpl; [now exists O|].
  destruct (Polling.rstrip_slash s) as [|a t] eqn:E.
  - destruct (Ascii.eqb_spec c "/"%char) as [->|_].
    + exists (S n). simpl in *. now rewrite <- IH.
    + exists n. simpl in *. now rewrite <- IH.
  - exists n. simpl in *. now rewrite <- IH.
Qed.

Lemma rstrip_slash_end (s r : string) : Polling.rstrip_slash s <> (r ++ "/")%string.
Proof.
  revert r. induction s as [|c s IH]; intro r; simpl.
  - destruct r; discriminate.
  - destruct (Polling.rstrip_slash s) as [|a t] eqn:E.
    + destruct (Ascii.eqb_spec c "/"%char) as [->|Hc].
      * destruct r; discriminate.
      * destruct r as [|c' r]; simpl; [congruence|].
        destruct r; discriminate.
    + destruct r as [|c' r]; simpl; [discriminate|].
      intro H. injection H as _ H. exact (IH r H).
Qed.

(** Both clients drop every slash at the end of the server address and
    nothing else: addresses that differ in such slashes give the same
    client, the address kept does not end in a slash, and the two
    clients keep the same one. *)
Theorem slashes_after_the_address_are_dropped (address : string) (n : nat)
    (timeout : Z) (device_id hardware_key : string) :
  Api.init (address ++ slashes n)%string timeout = Api.init address timeout /\
  Polling.init (address ++ slashes n)%string device_id hardware_key
  = Polling.init address device_id hardware_key /\
  (exists m, address = (base_url (Api.init address timeout) ++ slashes m)%string) /\
  (forall r, base_url (Api.init address timeout) <> (r ++ "/")%string) /\
  Polling.server_url (Polling.init address device_id hardware_key)
  = base_url (Api.init address timeout).
Proof.
  unfold Api.init, Polling.init. cbn [base_url Polling.server_url].
  rewrite rstrip_slash_app_slashes.
  repeat split; [apply rstrip_slash_rest|apply rstrip_slash_end].
Qed.

End ApiFacts.

(* ================================================================== *)
(** * Properties of a session of the window                         *)
(* ================================================================== *)

Module QueueFacts.
Import Meter Window WindowFacts.
Local Open Scope list_scope.

(** ** Results are matched by file name *)

Definition is_signal (o : op) : bool :=
  match o with
  | OnUploadProgress _ _ | OnUploadFinished _ _ _ => true
  | _ => false
  end.

Definition is_log_line (e : effect) : bool :=
  match e with LogLine _ _ => true | _ => false end.

Lemma effects_of_uploading (w : LowerComputerWindow) (e : string * file_info) :
  In e (data_items w) -> uploading (snd e) = true ->
  effects_of check_all_uploads_finished w = [].
Proof.
  intros Hin Hup.
  unfold check_all_uploads_finished, effects_of, bind, read. cbn [fst snd].
  unfold tally. rewrite tally_fold. cbn [andb].
  replace (forallb (fun fi => negb (uploading fi)) (values (data_items w))) with false.
  - reflexivity.
  - symmetry. apply not_true_is_false. intro H.
    rewrite forallb_forall in H. specialize (H (snd e)).
    rewrite Hup in H. apply diff_false_true, H. unfold values. now apply in_map.
Qed.

(** ** What an operation leaves alone *)

(** Everything in the window but the queue and the rows of the list. *)
Definition session (w : LowerComputerWindow) :=
  (client w, ws_thread w, long_polling_thread w, connection_mode w,
   authenticated w, max_thread_count w, server_input w, device_id_input w,
   lower_config w).

Definition queue_only {A} (m : UI A) : Prop :=
  forall w, session (state_after m w) = session w.

Lemma session_fields (w w' : LowerComputerWindow) :
  session w' = session w ->
  client w' = client w /\ ws_thread w' = ws_thread w /\
  long_polling_thread w' = long_polling_thread w /\
  connection_mode w' = connection_mode w /\ authenticated w' = authenticated w /\
  max_thread_count w' = max_thread_count w /\ server_input w' = server_input w /\
  device_id_input w' = device_id_input w /\ lower_config w' = lower_config w.
Proof. unfold session. intro H. injection H. intros. repeat split; assumption. Qed.

Lemma queue_only_ret {A} (a : A) : queue_only (ret a).
Proof. intro w. reflexivity. Qed.

Lemma queue_only_read : queue_only read.
Proof. intro w. reflexivity. Qed.

Lemma queue_only_tell (es : list effect) : queue_only (tell es).
Proof. intro w. reflexivity. Qed.

Lemma queue_only_modify (f : LowerComputerWindow -> LowerComputerWindow) :
  (forall w, session (f w) = session w) -> queue_only (modify f).
Proof. intros H w. apply H. Qed.

Lemma queue_only_bind {A B} (m : UI A) (k : A -> UI B) :
  queue_only m -> (forall a, queue_only (k a)) -> queue_only (bind m k).
Proof.
  intros Hm Hk w. rewrite state_after_bind. now rewrite Hk, Hm.
Qed.

Lemma queue_only_for_each {A} (l : list A) (body : A -> UI unit) :
  (forall x, queue_only (body x)) -> queue_only (for_each l body).
Proof.
  intro H. induction l as [|x l IH]; simpl.
  - apply queue_only_ret.
  - apply queue_only_bind; auto.
Qed.

Ltac frame :=
  repeat match goal with
         | |- queue_only (ret _) => apply queue_only_ret
         | |- queue_only read => apply queue_only_read
         | |- queue_only (tell _) => apply queue_only_tell
         | |- queue_only (bind _ _) => apply queue_only_bind; [|intro]
         | |- queue_only (for_each _ _) => apply queue_only_for_each; intro
         | |- queue_only (modify _) => apply queue_only_modify; intro; try reflexivity
         | |- queue_only (if ?b then _ else _) => destruct b
         | |- queue_only (match ?x with _ => _ end) => destruct x
         | |- session (if ?b then _ else _) = _ => destruct b; reflexivity
         end.

(** ** What an operation causes *)

(** The effects that stay inside the window: they start no worker and
    reach neither the server nor a connection thread. *)
Definition is_local (e : effect) : bool :=
  match e with
  | SetEnabled _ _ | SetCountLabels _ _ | StatusBar _ | LogLine _ _
  | WarningBox _ | InformationBox _ | CriticalBox _ | QuestionBox _
  | PoolClear => true
  | _ => false
  end.

Definition emits_only {A} (P : effect -> bool) (m : UI A) : Prop :=
  forall w, forallb P (effects_of m w) = true.

Lemma emits_only_ret {A} (P : effect -> bool) (a : A) : emits_only P (ret a).
Proof. intro w. reflexivity. Qed.

Lemma emits_only_read (P : effect -> bool) : emits_only P read.
Proof. intro w. reflexivity. Qed.

Lemma emits_only_modify (P : effect -> bool)
    (f : LowerComputerWindow -> LowerComputerWindow) : emits_only P (modify f).
Proof. intro w. reflexivity. Qed.

Lemma emits_only_tell (P : effect -> bool) (es : list effect) :
  forallb P es = true -> emits_only P (tell es).
Proof. intros H w. exact H. Qed.

Lemma emits_only_bind {A B} (P : effect -> bool) (m : UI A) (k : A -> UI B) :
  emits_only P m -> (forall a, emits_only P (k a)) -> emits_only P (bind m k).
Proof.
  intros Hm Hk w. rewrite effects_of_bind, forallb_app. now rewrite Hm, Hk.
Qed.

Lemma emits_only_for_each {A} (P : effect -> bool) (l : list A) (body : A -> UI unit) :
  (forall x, emits_only P (body x)) -> emits_only P (for_each l body).
Proof.
  intro H. induction l as [|x l IH]; simpl.
  - apply emits_only_ret.
  - apply emits_only_bind; auto.
Qed.

Ltac hush :=
  repeat match goal with
         | |- emits_only _ (ret _) => apply emits_only_ret
         | |- emits_only _ read => apply emits_only_read
         | |- emits_only _ (modify _) => apply emits_only_modify
         | |- emits_only _ (tell _) => apply emits_only_tell; reflexivity
         | |- emits_only _ (bind _ _) => apply emits_only_bind; [|intro]
         | |- emits_only _ (for_each _ _) => apply emits_only_for_each; intro
         | |- emits_only _ (if ?b then _ else _) => destruct b
         | |- emits_only _ (match ?x with _ => _ end) => destruct x
         end.

(** ** Selection *)

(** What [upload_data] reads of a row: its key, its data and whether
    it is selected. *)
Definition selection_of (e : string * file_info) : string * MeterData * bool :=
  (fst e, data (snd e), is_selected (widget (snd e))).

Lemma dict_update_selection (key : string)
    (f : MeterDataListItem -> MeterDataListItem) (d : list (string * file_info)) :
  (forall x, is_selected (f x) = is_selected x) ->
  map selection_of (dict_update key (with_widget f) d) = map selection_of d.
Proof.
  intro Hf. induction d as [|[k v] d IH]; simpl; [reflexivity|].
  destruct (String.eqb k key); simpl; [|now rewrite IH].
  unfold selection_of at 1 3. simpl. now rewrite Hf.
Qed.

Lemma workers_keep_the_selection (dev key : string) (l : list (string * file_info)) :
  forall w,
    map selection_of (data_items (state_after (for_each l (start_worker dev key)) w))
    = map selection_of (data_items w).
Proof.
  induction l as [|e l IH]; intro w; [reflexivity|].
  cbn [for_each]. rewrite state_after_bind, IH, start_worker_items.
  now apply dict_update_selection.
Qed.

Lemma selected_of_selection (d d' : list (string * file_info)) :
  map selection_of d' = map selection_of d ->
  map fst (selected_entries d') = map fst (selected_entries d) /\
  map (fun e => data (snd e)) (selected_entries d')
  = map (fun e => data (snd e)) (selected_entries d).
Proof.
  revert d'. induction d as [|e d IH]; intros [|e' d'] H; try discriminate.
  - split; reflexivity.
  - simpl in H. injection H as Hk Hdata Hsel Hd. destruct (IH d' Hd) as [IH1 IH2].
    unfold selected_entries in *. cbn [filter].
    rewrite Hsel. destruct (is_selected (widget (snd e))); simpl; [|auto].
    split; congruence.
Qed.

Lemma upload_data_queue_only : queue_only upload_data.
Proof. unfold upload_data, start_worker, log. frame. Qed.

Lemma upload_data_batch (w : LowerComputerWindow) :
  authenticated w = true ->
  pool_starts (effects_of upload_data w)
  = map (fun e => data (snd e)) (selected_entries (data_items w)) /\
  map selection_of (data_items (state_after upload_data w))
  = map selection_of (data_items w).
Proof.
  intro Ha.
  destruct (selected_entries (data_items w)) as [|s0 l0] eqn:Es.
  - destruct (upload_data_idle w (or_intror Es)) as [Hst Hp]. now rewrite Hst, Hp.
  - assert (Hne : selected_entries (data_items w) <> []) by (rewrite Es; discriminate).
    destruct (upload_data_busy w Ha Hne) as [Hst Hp]. rewrite Hst, Hp, <- Es.
    split; [|apply workers_keep_the_selection].
    apply for_each_start_worker_pool.
Qed.

(** Handing a row to the pool does not unselect it: after [upload_data]
    the same rows are selected as before, whether [stop_upload] is
    confirmed or declined, and a further [upload_data] hands the same
    batch to the pool once more. *)
Theorem a_submitted_row_stays_selected (w : LowerComputerWindow) (reply_yes : bool) :
  authenticated w = true ->
  let batch := map (fun e => data (snd e)) (selected_entries (data_items w)) in
  let w' := state_after (bind upload_data (fun _ => stop_upload reply_yes)) w in
  pool_starts (effects_of upload_data w) = batch /\
  submitted w' = submitted w /\
  pool_starts (effects_of upload_data w') = batch.
Proof.
  intros Ha batch w'.
  assert (Hw' : w' = state_after upload_data w).
  { subst w'. rewrite state_after_bind.
    unfold stop_upload, state_after, bind, tell, log, restore_upload_buttons, ret.
    destruct reply_yes; reflexivity. }
  destruct (upload_data_batch w Ha) as [Hp Hsel].
  destruct (selected_of_selection _ _ Hsel) as [Hkeys Hdata].
  assert (Ha' : authenticated w' = true).
  { rewrite Hw'.
    destruct (session_fields _ _ (upload_data_queue_only w)) as (_ & _ & _ & _ & H & _).
    congruence. }
  split; [exact Hp|]. split.
  - unfold submitted. rewrite Hw'. exact Hkeys.
  - rewrite (proj1 (upload_data_batch w' Ha')), Hw'. exact Hdata.
Qed.

Lemma none_selected (d : list (string * file_info)) :
  selected_entries (map (check_unless_uploaded false) d) = [].
Proof.
  unfold selected_entries. induction d as [|[k v] d IH]; simpl; [reflexivity|].
  unfold is_selected at 1.
  destruct (uploaded (widget v)) eqn:U; simpl; [now rewrite U, andb_false_r|].
  exact IH.
Qed.

Lemma all_pending_selected (d : list (string * file_info)) :
  map fst (selected_entries (map (check_unless_uploaded true) d))
  = map fst (filter (fun e => negb (uploaded (widget (snd e)))) d).
Proof.
  unfold selected_entries. induction d as [|[k v] d IH]; simpl; [reflexivity|].
  unfold is_selected at 1.
  destruct (uploaded (widget v)) eqn:U; simpl; [now rewrite U, andb_false_r|].
  rewrite U. simpl. now rewrite IH.
Qed.

Lemma check_unless_uploaded_again (b : bool) (d : list (string * file_info)) :
  map (check_unless_uploaded b) (map (check_unless_uploaded b) d)
  = map (check_unless_uploaded b) d.
Proof.
  rewrite map_map. apply map_ext. intros [k v]. simpl.
  destruct (uploaded (widget v)) eqn:U; simpl; now rewrite U.
Qed.

(** [select_all_data] leaves exactly the rows without the upload mark
    selected, [deselect_all_data] none, so that [upload_data] then
    starts no worker; neither changes a row that carries the mark, and
    either done twice is as done once. *)
Theorem select_all_skips_the_uploaded_rows (w : LowerComputerWindow) :
  let all := state_after select_all_data w in
  let none := state_after deselect_all_data w in
  submitted all
  = map fst (filter (fun e => negb (uploaded (widget (snd e)))) (data_items w)) /\
  submitted none = [] /\
  pool_starts (effects_of upload_data none) = [] /\
  (forall e, In e (data_items w) -> uploaded (widget (snd e)) = true ->
             In e (data_items all) /\ In e (data_items none)) /\
  state_after select_all_data all = all /\
  state_after deselect_all_data none = none.
Proof.
  intros all none.
  assert (Hall : data_items all = map (check_unless_uploaded true) (data_items w))
    by reflexivity.
  assert (Hnone : data_items none = map (check_unless_uploaded false) (data_items w))
    by reflexivity.
  split; [|split; [|split; [|split; [|split]]]].
  - unfold submitted. rewrite Hall. apply all_pending_selected.
  - unfold submitted. now rewrite Hnone, none_selected.
  - apply (upload_data_idle none). right. rewrite Hnone. apply none_selected.
  - intros e He U. rewrite Hall, Hnone. split; apply in_map_iff; exists e;
      (split; [|exact He]); destruct e as [k v]; simpl in *; now rewrite U.
  - subst all. unfold select_all_data, state_after, bind, modify, log, tell.
    cbn [fst snd]. unfold set_data_items. cbn [data_items]. f_equal.
    apply check_unless_uploaded_again.
  - subst none. unfold deselect_all_data, state_after, bind, modify, log, tell.
    cbn [fst snd]. unfold set_data_items. cbn [data_items]. f_equal.
    apply check_unless_uploaded_again.
Qed.

(** ** Removing rows *)

Lemma filter_absent_key (key : string) (d : list (string * file_info)) :
  ~ In key (map fst d) ->
  filter (fun e => negb (String.eqb (fst e) key)) d = d.
Proof.
  induction d as [|[k v] d IH]; simpl; [reflexivity|].
  intro H. destruct (String.eqb_spec k key) as [->|Hne]; simpl.
  - exfalso. apply H. now left.
  - f_equal. apply IH. intro Hin. apply H. now right.
Qed.

Lemma dict_del_filter (key : string) (d : list (string * file_info)) :
  NoDup (map fst d) ->
  dict_del key d = filter (fun e => negb (String.eqb (fst e) key)) d.
Proof.
  induction d as [|[k v] d IH]; simpl; [reflexivity|].
  intro Hnd. inversion Hnd as [|? ? Hk Hd]; subst.
  destruct (String.eqb_spec k key) as [->|Hne]; simpl.
  - symmetry. now apply filter_absent_key.
  - now rewrite IH.
Qed.

Lemma dict_get_filter (p : string -> bool) (key : string)
    (d : list (string * file_info)) :
  dict_get key (filter (fun e => p (fst e)) d)
  = if p key then dict_get key d else None.
Proof.
  induction d as [|[k v] d IH]; simpl; [now destruct (p key)|].
  destruct (p k) eqn:Hp; simpl.
  - destruct (String.eqb_spec k key) as [->|Hne]; [now rewrite Hp|exact IH].
  - destruct (String.eqb_spec k key) as [->|Hne]; [now rewrite IH, Hp|exact IH].
Qed.

Lemma filter_twice {A} (p q : A -> bool) (l : list A) :
  filter p (filter q l) = filter (fun x => p x && q x) l.
Proof.
  induction l as [|x l IH]; simpl; [reflexivity|].
  destruct (q x); simpl; [|now rewrite andb_false_r].
  rewrite andb_true_r. destruct (p x); now rewrite IH.
Qed.

Lemma remove_item_state (key : string) (w : LowerComputerWindow) :
  data_items (state_after (remove_item key) w) = dict_del key (data_items w) /\
  data_list_widget (state_after (remove_item key) w)
  = remove_row key (data_list_widget w) /\
  effects_of (remove_item key) w = [].
Proof.
  unfold remove_item, state_after, effects_of, bind, modify; simpl.
  destruct (dict_mem key (data_items w)) eqn:E; simpl; repeat split.
  now rewrite dict_del_absent.
Qed.

Lemma remove_items_state (l : list string) :
  forall w, well_formed w ->
    let w' := state_after (for_each l remove_item) w in
    data_items w' = filter (fun e => negb (mem (fst e) l)) (data_items w) /\
    well_formed w' /\ effects_of (for_each l remove_item) w = [].
Proof.
  induction l as [|k l IH]; intros w Hwf; cbv zeta.
  - split; [|split; [exact Hwf|reflexivity]].
    change (data_items (state_after (for_each [] remove_item) w)) with (data_items w).
    symmetry. apply forallb_filter_id. now apply forallb_forall.
  - cbn [for_each]. rewrite state_after_bind, effects_of_bind.
    destruct (remove_item_state k w) as (Hd & Hr & He).
    assert (Hwf1 : well_formed (state_after (remove_item k) w)).
    { destruct Hwf as [Hnd Hrows]. unfold well_formed.
      rewrite Hd, Hr, dict_del_keys, Hrows. split; [|reflexivity].
      now apply remove_row_NoDup. }
    destruct (IH _ Hwf1) as (IHd & IHwf & IHe). cbv zeta in *.
    rewrite IHd, He, IHe, Hd. split; [|split; [exact IHwf|reflexivity]].
    rewrite dict_del_filter by apply Hwf. rewrite filter_twice.
    apply filter_ext. intro e. unfold mem. cbn [existsb].
    rewrite negb_orb. apply andb_comm.
Qed.

(** In a window whose queue has a row per key, [remove_selected_data]
    takes out the rows of the items it is given and no other: the rows
    left are the rows there were, unchanged and in their order, a key
    that was given is no longer in the queue, any other key holds what
    it held, and the list still shows the rows of the queue. *)
Theorem remove_selected_data_takes_out_the_rows_given (w : LowerComputerWindow)
    (selected_items : list string) :
  well_formed w ->
  let w' := state_after (remove_selected_data selected_items) w in
  data_items w'
  = filter (fun e => negb (mem (fst e) selected_items)) (data_items w) /\
  (forall key, dict_get key (data_items w')
               = if mem key selected_items then None else dict_get key (data_items w)) /\
  well_formed w'.
Proof.
  intros Hwf w'.
  assert (Hw' : data_items w'
                = filter (fun e => negb (mem (fst e) selected_items)) (data_items w) /\
                well_formed w').
  { subst w'. unfold remove_selected_data.
    destruct selected_items as [|k l] eqn:E.
    - split; [|exact Hwf].
      change (data_items (state_after (tell _) w)) with (data_items w).
      symmetry. apply forallb_filter_id. now apply forallb_forall.
    - rewrite <- E. rewrite !state_after_bind.
      unfold log. unfold state_after at 1. unfold tell. simpl snd.
      rewrite update_data_count_state.
      destruct (remove_items_state selected_items w Hwf) as (Hd & Hwf' & _).
      split; assumption. }
  destruct Hw' as [Hd Hwf']. split; [exact Hd|]. split; [|exact Hwf'].
  intro key. rewrite Hd.
  rewrite (dict_get_filter (fun k => negb (mem k selected_items))).
  now destruct (mem key selected_items).
Qed.

Section Names.

Variable path_name : string -> string.
Variable path_suffix : string -> string.
Variable path_stem : string -> string.
Variable str_lower : string -> string.
Variable str_strip : string -> string.
Variable fs : string -> option Z.

Let run_ops := Window.run_ops path_name path_suffix path_stem str_lower str_strip fs.
Let perform := Window.perform path_name path_suffix path_stem str_lower str_strip fs.

(** The file name a worker for the row signals under. *)
Definition name_of (e : string * file_info) : string :=
  path_name (file_path (data (snd e))).

Lemma update_first_behind (n : string) (g : MeterDataListItem -> MeterDataListItem)
    (e : string * file_info) (rest : list (string * file_info)) :
  forall front,
    In (name_of e) (map name_of front) \/ named path_name n (snd e) = false ->
    exists front' rest',
      update_first (named path_name n) (with_widget g) (front ++ e :: rest)
      = front' ++ e :: rest' /\
      map name_of front' = map name_of front.
Proof.
  induction front as [|[k v] front IH]; intros H.
  - destruct H as [[]|H]. destruct e as [ke ve]. simpl in *. rewrite H.
    exists [], (update_first (named path_name n) (with_widget g) rest).
    split; reflexivity.
  - cbn [app update_first].
    destruct (named path_name n v) eqn:Hn.
    + exists ((k, with_widget g v) :: front), rest. split; reflexivity.
    + destruct (IH) as (front' & rest' & E & N).
      { destruct H as [[H|H]|H]; auto.
        right. unfold named in *. unfold name_of in H. simpl in H.
        rewrite <- H. exact Hn. }
      exists ((k, v) :: front'), rest'. rewrite E. split; [reflexivity|].
      simpl. now rewrite N.
Qed.

Lemma signal_items (o : op) (w : LowerComputerWindow) :
  is_signal o = true ->
  exists n g, data_items (state_after (perform o) w)
              = update_first (named path_name n) (with_widget g) (data_items w).
Proof.
  destruct o; try discriminate; intros _.
  - exists file_name, (set_progress progress). reflexivity.
  - exists file_name.
    exists (if success
            then fun x => set_uploaded true (set_progress 100 (set_status "✓ 成功" "green" x))
            else fun x => set_progress 0 (set_status "✗ 失败" "red" x)).
    subst perform. unfold Window.perform, Window.on_upload_finished.
    rewrite !state_after_bind, check_all_state.
    unfold read. simpl fst. unfold state_after at 2. simpl snd.
    destruct (existsb (named path_name file_name) (values (data_items w))) eqn:E.
    + destruct success; reflexivity.
    + unfold state_after, ret; simpl. unfold values in E.
      induction (data_items w) as [|[k v] d IH]; simpl in *; [reflexivity|].
      apply orb_false_iff in E. destruct E as [E1 E2]. rewrite E1.
      f_equal. auto.
Qed.

Lemma signal_effects (o : op) (w : LowerComputerWindow) (e : string * file_info) :
  is_signal o = true ->
  In e (data_items (state_after (perform o) w)) -> uploading (snd e) = true ->
  forallb is_log_line (effects_of (perform o) w) = true.
Proof.
  destruct o; try discriminate; intros _ Hin Hup; [reflexivity|].
  subst perform. unfold Window.perform in *.
  unfold Window.on_upload_finished in *.
  rewrite state_after_bind, state_after_bind, check_all_state in Hin.
  rewrite effects_of_bind, effects_of_bind.
  rewrite (effects_of_uploading _ e Hin Hup), app_nil_r.
  unfold read. simpl fst. unfold state_after. simpl snd. unfold effects_of at 1.
  simpl snd. cbn [app].
  destruct (existsb (named path_name file_name) (values (data_items w)));
    [destruct success|]; reflexivity.
Qed.

Lemma run_ops_cons (o : op) (ops : list op) (w : LowerComputerWindow) :
  state_after (run_ops (o :: ops)) w
  = state_after (run_ops ops) (state_after (perform o) w) /\
  effects_of (run_ops (o :: ops)) w
  = effects_of (perform o) w ++ effects_of (run_ops ops) (state_after (perform o) w).
Proof.
  subst run_ops perform. unfold Window.run_ops. cbn [for_each].
  now rewrite state_after_bind, effects_of_bind.
Qed.

(** Signals of the workers are matched by file name, and a signal acts
    on the first row of its name.  A row that stands behind a row of the
    same name is left as it is by every signal, at the place it has; and
    while its label says uploading, no result makes the window report
    that the uploads are complete: all that the signals cause are log
    lines. *)
Theorem signals_reach_the_first_row_of_a_name (w : LowerComputerWindow)
    (before between rest : list (string * file_info))
    (first second : string * file_info) (signals : list op) :
  data_items w = before ++ first :: between ++ second :: rest ->
  name_of first = name_of second ->
  forallb is_signal signals = true ->
  nth_error (data_items (state_after (run_ops signals) w))
    (length (before ++ first :: between)) = Some second /\
  (uploading (snd second) = true ->
   forallb is_log_line (effects_of (run_ops signals) w) = true).
Proof.
  intros Hd Hname Hsig.
  assert (Hfront : exists front rest',
            data_items w = front ++ second :: rest' /\
            map name_of front = map name_of (before ++ first :: between)).
  { exists (before ++ first :: between), rest. split; [|reflexivity].
    now rewrite Hd, <- app_assoc. }
  assert (Hin : In (name_of second) (map name_of (before ++ first :: between))).
  { rewrite map_app. apply in_or_app. right. left. exact Hname. }
  clear Hd. revert w Hfront.
  induction signals as [|o signals IH]; intros w (front & rest' & Hd & Hn).
  - split; [|reflexivity].
    change (state_after (run_ops []) w) with w. rewrite Hd.
    rewrite nth_error_app2
      by (rewrite <- (length_map name_of front), Hn, length_map; lia).
    rewrite <- (length_map name_of front), Hn, length_map, Nat.sub_diag.
    reflexivity.
  - cbn [forallb] in Hsig. apply andb_true_iff in Hsig. destruct Hsig as [Ho Hs].
    destruct (run_ops_cons o signals w) as [Est Eef]. rewrite Est, Eef.
    destruct (signal_items o w Ho) as (n & g & Ei).
    destruct (update_first_behind n g second rest' front) as (front' & rest'' & E & N).
    { left. now rewrite Hn. }
    assert (Hnext : exists front0 rest0,
              data_items (state_after (perform o) w) = front0 ++ second :: rest0 /\
              map name_of front0 = map name_of (before ++ first :: between)).
    { exists front', rest''. rewrite Ei, Hd, E. split; [reflexivity|congruence]. }
    destruct (IH Hs _ Hnext) as [IH1 IH2]. split; [exact IH1|].
    intro Hup. rewrite forallb_app, (IH2 Hup), andb_true_r.
    apply (signal_effects o w second Ho); [|exact Hup].
    destruct Hnext as (f0 & r0 & -> & _). apply in_or_app. right. now left.
Qed.

Lemma perform_queue_only (o : op) :
  (forall ip r, o <> ConnectToServer ip r) -> queue_only (perform o).
Proof.
  intro Hno. subst perform. destruct o; unfold Window.perform;
    try (now destruct (Hno device_ip authenticate_device)).
  - unfold add_meter_data, update_data_count, log. frame.
  - unfold remove_selected_data, remove_item, update_data_count, log. frame.
  - unfold clear_data_list, update_data_count, log. frame.
  - unfold select_all_data, log. frame.
  - unfold deselect_all_data, log. frame.
  - unfold operator_checks. frame.
  - unfold upload_data, start_worker, log. frame.
  - unfold stop_upload, restore_upload_buttons, log. frame.
  - unfold on_upload_progress. frame.
  - unfold on_upload_finished, check_all_uploads_finished, restore_upload_buttons, log.
    frame.
Qed.

Lemma perform_local (o : op) :
  o <> UploadData -> (forall ip r, o <> ConnectToServer ip r) ->
  emits_only is_local (perform o).
Proof.
  intros Hup Hno. subst perform. destruct o; unfold Window.perform;
    try (now destruct Hup);
    try (now destruct (Hno device_ip authenticate_device)).
  - unfold add_meter_data, update_data_count, log. hush.
  - unfold remove_selected_data, remove_item, update_data_count, log. hush.
  - unfold clear_data_list, update_data_count, log. hush.
  - unfold select_all_data, log. hush.
  - unfold deselect_all_data, log. hush.
  - unfold operator_checks. hush.
  - unfold stop_upload, restore_upload_buttons, log. hush.
  - unfold on_upload_progress. hush.
  - unfold on_upload_finished, check_all_uploads_finished, restore_upload_buttons, log.
    hush.
Qed.

(** ** Connecting *)

Let connect_to_server := Window.connect_to_server str_strip.
Let quit_qt_application := Window.quit_qt_application str_strip.

(** The three things [connect_to_server] asks for are there. *)
Definition ready (w : LowerComputerWindow) : bool :=
  truthy (str_strip (server_input w)) && truthy (str_strip (device_id_input w))
  && truthy (cfg_hardware_key (lower_config w)).

Definition address_of (w : LowerComputerWindow) : string :=
  Polling.rstrip_slash (str_strip (server_input w)).

Definition heartbeat_client (w : LowerComputerWindow) : Polling.client :=
  Polling.init (str_strip (server_input w)) (str_strip (device_id_input w))
    (cfg_hardware_key (lower_config w)).

Definition authenticate_call (w : LowerComputerWindow) (device_ip : string) : effect :=
  Authenticate (address_of w) (str_strip (device_id_input w))
    (cfg_hardware_key (lower_config w)) device_ip.

Definition refused (w : LowerComputerWindow) (device_ip : string) (e : Py.exn)
    : unit * LowerComputerWindow * list effect :=
  (tt, set_authenticated false (set_client (Some (address_of w)) w),
   [authenticate_call w device_ip; LogLine true (TConnectFailed e);
    StatusBar "连接失败 ✗"; CriticalBox (TConnectFailed e)]).

Definition accepted (w : LowerComputerWindow) (device_ip : string)
    (d : list (string * Py.value)) : unit * LowerComputerWindow * list effect :=
  (tt,
   set_long_polling_thread (Some (heartbeat_client w))
     (set_authenticated true (set_client (Some (address_of w)) w)),
   [authenticate_call w device_ip;
    LogLine false (TConnected (match Py.lookup "message" d with
                               | Some v => v
                               | None => Py.VNone
                               end));
    StartLongPolling (heartbeat_client w);
    LogLine false TStartingHeartbeat; StatusBar "已连接 ✓ (HTTP长轮询)";
    SetEnabled add_excel_btn true; SetEnabled add_image_btn true;
    SetEnabled remove_file_btn true; SetEnabled clear_files_btn true;
    InformationBox (TLiteral "连接服务器成功！")]).

(** What [connect_to_server] comes to in long-polling mode: a warning
    when something is missing; a refusal when the call raises or returns
    something that has no [get]; otherwise a heartbeat thread. *)
Definition connection (w : LowerComputerWindow) (device_ip : string)
    (r : Py.result Py.value) : unit * LowerComputerWindow * list effect :=
  if negb (ready w) then (tt, w, [WarningBox (TLiteral "请填写必要信息")])
  else match r with
       | Py.Ok (Py.VDict d) => accepted w device_ip d
       | Py.Ok _ => refused w device_ip Py.AttributeError
       | Py.Raise e => refused w device_ip e
       end.

Lemma connect_outcome (w : LowerComputerWindow) (device_ip : string)
    (r : Py.result Py.value) :
  connection_mode w = LongPollingMode ->
  connect_to_server device_ip r w = connection w device_ip r.
Proof.
  intro Hm. subst connect_to_server. unfold Window.connect_to_server, connection.
  unfold bind at 1. unfold read at 1. fold (ready w).
  destruct (ready w) eqn:Hr; cbn [negb]; [|reflexivity].
  destruct r as [v|e]; [destruct v|]; try reflexivity.
  unfold accepted, bind, modify, tell, log, Py.get. cbn [fst snd].
  rewrite Hm. destruct (Py.lookup "message" d); reflexivity.
Qed.

Definition connected_window (w : LowerComputerWindow) : LowerComputerWindow :=
  set_long_polling_thread (Some (heartbeat_client w))
    (set_authenticated true (set_client (Some (address_of w)) w)).

Lemma connect_accepted (w : LowerComputerWindow) (device_ip : string)
    (d : list (string * Py.value)) :
  connection_mode w = LongPollingMode -> ready w = true ->
  state_after (perform (ConnectToServer device_ip (Py.Ok (Py.VDict d)))) w
  = connected_window w /\
  effects_of (perform (ConnectToServer device_ip (Py.Ok (Py.VDict d)))) w
  = snd (accepted w device_ip d).
Proof.
  intros Hm Hr. subst perform. unfold Window.perform. fold connect_to_server.
  unfold state_after, effects_of. rewrite (connect_outcome w device_ip _ Hm).
  unfold connection. rewrite Hr. split; reflexivity.
Qed.

Lemma connect_refused (w : LowerComputerWindow) (device_ip : string) (e : Py.exn) :
  connection_mode w = LongPollingMode -> ready w = true ->
  state_after (perform (ConnectToServer device_ip (Py.Raise e))) w
  = set_authenticated false (set_client (Some (address_of w)) w) /\
  effects_of (perform (ConnectToServer device_ip (Py.Raise e))) w
  = snd (refused w device_ip e).
Proof.
  intros Hm Hr. subst perform. unfold Window.perform. fold connect_to_server.
  unfold state_after, effects_of. rewrite (connect_outcome w device_ip _ Hm).
  unfold connection. rewrite Hr. split; reflexivity.
Qed.

Lemma run_ops_keeps (I : LowerComputerWindow -> Prop) (P : effect -> bool)
    (allowed : op -> Prop) :
  (forall o w, allowed o -> I w ->
     I (state_after (perform o) w) /\ forallb P (effects_of (perform o) w) = true) ->
  forall ops w, Forall allowed ops -> I w ->
    I (state_after (run_ops ops) w) /\ forallb P (effects_of (run_ops ops) w) = true.
Proof.
  intros Hstep. induction ops as [|o ops IH]; intros w Hall Hw.
  - split; [exact Hw|reflexivity].
  - inversion Hall as [|? ? Ho Hrest]; subst.
    destruct (run_ops_cons o ops w) as [Est Eef]. rewrite Est, Eef.
    destruct (Hstep o w Ho Hw) as [Hw1 He1].
    destruct (IH _ Hrest Hw1) as [Hw2 He2].
    split; [exact Hw2|]. now rewrite forallb_app, He1, He2.
Qed.

Definition is_pool_start (e : effect) : bool :=
  match e with PoolStart _ _ _ => true | _ => false end.

Lemma upload_data_effects : emits_only (fun e => is_local e || is_pool_start e) upload_data.
Proof. unfold upload_data, start_worker, log. hush. Qed.

Lemma implied_effects (P Q : effect -> bool) (es : list effect) :
  (forall e, P e = true -> Q e = true) -> forallb P es = true -> forallb Q es = true.
Proof.
  intros H. rewrite !forallb_forall. intros HP e He. auto.
Qed.

Lemma no_pool_start (es : list effect) :
  forallb (fun e => negb (is_pool_start e)) es = true <-> pool_starts es = [].
Proof.
  unfold pool_starts. induction es as [|e es IH]; simpl; [tauto|].
  rewrite andb_true_iff, IH. destruct e; simpl; intuition discriminate.
Qed.

(** A connection is made when [authenticate_device] returned a JSON
    object. *)
Definition returned_an_object (r : Py.result Py.value) : bool :=
  match r with
  | Py.Ok (Py.VDict _) => true
  | _ => false
  end.

Definition is_connection (o : op) : bool :=
  match o with
  | ConnectToServer _ r => returned_an_object r
  | _ => false
  end.

Lemma connect_effects (w : LowerComputerWindow) (device_ip : string)
    (r : Py.result Py.value) :
  forallb (fun e => negb (is_pool_start e))
    (effects_of (connect_to_server device_ip r) w) = true.
Proof.
  subst connect_to_server.
  unfold Window.connect_to_server, effects_of, bind, read, modify, tell, log,
    connect_failed; simpl.
  destruct (negb _); simpl; [reflexivity|].
  destruct r as [v|e]; simpl; [|reflexivity].
  destruct (Py.get v "message" Py.VNone); simpl; [|reflexivity].
  destruct (connection_mode w); reflexivity.
Qed.

Lemma connect_without_object (w : LowerComputerWindow) (device_ip : string)
    (r : Py.result Py.value) :
  returned_an_object r = false -> authenticated w = false ->
  authenticated (state_after (connect_to_server device_ip r) w) = false.
Proof.
  intros Hr Ha. subst connect_to_server.
  unfold Window.connect_to_server, state_after, bind, read, modify, tell, log,
    connect_failed; simpl.
  destruct (negb _); simpl; [exact Ha|].
  destruct r as [v|e]; simpl; [|reflexivity].
  destruct v; try discriminate; reflexivity.
Qed.

(** From the start of the application on, as long as no call of
    [authenticate_device] has returned a JSON object, the window is not
    authenticated and no worker is handed to the pool, whatever the
    operator does. *)
Theorem nothing_is_uploaded_before_a_connection (cfg : LowerConfig) (ops : list op) :
  existsb is_connection ops = false ->
  authenticated (state_after (run_ops ops) (new_window cfg)) = false /\
  pool_starts (effects_of (run_ops ops) (new_window cfg)) = [].
Proof.
  intro Hnone.
  destruct (run_ops_keeps (fun w => authenticated w = false)
              (fun e => negb (is_pool_start e))
              (fun o => is_connection o = false)) with (ops := ops)
              (w := new_window cfg) as [Ha He].
  - intros o w Ho Hw.
    assert (Hkeep : (forall ip r, o <> ConnectToServer ip r) ->
                    authenticated (state_after (perform o) w) = false).
    { intro Hno.
      destruct (session_fields _ _ (perform_queue_only o Hno w))
        as (_ & _ & _ & _ & Ha & _). congruence. }
    destruct o;
      try (split; [apply Hkeep; discriminate|];
           apply (implied_effects is_local);
           [intros [] He; try reflexivity; discriminate He
           |apply perform_local; discriminate]).
    + split; [apply Hkeep; discriminate|].
      apply no_pool_start. apply (upload_data_idle w). now left.
    + split; [now apply connect_without_object|apply connect_effects].
  - apply Forall_forall. intros o Ho.
    destruct (is_connection o) eqn:E; [|reflexivity].
    assert (existsb is_connection ops = true)
      by (apply existsb_exists; now exists o).
    congruence.
  - reflexivity.
  - split; [exact Ha|now apply no_pool_start].
Qed.

(** ** The connection threads *)

Definition is_websocket (e : effect) : bool :=
  match e with
  | StartWebSocket _ | WsStop | WsJoin _ => true
  | _ => false
  end.

Lemma connect_keeps_the_mode (w : LowerComputerWindow) (device_ip : string)
    (r : Py.result Py.value) :
  connection_mode w = LongPollingMode ->
  let w' := state_after (connect_to_server device_ip r) w in
  connection_mode w' = LongPollingMode /\ ws_thread w' = ws_thread w /\
  lower_config w' = lower_config w /\ server_input w' = server_input w /\
  device_id_input w' = device_id_input w /\
  forallb (fun e => negb (is_websocket e))
    (effects_of (connect_to_server device_ip r) w) = true.
Proof.
  intros Hm w'. subst w'. unfold state_after, effects_of.
  rewrite (connect_outcome w device_ip r Hm). unfold connection.
  destruct (negb (ready w)); [repeat split; assumption|].
  destruct r as [v|e]; [destruct v|]; repeat split; assumption.
Qed.

(** The window is built in long-polling mode and nothing changes the
    mode: whatever the operator does and whatever the server answers, no
    WebSocket thread is made, started, stopped or joined, neither by
    the window nor when the application quits. *)
Theorem the_window_never_opens_a_websocket (cfg : LowerConfig) (ops : list op)
    (set_device_offline : Py.result Py.value) :
  let w := state_after (run_ops ops) (new_window cfg) in
  connection_mode w = LongPollingMode /\ ws_thread w = None /\
  forallb (fun e => negb (is_websocket e))
    (effects_of (run_ops ops) (new_window cfg)) = true /\
  forallb (fun e => negb (is_websocket e))
    (effects_of (quit_qt_application set_device_offline) w) = true.
Proof.
  intro w.
  destruct (run_ops_keeps
              (fun w => connection_mode w = LongPollingMode /\ ws_thread w = None)
              (fun e => negb (is_websocket e)) (fun _ => True))
    with (ops := ops) (w := new_window cfg) as [[Hm Hw] He].
  - intros o w0 _ [Hm Hw].
    assert (Hkeep : (forall ip r, o <> ConnectToServer ip r) ->
              connection_mode (state_after (perform o) w0) = LongPollingMode /\
              ws_thread (state_after (perform o) w0) = None).
    { intro Hno.
      destruct (session_fields _ _ (perform_queue_only o Hno w0))
        as (_ & H1 & _ & H2 & _). split; congruence. }
    destruct o;
      try (split; [apply Hkeep; discriminate|];
           apply (implied_effects is_local);
           [intros [] He; try reflexivity; discriminate He
           |apply perform_local; discriminate]).
    + split; [apply Hkeep; discriminate|].
      apply (implied_effects (fun e => is_local e || is_pool_start e));
        [intros [] He; try reflexivity; discriminate He|apply upload_data_effects].
    + destruct (connect_keeps_the_mode w0 device_ip authenticate_device Hm)
        as (H1 & H2 & _ & _ & _ & H3).
      split; [split; [exact H1|exact (eq_trans H2 Hw)]|exact H3].
  - apply Forall_forall. intros; exact I.
  - split; reflexivity.
  - fold w in Hm, Hw. repeat split; try assumption.
    subst quit_qt_application.
    unfold Window.quit_qt_application, effects_of, bind, read, tell, ret; simpl.
    rewrite Hw.
    destruct (authenticated w), (long_polling_thread w), (client w),
      set_device_offline; reflexivity.
Qed.

Definition is_heartbeat_control (e : effect) : bool :=
  match e with
  | StartLongPolling _ | LongPollingStop | LongPollingJoin _ => true
  | _ => false
  end.

(** The operator connects again and again, the server accepting. *)
Definition connections (answers : list (string * list (string * Py.value)))
    : list op :=
  map (fun a => ConnectToServer (fst a) (Py.Ok (Py.VDict (snd a)))) answers.

(** Every connection the server accepts makes and starts a heartbeat
    thread of its own; the thread the window held before is neither
    stopped nor joined, and the window keeps the last one only. *)
Theorem every_connection_starts_another_heartbeat (w : LowerComputerWindow)
    (answers : list (string * list (string * Py.value))) :
  connection_mode w = LongPollingMode -> ready w = true ->
  let w' := state_after (run_ops (connections answers)) w in
  filter is_heartbeat_control (effects_of (run_ops (connections answers)) w)
  = repeat (StartLongPolling (heartbeat_client w)) (length answers) /\
  (answers <> [] -> long_polling_thread w' = Some (heartbeat_client w)) /\
  (answers <> [] -> authenticated w' = true).
Proof.
  intros Hm Hr. cbv zeta.
  assert (Hgen : forall answers w0,
            connection_mode w0 = LongPollingMode -> ready w0 = true ->
            heartbeat_client w0 = heartbeat_client w ->
            filter is_heartbeat_control
              (effects_of (run_ops (connections answers)) w0)
            = repeat (StartLongPolling (heartbeat_client w)) (length answers) /\
            (answers <> [] ->
             long_polling_thread (state_after (run_ops (connections answers)) w0)
             = Some (heartbeat_client w) /\
             authenticated (state_after (run_ops (connections answers)) w0) = true)).
  { clear Hm Hr. intro l. induction l as [|[ip d] l IH]; intros w0 Hm Hr Hc.
    - split; [reflexivity|]. intro H. now destruct H.
    - cbn [connections map fst snd].
      destruct (run_ops_cons (ConnectToServer ip (Py.Ok (Py.VDict d)))
                  (connections l) w0) as [Est Eef].
      fold (connections l). rewrite Est, Eef. clear Est Eef.
      destruct (connect_accepted w0 ip d Hm Hr) as [Est Eef].
      rewrite Est, Eef. clear Est Eef.
      destruct (IH (connected_window w0)) as [IH1 IH2]; [exact Hm|exact Hr|exact Hc|].
      split.
      + rewrite filter_app, IH1. cbn [accepted snd filter is_heartbeat_control
                                      authenticate_call app length repeat].
        now rewrite Hc.
      + intros _. destruct l as [|a l].
        * split; [|reflexivity]. cbn [connections map]. simpl. now rewrite Hc.
        * apply IH2. discriminate. }
  destruct (Hgen answers w Hm Hr eq_refl) as [H1 H2].
  split; [exact H1|]. split; intro Hne; now apply H2.
Qed.

(** After a connection, an attempt that the server refuses leaves the
    heartbeat thread of the connection running and held by the window,
    and the window not authenticated: it hands no worker to the pool
    any more, and when the application quits it stops nothing and
    notifies nobody. *)
Theorem a_refused_reconnection_leaves_the_heartbeat_running
    (w : LowerComputerWindow) (ip ip' : string) (d : list (string * Py.value))
    (e : Py.exn) (set_device_offline : Py.result Py.value) :
  connection_mode w = LongPollingMode -> ready w = true ->
  let attempts := [ConnectToServer ip (Py.Ok (Py.VDict d));
                   ConnectToServer ip' (Py.Raise e)] in
  let w' := state_after (run_ops attempts) w in
  filter is_heartbeat_control (effects_of (run_ops attempts) w)
  = [StartLongPolling (heartbeat_client w)] /\
  long_polling_thread w' = Some (heartbeat_client w) /\
  authenticated w' = false /\
  pool_starts (effects_of upload_data w') = [] /\
  effects_of (quit_qt_application set_device_offline) w' = [].
Proof.
  intros Hm Hr attempts w'. subst attempts w'.
  destruct (run_ops_cons (ConnectToServer ip (Py.Ok (Py.VDict d)))
              [ConnectToServer ip' (Py.Raise e)] w) as [Est Eef].
  rewrite Est, Eef. clear Est Eef.
  destruct (connect_accepted w ip d Hm Hr) as [Est Eef].
  rewrite Est, Eef. clear Est Eef.
  destruct (run_ops_cons (ConnectToServer ip' (Py.Raise e)) [] (connected_window w))
    as [Est Eef].
  rewrite Est, Eef. clear Est Eef.
  destruct (connect_refused (connected_window w) ip' e Hm Hr) as [Est Eef].
  rewrite Est, Eef. clear Est Eef.
  repeat split.
Qed.

(** ** Whose uploads they are *)

Lemma workers_identity (dev key : string) (l : list (string * file_info)) :
  emits_only (fun e => match e with
                       | PoolStart dev' key' _ => String.eqb dev' dev && String.eqb key' key
                       | _ => true
                       end)
    (for_each l (start_worker dev key)).
Proof.
  apply emits_only_for_each. intro x. unfold start_worker.
  apply emits_only_bind; [apply emits_only_modify|intro].
  apply emits_only_tell. cbn [forallb]. now rewrite !String.eqb_refl.
Qed.

Lemma upload_data_identity (w : LowerComputerWindow) (dev key : string)
    (m : MeterData) :
  In (PoolStart dev key m) (effects_of upload_data w) ->
  dev = cfg_device_id (lower_config w) /\ key = cfg_hardware_key (lower_config w).
Proof.
  unfold upload_data. rewrite (proj2 (read_bind _ w)).
  destruct (negb (authenticated w)); [intros [H|[]]; discriminate|].
  destruct (data_items w) as [|e0 d0] eqn:Ed; [intros [H|[]]; discriminate|].
  rewrite <- Ed.
  destruct (selected_entries (data_items w)) as [|s0 l0] eqn:Es;
    [intros [H|[]]; discriminate|].
  rewrite <- Es. unfold log.
  repeat rewrite (proj2 (tell_bind _ _ w)).
  intro H. repeat (apply in_app_or in H; destruct H as [H|H];
                   [repeat (destruct H as [H|H]; [discriminate|]); destruct H|]).
  pose proof (workers_identity (cfg_device_id (lower_config w))
                (cfg_hardware_key (lower_config w))
                (selected_entries (data_items w)) w) as Hall.
  rewrite forallb_forall in Hall. specialize (Hall _ H). cbv beta iota in Hall.
  apply andb_true_iff in Hall. destruct Hall as [H1 H2].
  apply String.eqb_eq in H1, H2. now split.
Qed.

(** The device is authenticated under the id typed in the window, but
    its uploads carry the id stored in the configuration: every worker
    is given the device id and the hardware key of the configuration,
    which connecting does not write.  The hardware key is the same in
    both; the device id is what the input holds only if that is what
    the configuration holds. *)
Theorem uploads_carry_the_configured_identity (w : LowerComputerWindow)
    (device_ip : string) (r : Py.result Py.value) :
  let w' := state_after (connect_to_server device_ip r) w in
  (forall server dev key ip,
     In (Authenticate server dev key ip) (effects_of (connect_to_server device_ip r) w) ->
     dev = str_strip (device_id_input w) /\
     key = cfg_hardware_key (lower_config w)) /\
  lower_config w' = lower_config w /\
  (forall dev key m, In (PoolStart dev key m) (effects_of upload_data w') ->
     dev = cfg_device_id (lower_config w) /\
     key = cfg_hardware_key (lower_config w)).
Proof.
  intro w'.
  assert (Hcfg : lower_config w' = lower_config w).
  { subst w' connect_to_server.
    unfold Window.connect_to_server, state_after, bind, read, modify, tell, log,
      connect_failed; simpl.
    destruct (negb _); simpl; [reflexivity|].
    destruct r as [v|e]; simpl; [|reflexivity].
    destruct (Py.get v "message" Py.VNone); simpl; [|reflexivity].
    destruct (connection_mode w); reflexivity. }
  split; [|split; [exact Hcfg|]].
  - intros server dev key ip. subst connect_to_server.
    unfold Window.connect_to_server, effects_of, bind, read, modify, tell, log,
      connect_failed; simpl.
    destruct (negb _); simpl; [intros [H|[]]; discriminate|].
    destruct r as [v|e]; simpl;
      [|intros [H|H]; [inversion H; auto|];
        repeat (destruct H as [H|H]; [discriminate|]); destruct H].
    destruct (Py.get v "message" Py.VNone); simpl;
      [|intros [H|H]; [inversion H; auto|];
        repeat (destruct H as [H|H]; [discriminate|]); destruct H].
    destruct (connection_mode w); simpl;
      (intros [H|H]; [inversion H; auto|];
        repeat (destruct H as [H|H]; [discriminate|]); destruct H).
  - intros dev key m H. rewrite <- Hcfg. now apply (upload_data_identity w' dev key m).
Qed.

(** ** Adding a file *)

Let add_meter_data := Window.add_meter_data path_name path_suffix path_stem str_lower fs.

(** For a path that is not in the queue: when the file is missing or
    its extension is not a supported one, the window is left as it is
    and the failure is logged; otherwise one row is appended to the
    queue and to the list, selected, as large as the file is.  The type
    of the row is the one its extension stands for, whichever type
    the caller names: that one only chooses between the two
    descriptions. *)
Theorem add_meter_data_reads_the_type_off_the_extension (w : LowerComputerWindow)
    (file_path : string) (data_type : DataType)
    (excel_description image_description : string) (now : Z) :
  dict_mem file_path (data_items w) = false ->
  let added := add_meter_data file_path data_type excel_description
                 image_description now in
  match fs file_path, detect_data_type path_suffix str_lower file_path with
  | Some size, Some detected =>
      let meter_data :=
        {| Meter.data_type := detected; Meter.file_path := file_path;
           timestamp := now;
           description := match data_type with
                          | EXCEL => excel_description
                          | IMAGE => image_description
                          end;
           file_size := size |} in
      data_items (state_after added w)
      = data_items w ++ [(file_path, {| widget := new_item meter_data;
                                        data := meter_data |})] /\
      data_list_widget (state_after added w) = data_list_widget w ++ [file_path] /\
      In file_path (submitted (state_after added w))
  | _, _ => added w = (tt, w, [LogLine true (TCreateFailed (path_name file_path))])
  end.
Proof.
  intros Hnew added. subst added add_meter_data.
  unfold Window.add_meter_data, state_after, bind, read. cbn [fst snd].
  rewrite Hnew. unfold create_meter_data.
  destruct (fs file_path) as [size|]; [|reflexivity].
  destruct (detect_data_type path_suffix str_lower file_path) as [detected|];
    [|reflexivity].
  cbn [bind modify update_data_count read tell log fst snd data_items
       data_list_widget set_data_items set_data_list_widget].
  rewrite (dict_set_fresh _ _ _ Hnew). repeat split.
  unfold submitted, selected_entries, set_data_items. cbn [data_items].
  rewrite filter_app, map_app. apply in_or_app. right. now left.
Qed.

(** ** The counters *)

Definition is_count (e : effect) : bool :=
  match e with SetCountLabels _ _ => true | _ => false end.

(** What the two counter labels show after [es], having shown [before]. *)
Definition shown (before : nat * nat) (es : list effect) : nat * nat :=
  fold_left (fun acc e => match e with
                          | SetCountLabels excel_count image_count =>
                              (excel_count, image_count)
                          | _ => acc
                          end) es before.

(** How many spreadsheets and how many images the queue holds. *)
Definition counted (w : LowerComputerWindow) : nat * nat :=
  (count_where is_excel (data_items w), count_where is_image (data_items w)).

Definition payload (d : list (string * file_info)) : list MeterData :=
  map (fun e => data (snd e)) d.

Lemma count_where_payload (p : MeterData -> bool) (d : list (string * file_info)) :
  count_where p d = length (filter p (payload d)).
Proof.
  unfold count_where, values, payload.
  induction d as [|[k v] d IH]; simpl; [reflexivity|].
  destruct (p (data v)); simpl; congruence.
Qed.

Lemma counted_payload (w w' : LowerComputerWindow) :
  payload (data_items w') = payload (data_items w) -> counted w' = counted w.
Proof. unfold counted. rewrite !count_where_payload. now intros ->. Qed.

Lemma payload_update_first (p : file_info -> bool)
    (g : MeterDataListItem -> MeterDataListItem) (d : list (string * file_info)) :
  payload (update_first p (with_widget g) d) = payload d.
Proof.
  unfold payload. induction d as [|[k v] d IH]; simpl; [reflexivity|].
  destruct (p v); simpl; congruence.
Qed.

Lemma payload_dict_update (key : string)
    (g : MeterDataListItem -> MeterDataListItem) (d : list (string * file_info)) :
  payload (dict_update key (with_widget g) d) = payload d.
Proof.
  unfold payload. induction d as [|[k v] d IH]; simpl; [reflexivity|].
  destruct (String.eqb k key); simpl; congruence.
Qed.

Lemma payload_check_unless_uploaded (b : bool) (d : list (string * file_info)) :
  payload (map (check_unless_uploaded b) d) = payload d.
Proof.
  unfold payload. rewrite map_map. apply map_ext. intros [k v]. simpl.
  now destruct (uploaded (widget v)).
Qed.

Lemma payload_workers (dev key : string) (l : list (string * file_info)) :
  forall w,
    payload (data_items (state_after (for_each l (start_worker dev key)) w))
    = payload (data_items w).
Proof.
  induction l as [|e l IH]; intro w; [reflexivity|].
  cbn [for_each]. rewrite state_after_bind, IH, start_worker_items.
  apply payload_dict_update.
Qed.

Definition changes_the_count (o : op) : bool :=
  match o with
  | AddMeterData _ _ _ _ _ | RemoveSelectedData _ | ClearDataList _ => true
  | _ => false
  end.

Lemma perform_payload (o : op) (w : LowerComputerWindow) :
  changes_the_count o = false ->
  payload (data_items (state_after (perform o) w)) = payload (data_items w).
Proof.
  intro Ho. destruct o; try discriminate.
  - apply payload_check_unless_uploaded.
  - apply payload_check_unless_uploaded.
  - apply payload_dict_update.
  - subst perform. unfold Window.perform.
    destruct (authenticated w) eqn:Ha;
      [|now rewrite (proj1 (upload_data_idle w (or_introl Ha)))].
    destruct (selected_entries (data_items w)) as [|s0 l0] eqn:Es;
      [now rewrite (proj1 (upload_data_idle w (or_intror Es)))|].
    assert (Hne : selected_entries (data_items w) <> []) by (rewrite Es; discriminate).
    rewrite (proj1 (upload_data_busy w Ha Hne)). apply payload_workers.
  - subst perform. unfold Window.perform, stop_upload, state_after, bind, tell, log,
      restore_upload_buttons, ret.
    now destruct reply_yes.
  - apply payload_update_first.
  - destruct (signal_items (OnUploadFinished file_name success message) w eq_refl)
      as (n & g & E).
    rewrite E. apply payload_update_first.
  - subst perform. unfold Window.perform.
    now rewrite (proj1 (connect_to_server_queue str_strip device_ip
                          authenticate_device w)).
Qed.

Lemma perform_keeps_the_counters (o : op) (w : LowerComputerWindow) :
  changes_the_count o = false ->
  forallb (fun e => negb (is_count e)) (effects_of (perform o) w) = true.
Proof.
  intro Ho. subst perform. destruct o; try discriminate; unfold Window.perform.
  - revert w. fold (emits_only (fun e => negb (is_count e)) select_all_data).
    unfold select_all_data, log. hush.
  - revert w. fold (emits_only (fun e => negb (is_count e)) deselect_all_data).
    unfold deselect_all_data, log. hush.
  - reflexivity.
  - revert w. fold (emits_only (fun e => negb (is_count e)) upload_data).
    unfold upload_data, start_worker, log. hush.
  - revert w. fold (emits_only (fun e => negb (is_count e)) (stop_upload reply_yes)).
    unfold stop_upload, restore_upload_buttons, log. hush.
  - reflexivity.
  - revert w.
    fold (emits_only (fun e => negb (is_count e))
            (on_upload_finished path_name file_name success message)).
    unfold on_upload_finished, check_all_uploads_finished, restore_upload_buttons, log.
    hush.
  - unfold Window.connect_to_server, effects_of, bind, read, modify, tell, log,
      connect_failed; simpl.
    destruct (negb _); simpl; [reflexivity|].
    destruct authenticate_device as [v|e]; simpl; [|reflexivity].
    destruct (Py.get v "message" Py.VNone); simpl; [|reflexivity].
    destruct (connection_mode w); reflexivity.
Qed.

Lemma shown_quiet (before : nat * nat) (es : list effect) :
  forallb (fun e => negb (is_count e)) es = true -> shown before es = before.
Proof.
  unfold shown. revert before. induction es as [|e es IH]; intros before H;
    [reflexivity|].
  cbn [forallb] in H. apply andb_true_iff in H. destruct H as [He Hes].
  cbn [fold_left]. rewrite IH by exact Hes. now destruct e.
Qed.

Lemma remove_items_effects (l : list string) :
  forall w, effects_of (for_each l remove_item) w = [].
Proof.
  induction l as [|k l IH]; intro w; [reflexivity|].
  cbn [for_each]. rewrite effects_of_bind, IH.
  now rewrite (proj2 (proj2 (remove_item_state k w))).
Qed.

Lemma perform_counters (o : op) (w : LowerComputerWindow) :
  shown (counted w) (effects_of (perform o) w) = counted (state_after (perform o) w).
Proof.
  destruct (changes_the_count o) eqn:Ho.
  - subst perform. destruct o; try discriminate; unfold Window.perform.
    + unfold Window.add_meter_data, state_after, effects_of, bind, read.
      cbn [fst snd].
      destruct (dict_mem _ (data_items w)); [reflexivity|].
      destruct (create_meter_data _ _ _ _ _ _ _); reflexivity.
    + unfold remove_selected_data.
      destruct selected_items as [|k l] eqn:E; [reflexivity|]. rewrite <- E.
      rewrite !state_after_bind, !effects_of_bind, remove_items_effects.
      unfold log. unfold state_after at 1. unfold tell at 1. simpl snd.
      rewrite update_data_count_state. reflexivity.
    + unfold clear_data_list, state_after, effects_of, bind, read.
      cbn [fst snd].
      destruct (data_items w) eqn:Ed; [reflexivity|].
      destruct reply_yes; reflexivity.
  - rewrite shown_quiet by now apply perform_keeps_the_counters.
    symmetry. apply counted_payload. now apply perform_payload.
Qed.

Lemma counts_add_up (d : list (string * file_info)) :
  (count_where is_excel d + count_where is_image d = length d)%nat.
Proof.
  unfold count_where, values, is_excel, is_image.
  induction d as [|[k v] d IH]; simpl; [reflexivity|].
  destruct (data_type (data v)); simpl; lia.
Qed.

(** From the start of the application on, whatever is done, the two
    counter labels show how many spreadsheets and how many images the
    queue holds, and the two numbers add up to the number of rows. *)
Theorem the_counters_show_the_queue (cfg : LowerConfig) (ops : list op) :
  let w := state_after (run_ops ops) (new_window cfg) in
  shown (0%nat, 0%nat) (effects_of (run_ops ops) (new_window cfg)) = counted w /\
  (fst (counted w) + snd (counted w) = length (data_items w))%nat.
Proof.
  intro w. split; [|apply counts_add_up].
  subst w. change (0%nat, 0%nat) with (counted (new_window cfg)).
  generalize (new_window cfg). induction ops as [|o ops IH]; intro w; [reflexivity|].
  destruct (run_ops_cons o ops w) as [Est Eef]. rewrite Est, Eef.
  unfold shown. rewrite fold_left_app. fold (shown (counted w) (effects_of (perform o) w)).
  rewrite perform_counters. apply IH.
Qed.

End Names.

(** ** Instances *)

(** Two spreadsheets of the same name in two folders, and an image. *)
Definition two_folders (p : string) : option Z :=
  if String.eqb p "/data/a.xlsx" then Some 2048
  else if String.eqb p "/backup/a.xlsx" then Some 4096
  else if String.eqb p "/data/b.png" then Some 512
  else None.

Definition in_folders (ops : list op) : UI unit :=
  run_ops Posix.name Posix.suffix Posix.stem Posix.lower Posix.strip two_folders ops.

(** The window is connected, the two spreadsheets are added and both
    are submitted. *)
Definition both_submitted : LowerComputerWindow :=
  state_after
    (in_folders [sample_connect;
                 AddMeterData "/data/a.xlsx" EXCEL "e1" "i1" 1;
                 AddMeterData "/backup/a.xlsx" EXCEL "e2" "i2" 2;
                 UploadData])
    sample_window.

Definition first_copy : string * file_info :=
  Eval vm_compute in
    match data_items both_submitted with
    | e :: _ => e
    | [] => WindowFacts.uploaded_row
    end.

Definition second_copy : string * file_info :=
  Eval vm_compute in
    match data_items both_submitted with
    | _ :: e :: _ => e
    | _ => WindowFacts.uploaded_row
    end.

(** Both workers report success. *)
Definition both_succeed : list op :=
  [OnUploadFinished "a.xlsx" true "ok"; OnUploadFinished "a.xlsx" true "ok"].

Lemma signals_reach_the_first_row_of_a_name_witness :
  fst second_copy = "/backup/a.xlsx" /\
  nth_error (data_items (state_after (in_folders both_succeed) both_submitted)) 1
  = Some second_copy /\
  forallb is_log_line (effects_of (in_folders both_succeed) both_submitted) = true.
Proof.
  split; [reflexivity|].
  assert (Hd : data_items both_submitted = [] ++ first_copy :: [] ++ second_copy :: [])
    by (vm_compute; reflexivity).
  assert (Hn : name_of Posix.name first_copy = name_of Posix.name second_copy)
    by (vm_compute; reflexivity).
  assert (Hs : forallb is_signal both_succeed = true) by reflexivity.
  destruct (signals_reach_the_first_row_of_a_name Posix.name Posix.suffix Posix.stem
              Posix.lower Posix.strip two_folders both_submitted [] [] []
              first_copy second_copy both_succeed Hd Hn Hs) as [Hrow Hquiet].
  split; [exact Hrow|]. apply Hquiet. vm_compute. reflexivity.
Defined.

(** The operator tries to upload before connecting, after a refused
    attempt, and after an answer that is not a JSON object. *)
Definition uploads_without_a_connection : list op :=
  [AddMeterData "/data/a.xlsx" EXCEL "e1" "i1" 1; UploadData;
   ConnectToServer "10.0.0.2" (Py.Raise (Py.Raised "ConnectionError" "refused"));
   UploadData;
   ConnectToServer "10.0.0.2" (Py.Ok (Py.VList []));
   SelectAllData; UploadData].

Lemma nothing_is_uploaded_before_a_connection_witness :
  authenticated (state_after (in_folders uploads_without_a_connection) sample_window)
  = false /\
  pool_starts (effects_of (in_folders uploads_without_a_connection) sample_window) = [].
Proof.
  apply (nothing_is_uploaded_before_a_connection Posix.name Posix.suffix Posix.stem
           Posix.lower Posix.strip two_folders sample_config
           uploads_without_a_connection).
  reflexivity.
Defined.

Definition two_answers : list (string * list (string * Py.value)) :=
  [("10.0.0.2", [("message", Py.VStr "ok")]); ("10.0.0.2", [])].

Lemma every_connection_starts_another_heartbeat_witness :
  filter is_heartbeat_control
    (effects_of (in_folders (connections two_answers)) sample_window)
  = [StartLongPolling (heartbeat_client Posix.strip sample_window);
     StartLongPolling (heartbeat_client Posix.strip sample_window)].
Proof.
  refine (proj1 (every_connection_starts_another_heartbeat Posix.name Posix.suffix
                   Posix.stem Posix.lower Posix.strip two_folders sample_window
                   two_answers _ _)); reflexivity.
Defined.

Lemma a_refused_reconnection_leaves_the_heartbeat_running_witness :
  let attempts := [sample_connect;
                   ConnectToServer "10.0.0.2"
                     (Py.Raise (Py.Raised "ConnectionError" "refused"))] in
  let w' := state_after (in_folders attempts) sample_window in
  long_polling_thread w' = Some (heartbeat_client Posix.strip sample_window) /\
  authenticated w' = false /\
  effects_of (quit_qt_application Posix.strip (Py.Ok Py.VNone)) w' = [].
Proof.
  cbv zeta.
  destruct (a_refused_reconnection_leaves_the_heartbeat_running Posix.name
              Posix.suffix Posix.stem Posix.lower Posix.strip two_folders
              sample_window "10.0.0.2" "10.0.0.2" [("message", Py.VStr "ok")]
              (Py.Raised "ConnectionError" "refused") (Py.Ok Py.VNone)
              eq_refl eq_refl) as (_ & H2 & H3 & _ & H5).
  split; [exact H2|]. split; [exact H3|exact H5].
Defined.

(** A connected window with a spreadsheet and an image in its queue. *)
Definition two_rows : LowerComputerWindow :=
  state_after
    (in_folders [sample_connect;
                 AddMeterData "/data/a.xlsx" EXCEL "e1" "i1" 1;
                 AddMeterData "/data/b.png" IMAGE "e2" "i2" 2])
    sample_window.

Lemma a_submitted_row_stays_selected_witness :
  map Meter.file_path (pool_starts (effects_of upload_data two_rows))
  = ["/data/a.xlsx"; "/data/b.png"] /\
  map Meter.file_path
    (pool_starts
       (effects_of upload_data
          (state_after (bind upload_data (fun _ => stop_upload true)) two_rows)))
  = ["/data/a.xlsx"; "/data/b.png"].
Proof.
  assert (Ha : authenticated two_rows = true) by reflexivity.
  destruct (a_submitted_row_stays_selected two_rows true Ha) as (H1 & _ & H3).
  rewrite H1, H3. split; vm_compute; reflexivity.
Defined.

Lemma remove_selected_data_takes_out_the_rows_given_witness :
  map fst (data_items (state_after (remove_selected_data ["/data/a.xlsx"]) two_rows))
  = ["/data/b.png"].
Proof.
  assert (Hwf : well_formed two_rows).
  { split; [|vm_compute; reflexivity].
    assert (E : map fst (data_items two_rows) = ["/data/a.xlsx"; "/data/b.png"])
      by (vm_compute; reflexivity).
    rewrite E. repeat constructor; simpl; intuition discriminate. }
  rewrite (proj1 (remove_selected_data_takes_out_the_rows_given two_rows
                    ["/data/a.xlsx"] Hwf)).
  vm_compute. reflexivity.
Defined.

(** An image is added through the dialog for spreadsheets. *)
Lemma add_meter_data_reads_the_type_off_the_extension_witness :
  let added := Window.add_meter_data Posix.name Posix.suffix Posix.stem Posix.lower
                 two_folders "/data/b.png" EXCEL "e1" "i1" 7 in
  let meter_data :=
    {| data_type := IMAGE; Meter.file_path := "/data/b.png"; timestamp := 7;
       description := "e1"; file_size := 512 |} in
  data_items (state_after added sample_window)
  = [("/data/b.png", {| widget := new_item meter_data; data := meter_data |})] /\
  data_list_widget (state_after added sample_window) = ["/data/b.png"] /\
  In "/data/b.png" (submitted (state_after added sample_window)).
Proof.
  exact (add_meter_data_reads_the_type_off_the_extension Posix.name Posix.suffix
           Posix.stem Posix.lower two_folders sample_window "/data/b.png" EXCEL
           "e1" "i1" 7 eq_refl).
Defined.

End QueueFacts.

(* ================================================================== *)
(** * Rows in flight and the size of the pool                       *)
(* ================================================================== *)

Module PoolFacts.
Import Meter Window WindowFacts QueueFacts.
Local Open Scope list_scope.

(** The rows whose label says uploading: the rows that
    [check_all_uploads_finished] takes for uploads in flight. *)
Definition in_flight (w : LowerComputerWindow) : nat :=
  length (filter (fun e => uploading (snd e)) (data_items w)).

Lemma filter_length_le {A} (p q : A -> bool) (l : list A) :
  (forall x, In x l -> p x = true -> q x = true) ->
  (length (filter p l) <= length (filter q l))%nat.
Proof.
  induction l as [|x l IH]; intro H; [apply Nat.le_refl|].
  assert (IH' := IH (fun y Hy => H y (or_intror Hy))).
  cbn [filter]. destruct (p x) eqn:Hp.
  - rewrite (H x (or_introl eq_refl) Hp). cbn [length]. now apply le_n_S.
  - destruct (q x); cbn [length]; [now apply le_S|exact IH'].
Qed.

Lemma dict_get_in (d : list (string * file_info)) (e : string * file_info) :
  NoDup (map fst d) -> In e d -> dict_get (fst e) d = Some (snd e).
Proof.
  induction d as [|[k v] d IH]; simpl; [tauto|].
  intros Hnd [<-|He]; simpl.
  - now rewrite String.eqb_refl.
  - inversion Hnd as [|? ? Hk Hd]; subst.
    destruct (String.eqb_spec k (fst e)) as [->|_]; [|now apply IH].
    exfalso. apply Hk. now apply in_map.
Qed.

Lemma selection_keys (d d' : list (string * file_info)) :
  map selection_of d' = map selection_of d -> map fst d' = map fst d.
Proof.
  intro H.
  assert (E : forall l, map fst l = map (fun t => fst (fst t)) (map selection_of l))
    by (intro l; rewrite map_map; reflexivity).
  now rewrite (E d'), (E d), H.
Qed.

(** What [upload_data] makes of the rows it submits. *)
Lemma submitted_rows_say_uploading (w : LowerComputerWindow) :
  NoDup (map fst (data_items w)) -> authenticated w = true ->
  forall e, In e (data_items (state_after upload_data w)) ->
            In (fst e) (submitted w) -> uploading (snd e) = true.
Proof.
  intros Hnd Ha e He Hk.
  destruct (upload_data_batch w Ha) as [_ Hsel].
  assert (Hnd' : NoDup (map fst (data_items (state_after upload_data w))))
    by (now rewrite (selection_keys _ _ Hsel)).
  pose proof (dict_get_in _ e Hnd' He) as Hget.
  assert (Hne : selected_entries (data_items w) <> []).
  { unfold submitted in Hk. destruct (selected_entries (data_items w)); [destruct Hk|].
    discriminate. }
  destruct (upload_data_busy w Ha Hne) as [Hst _]. rewrite Hst in Hget.
  assert (Hl : status_label (widget (snd e)) = uploading_label).
  { eapply for_each_start_worker_labels; [exact Hget|]. left. exact Hk. }
  unfold uploading. rewrite Hl. reflexivity.
Qed.

Section Pool.

Variable path_name : string -> string.
Variable path_suffix : string -> string.
Variable path_stem : string -> string.
Variable str_lower : string -> string.
Variable str_strip : string -> string.
Variable fs : string -> option Z.

Let run_ops := Window.run_ops path_name path_suffix path_stem str_lower str_strip fs.
Let perform := Window.perform path_name path_suffix path_stem str_lower str_strip fs.

Lemma perform_keeps_the_pool_size (o : op) (w : LowerComputerWindow) :
  max_thread_count (state_after (perform o) w) = max_thread_count w.
Proof.
  assert (Hframe : (forall ip r, o <> ConnectToServer ip r) ->
                   max_thread_count (state_after (perform o) w) = max_thread_count w).
  { intro Hno.
    destruct (session_fields _ _
                (perform_queue_only path_name path_suffix path_stem str_lower
                   str_strip fs o Hno w)) as (_ & _ & _ & _ & _ & H & _).
    exact H. }
  destruct o; try (apply Hframe; discriminate).
  subst perform. unfold Window.perform, Window.connect_to_server, connect_failed,
    Py.get, state_after.
  unfold bind at 1. unfold read at 1.
  destruct (negb (truthy (str_strip (server_input w))
                  && truthy (str_strip (device_id_input w))
                  && truthy (cfg_hardware_key (lower_config w)))); [reflexivity|].
  destruct authenticate_device as [v|e]; [|reflexivity].
  destruct v; try reflexivity.
  destruct (Py.lookup "message" d); destruct (connection_mode w); reflexivity.
Qed.

Lemma run_ops_keep_the_pool_size (ops : list op) (w : LowerComputerWindow) :
  max_thread_count (state_after (run_ops ops) w) = max_thread_count w.
Proof.
  revert w. induction ops as [|o ops IH]; intro w; [reflexivity|].
  destruct (run_ops_cons path_name path_suffix path_stem str_lower str_strip fs
              o ops w) as [Est _].
  unfold run_ops in *. rewrite Est, IH.
  apply perform_keeps_the_pool_size.
Qed.

(** C9, amended.  The pool is sized by the configured limit, 2 when
    the key is absent, and nothing that is done to the window changes
    its size.  [upload_data] of a connected window hands one worker per
    selected row to the pool and labels every one of these rows as
    uploading at once: when it returns, at least as many rows are in
    flight as were selected, whatever the size of the pool. *)
Theorem in_flight_counts_the_submitted_rows (cfg : LowerConfig) (ops : list op) :
  let w := state_after (run_ops ops) (new_window cfg) in
  let w' := state_after upload_data w in
  max_thread_count w = concurrent_uploads cfg /\
  max_thread_count w' = concurrent_uploads cfg /\
  (cfg_concurrent_uploads cfg = None -> concurrent_uploads cfg = 2) /\
  (authenticated w = true ->
   length (pool_starts (effects_of upload_data w)) = length (submitted w) /\
   (forall e, In e (data_items w') -> In (fst e) (submitted w) ->
              uploading (snd e) = true) /\
   (length (submitted w) <= in_flight w')%nat).
Proof.
  intros w w'.
  assert (Hsize : max_thread_count w = concurrent_uploads cfg)
    by (subst w; now rewrite run_ops_keep_the_pool_size).
  assert (Hwf : well_formed w).
  { subst w run_ops.
    exact (changes_well_formed _ _ _
             (run_ops_changes path_name path_suffix path_stem str_lower str_strip fs
                ops (new_window cfg))
             (proj1 (new_window_well_formed path_name path_suffix path_stem
                       str_lower str_strip fs cfg))). }
  split; [exact Hsize|]. split; [|split].
  - subst w'.
    destruct (session_fields _ _ (upload_data_queue_only w))
      as (_ & _ & _ & _ & _ & H & _). now rewrite H.
  - unfold concurrent_uploads. now intros ->.
  - intro Ha.
    destruct (upload_data_batch w Ha) as [Hp Hsel].
    destruct (selected_of_selection _ _ Hsel) as [Hkeys _].
    assert (Hrows : forall e, In e (data_items w') -> In (fst e) (submitted w) ->
                              uploading (snd e) = true)
      by (apply submitted_rows_say_uploading; [exact (proj1 Hwf)|exact Ha]).
    split; [|split; [exact Hrows|]].
    + rewrite Hp. unfold submitted. now rewrite !length_map.
    + unfold in_flight, submitted. rewrite <- Hkeys, length_map.
      unfold selected_entries. apply filter_length_le.
      intros e He Hs. apply (Hrows e He).
      unfold submitted. rewrite <- Hkeys. apply in_map.
      apply filter_In. split; assumption.
Qed.

End Pool.

(** Three files are added to a connected window and submitted. *)
Definition submit_three : list op :=
  [sample_connect;
   AddMeterData "/data/a.xlsx" EXCEL "e" "i" 1;
   AddMeterData "/data/c.XLS" EXCEL "e" "i" 2;
   AddMeterData "/data/b.png" IMAGE "e" "i" 3;
   UploadData].

(** C9, as stated, fails.  The configuration names no limit, so the
    pool has two threads; three rows are submitted, and when
    [upload_data] returns all three are in flight. *)
Lemma more_rows_in_flight_than_threads :
  let w := state_after (sample_run submit_three) sample_window in
  max_thread_count w = 2 /\
  length (pool_starts (effects_of (sample_run submit_three) sample_window)) = 3%nat /\
  in_flight w = 3%nat /\
  ~ (Z.of_nat (in_flight w) <= max_thread_count w).
Proof.
  cbv zeta. split; [reflexivity|]. split; [reflexivity|].
  assert (E : in_flight (state_after (sample_run submit_three) sample_window) = 3%nat)
    by (vm_compute; reflexivity).
  split; [exact E|]. rewrite E.
  change (max_thread_count (state_after (sample_run submit_three) sample_window))
    with 2. lia.
Qed.

End PoolFacts.

(* ================================================================== *)
(** * Properties of the heartbeat requests                          *)
(* ================================================================== *)

Module HeartbeatFacts.
Import Polling PollingFacts.
Local Open Scope list_scope.

(** ** What every step preserves *)

(** A property of the shared state that every step of the thread, every
    call of [stop()] and the passing of time preserve holds after any
    run. *)
Lemma run_actions_preserve (P : state -> Prop) :
  (forall a s s', do_action a s = Some s' -> P s -> P s') ->
  forall acts s s', run_actions acts s = Some s' -> P s -> P s'.
Proof.
  intros Hstep. induction acts as [|a acts IH]; intros s s' Hrun Hs; simpl in Hrun.
  - now inversion Hrun; subst.
  - destruct (do_action a s) as [s1|] eqn:Ha; [|discriminate].
    eapply IH; eauto.
Qed.

(** The cases of one action. *)
Ltac step_cases Ha :=
  match type of Ha with
  | do_action ?a ?s = Some ?s' =>
      destruct a as [o d| |d]; cbn [do_action] in Ha;
      [ destruct s as [me p n tr cl ex]; unfold start_step in Ha;
        cbn [at_pc self now trace cleared_at exited_at] in Ha;
        destruct p;
        repeat match type of Ha with
               | (if ?b then _ else _) = _ => destruct b eqn:?
               | (let (_, _) := ?x in _) = _ => destruct x eqn:?
               end;
        try discriminate Ha; injection Ha as <-
      | injection Ha as <-; destruct s as [me p n tr cl ex]; unfold stop
      | unfold tick in Ha; destruct (wake_of (at_pc s)); [|discriminate Ha];
        destruct (in_range 0 d (_ - now s)); [|discriminate Ha];
        injection Ha as <-; destruct s as [me p n tr cl ex] ];
      cbn [at_pc self now trace cleared_at exited_at] in *
  end.

(** ** Where the requests go *)

Definition configured (c : client) (e : event) : Prop :=
  match e with
  | Post server path device key timeout =>
      server = server_url c /\ device = device_id c /\ key = hardware_key c /\
      ((path = heartbeat_path /\ timeout = heartbeat_timeout) \/
       (path = offline_path /\ timeout = offline_timeout))
  | Log _ => True
  end.

Lemma on_heartbeat_logs (o : outcome) (me : client) (c : client) :
  Forall (configured c) (snd (on_heartbeat o me)).
Proof.
  destruct o as [code| | |]; simpl;
    [destruct (code =? 200); [destruct (connected me)|]|..]; simpl;
    repeat constructor.
Qed.

Lemma requests_stay_configured (c : client) (a : action) (s s' : state) :
  do_action a s = Some s' ->
  same_settings c (self s) /\ Forall (configured c) (trace s) ->
  same_settings c (self s') /\ Forall (configured c) (trace s').
Proof.
  intros Ha [Hset Htr]. unfold same_settings in *.
  destruct Hset as (H1 & H2 & H3 & H4).
  step_cases Ha; simpl; try (split; [auto|]);
    try (apply Forall_app; split; [assumption|]);
    try (repeat constructor; simpl; auto; fail);
    try assumption.
  - destruct (on_heartbeat_settings o0 me) as ((K1 & K2 & K3 & K4) & _).
    rewrite Heqp in *. simpl in *. repeat split; congruence.
  - pose proof (on_heartbeat_logs o0 me c) as Hl. now rewrite Heqp in Hl.
  - destruct o0; repeat constructor.
Qed.

(** Every request the client makes, in any run, goes to the server
    address it was built with and carries the device id and the
    hardware key it was built with: a heartbeat with a timeout of 10,
    or the offline notice with a timeout of 5, and nothing else. *)
Theorem every_request_goes_to_the_configured_server (c : client)
    (acts : list action) (server path device key : string) (timeout : Z) :
  In (Post server path device key timeout) (trace (state_after acts c)) ->
  server = server_url c /\ device = device_id c /\ key = hardware_key c /\
  ((path = heartbeat_path /\ timeout = heartbeat_timeout) \/
   (path = offline_path /\ timeout = offline_timeout)).
Proof.
  unfold state_after.
  destruct (run_actions acts (boot c)) as [s|] eqn:Hrun; [|intros []].
  assert (H : same_settings c (self s) /\ Forall (configured c) (trace s)).
  { apply (run_actions_preserve
             (fun s => same_settings c (self s) /\ Forall (configured c) (trace s))
             (requests_stay_configured c) acts (boot c) s Hrun).
    split; [unfold same_settings; simpl; auto|constructor]. }
  destruct H as [_ Hall]. rewrite Forall_forall in Hall.
  intro Hin. exact (Hall _ Hin).
Qed.

(** A heartbeat that succeeds and one that times out went to the
    address without its slash. *)
Lemma every_request_goes_to_the_configured_server_witness :
  let s := state_after second_probe_fails default_client in
  In (Post "http://localhost:8000" heartbeat_path "meter-01" "0123abcd" 10) (trace s) /\
  "http://localhost:8000" = server_url default_client /\
  10 = heartbeat_timeout.
Proof.
  cbv zeta.
  assert (Hin : In (Post "http://localhost:8000" heartbeat_path "meter-01" "0123abcd" 10)
                  (trace (state_after second_probe_fails default_client)))
    by (vm_compute; right; left; reflexivity).
  split; [exact Hin|].
  destruct (every_request_goes_to_the_configured_server default_client
              second_probe_fails _ _ _ _ _ Hin) as (Hs & _ & _ & [[_ Ht]|[Hp _]]).
  - split; [exact Hs|exact Ht].
  - discriminate Hp.
Defined.

(** ** What [connected] tells *)

(** The log lines that tell how a heartbeat ended. *)
Definition is_verdict (l : log) : bool :=
  match l with
  | DebugBeat | WarnStatus _ | WarnTimeout | ErrorConnection | ErrorOther => true
  | _ => false
  end.

(** How the last heartbeat that ended did end, if one has. *)
Definition last_verdict (t : list event) : option log :=
  fold_left (fun acc e => match e with
                          | Log l => if is_verdict l then Some l else acc
                          | Post _ _ _ _ _ => acc
                          end) t None.

Definition tells_the_last_heartbeat (s : state) : Prop :=
  connected (self s) = true <->
  last_verdict (trace s) = Some DebugBeat /\ at_pc s <> Returned.

Lemma last_verdict_app (t u : list event) :
  last_verdict (t ++ u)
  = fold_left (fun acc e => match e with
                            | Log l => if is_verdict l then Some l else acc
                            | Post _ _ _ _ _ => acc
                            end) u (last_verdict t).
Proof. unfold last_verdict. apply fold_left_app. Qed.

Lemma on_heartbeat_verdict (o : outcome) (me : client) (before : option log) :
  connected (fst (on_heartbeat o me)) = true <->
  fold_left (fun acc e => match e with
                          | Log l => if is_verdict l then Some l else acc
                          | Post _ _ _ _ _ => acc
                          end) (snd (on_heartbeat o me)) before = Some DebugBeat.
Proof.
  destruct o as [code| | |]; simpl;
    [destruct (code =? 200); [destruct (connected me) eqn:E|]|..]; simpl;
    intuition (try discriminate; try congruence).
Qed.

Lemma connected_stays_true_to_the_log (a : action) (s s' : state) :
  do_action a s = Some s' ->
  tells_the_last_heartbeat s -> tells_the_last_heartbeat s'.
Proof.
  intros Ha. unfold tells_the_last_heartbeat.
  step_cases Ha; rewrite ?last_verdict_app;
    cbn [fold_left is_verdict connected set_running set_connected];
    try (intuition (try discriminate; try congruence); fail).
  intros _.
  pose proof (on_heartbeat_verdict o0 me (last_verdict tr)) as Hv.
  rewrite Heqp in Hv. cbn [fst snd] in Hv.
  intuition (try discriminate; try congruence).
Qed.

(** From a client that starts disconnected, as [__init__] leaves it:
    in any run, [connected] is set exactly when the last heartbeat that
    ended was answered with status 200 and [start()] has not returned;
    so [is_connected()] never holds after a heartbeat that failed. *)
Theorem connected_tells_how_the_last_heartbeat_ended (c : client)
    (acts : list action) (s : state) :
  connected c = false ->
  run_actions acts (boot c) = Some s ->
  (connected (self s) = true <->
   last_verdict (trace s) = Some DebugBeat /\ at_pc s <> Returned) /\
  (is_connected (self s) = true -> last_verdict (trace s) = Some DebugBeat).
Proof.
  intros Hc Hrun.
  assert (H : tells_the_last_heartbeat s).
  { apply (run_actions_preserve tells_the_last_heartbeat
             connected_stays_true_to_the_log acts (boot c) s Hrun).
    unfold tells_the_last_heartbeat. simpl. rewrite Hc.
    split; [discriminate|]. intros [H _]. discriminate H. }
  split; [exact H|].
  unfold is_connected. intro Hi. apply andb_true_iff in Hi.
  now apply H.
Qed.

(** A heartbeat succeeds and the next one times out. *)
Lemma connected_tells_how_the_last_heartbeat_ended_witness :
  let s := state_after (second_probe_fails ++ [Tick 10; Thread ok 0]) default_client in
  last_verdict (trace s) = Some WarnTimeout /\ connected (self s) = false /\
  (connected (self s) = true <->
   last_verdict (trace s) = Some DebugBeat /\ at_pc s <> Returned).
Proof.
  split; [reflexivity|]. split; [reflexivity|].
  apply (connected_tells_how_the_last_heartbeat_ended default_client
           (second_probe_fails ++ [Tick 10; Thread ok 0])); reflexivity.
Defined.

(** ** A stop that comes too early *)

Lemma stops_before_the_start (c : client) (n : nat) :
  exists s, run_actions (repeat Stop n) (boot c) = Some s /\
            at_pc s = Entry /\ now s = 0 /\ heartbeats s = 0%nat.
Proof.
  assert (H : forall s, at_pc s = Entry /\ now s = 0 /\ heartbeats s = 0%nat ->
            exists s', run_actions (repeat Stop n) s = Some s' /\
                       at_pc s' = Entry /\ now s' = 0 /\ heartbeats s' = 0%nat).
  { induction n as [|n IH]; intros s Hs; [now exists s|].
    cbn [repeat run_actions do_action]. apply IH.
    destruct s as [me p t tr cl ex]. destruct Hs as (Hp & Hn & Hh).
    unfold heartbeats in *. simpl in *. repeat split; auto.
    now rewrite filter_app, length_app, Hh. }
  apply H. repeat split.
Qed.

(** Calls of [stop()] that come before [start()] has run its first
    statement are lost: [start()] sets the flag again and issues a
    heartbeat, and from then on, until [stop()] is called once more,
    the flag stays set and the thread stays in its loop, whatever the
    heartbeats come to. *)
Theorem a_stop_before_the_start_is_lost (c : client) (n : nat) (o : outcome)
    (d : Z) :
  0 <= heartbeat_interval c ->
  in_range 0 d heartbeat_timeout = true ->
  exists s,
    run_actions (repeat Stop n ++ [Thread o d; Thread o d]) (boot c) = Some s /\
    at_pc s = Heartbeat o d /\ running (self s) = true /\
    heartbeats s = 1%nat /\
    forall acts s', ~ In Stop acts -> run_actions acts s = Some s' ->
      running (self s') = true /\ left_loop (at_pc s') = false.
Proof.
  intros Hpos Hd.
  destruct (stops_before_the_start c n) as (s0 & Hrun0 & Hp0 & Hn0 & Hh0).
  assert (Hstart : exists s,
            run_actions [Thread o d; Thread o d] s0 = Some s /\
            at_pc s = Heartbeat o d /\ running (self s) = true /\
            heartbeats s = 1%nat /\ cleared_at s = None).
  { destruct s0 as [me p t tr cl ex]. unfold heartbeats in *. simpl in *. subst p t.
    cbn [run_actions do_action start_step at_pc self now trace cleared_at exited_at
         running set_running].
    rewrite Hd. eexists. split; [reflexivity|].
    cbn [at_pc self running set_running trace cleared_at].
    repeat split. rewrite !filter_app, !length_app, Hh0. reflexivity. }
  destruct Hstart as (s & Hrun & Hp & Hr & Hh & Hc).
  assert (Hall : run_actions (repeat Stop n ++ [Thread o d; Thread o d]) (boot c)
                 = Some s) by now rewrite run_actions_app, Hrun0.
  exists s. repeat (split; [assumption|]).
  intros acts s' Hno Hrun'.
  assert (Hinv : invariant c s').
  { apply (invariant_run c ((repeat Stop n ++ [Thread o d; Thread o d]) ++ acts)
             Hpos (boot c) s'); [apply invariant_boot|].
    now rewrite run_actions_app, Hall. }
  assert (Hentry : at_pc s <> Entry) by (rewrite Hp; discriminate).
  destruct (cleared_kept_by_thread acts s s' Hrun' Hentry Hno) as [Hkept Hentry'].
  destruct Hinv as (_ & _ & Hflag & Hat). split.
  - rewrite (Hflag Hentry'), Hkept, Hc. reflexivity.
  - unfold at_invariant, left_at in Hat.
    destruct (at_pc s'); try reflexivity;
      [destruct Hat as (_ & _ & ts & te & E & _)
      |destruct Hat as (_ & _ & ts & te & E & _)]; congruence.
Qed.

Lemma a_stop_before_the_start_is_lost_witness :
  exists s,
    run_actions [Stop; Stop; Thread Timeout 3; Thread Timeout 3] (boot default_client)
    = Some s /\
    at_pc s = Heartbeat Timeout 3 /\ running (self s) = true.
Proof.
  destruct (a_stop_before_the_start_is_lost default_client 2 Timeout 3)
    as (s & H1 & H2 & H3 & _); [simpl; lia|reflexivity|].
  exists s. repeat split; assumption.
Defined.

End HeartbeatFacts.

(* ================================================================== *)
(** * Properties of the dialogs                                     *)
(* ================================================================== *)

Module DialogFacts.
Import Meter Window WindowFacts QueueFacts Dialogs.
Local Open Scope list_scope.

(** ** Picking files *)

Lemma dict_mem_keys (key : string) (d : list (string * file_info)) :
  dict_mem key d = mem key (map fst d).
Proof.
  unfold dict_mem, mem. induction d as [|[k v] d IH]; simpl; [reflexivity|].
  rewrite (String.eqb_sym key k). destruct (String.eqb k key); [reflexivity|exact IH].
Qed.

Lemma mem_app (key : string) (l l' : list string) :
  mem key (l ++ l') = mem key l || mem key l'.
Proof. unfold mem. apply existsb_app. Qed.

Section Picking.

Variable path_name : string -> string.
Variable path_suffix : string -> string.
Variable path_stem : string -> string.
Variable str_lower : string -> string.
Variable fs : string -> option Z.

Let add_meter_data := Window.add_meter_data path_name path_suffix path_stem str_lower fs.
Let add_excel_files := Dialogs.add_excel_files path_name path_suffix path_stem str_lower fs.
Let add_image_files := Dialogs.add_image_files path_name path_suffix path_stem str_lower fs.

(** The file is there and its extension is a supported one. *)
Definition usable (file_path : string) : bool :=
  match fs file_path, detect_data_type path_suffix str_lower file_path with
  | Some _, Some _ => true
  | _, _ => false
  end.

(** The keys one call of [add_meter_data] appends to the queue. *)
Definition keys_added (keys : list string) (file_path : string) : list string :=
  if negb (mem file_path keys) && usable file_path then [file_path] else [].

Lemma add_meter_data_keys (w : LowerComputerWindow) (k : string) (t : DataType)
    (ed id : string) (now : Z) :
  exists added,
    data_items (state_after (add_meter_data k t ed id now) w) = data_items w ++ added /\
    map fst added = keys_added (map fst (data_items w)) k.
Proof.
  unfold keys_added. rewrite <- dict_mem_keys.
  subst add_meter_data.
  unfold Window.add_meter_data, state_after, bind, read. cbn [fst snd].
  destruct (dict_mem k (data_items w)) eqn:Hk; cbn [negb andb].
  - exists []. split; [now rewrite app_nil_r|reflexivity].
  - unfold usable, create_meter_data.
    destruct (fs k) as [size|];
      [|exists []; split; [now rewrite app_nil_r|reflexivity]].
    destruct (detect_data_type path_suffix str_lower k) as [detected|];
      [|exists []; split; [now rewrite app_nil_r|reflexivity]].
    cbn [bind modify update_data_count read tell log fst snd data_items
         data_list_widget set_data_items set_data_list_widget].
    unfold set_data_items. cbn [data_items].
    rewrite (dict_set_fresh _ _ _ Hk). eexists. split; reflexivity.
Qed.

(** The keys a loop over the picked files appends, one file after
    another. *)
Fixpoint keys_picked (keys : list string) (file_paths : list pick) : list string :=
  match file_paths with
  | [] => []
  | p :: rest =>
      keys_added keys (picked_path p)
      ++ keys_picked (keys ++ keys_added keys (picked_path p)) rest
  end.

Lemma picked_keys (t : DataType) (file_paths : list pick) :
  forall w,
    exists added,
      data_items (state_after
                    (for_each file_paths (fun p =>
                       add_meter_data (picked_path p) t (excel_description p)
                         (image_description p) (picked_at p))) w)
      = data_items w ++ added /\
      map fst added = keys_picked (map fst (data_items w)) file_paths.
Proof.
  induction file_paths as [|p rest IH]; intro w.
  - exists []. split; [now rewrite app_nil_r|reflexivity].
  - cbn [for_each keys_picked]. rewrite state_after_bind.
    destruct (add_meter_data_keys w (picked_path p) t (excel_description p)
                (image_description p) (picked_at p)) as (a1 & E1 & K1).
    destruct (IH (state_after (add_meter_data (picked_path p) t (excel_description p)
                                 (image_description p) (picked_at p)) w))
      as (a2 & E2 & K2).
    exists (a1 ++ a2). rewrite E2, E1, <- app_assoc. split; [reflexivity|].
    rewrite map_app, K1, K2, E1, map_app, K1. reflexivity.
Qed.

Lemma mem_keys_picked (key : string) (file_paths : list pick) :
  forall keys,
    mem key (keys ++ keys_picked keys file_paths)
    = mem key keys || (mem key (map picked_path file_paths) && usable key).
Proof.
  induction file_paths as [|p rest IH]; intro keys.
  - cbn [keys_picked map]. rewrite app_nil_r. unfold mem at 3. cbn [existsb andb].
    now rewrite orb_false_r.
  - cbn [keys_picked map]. rewrite app_assoc, IH, mem_app.
    unfold keys_added.
    assert (Hhead : mem key (picked_path p :: map picked_path rest)
                    = String.eqb key (picked_path p) || mem key (map picked_path rest))
      by reflexivity.
    rewrite Hhead.
    destruct (String.eqb_spec key (picked_path p)) as [->|Hne].
    + cbn [orb]. destruct (mem (picked_path p) keys) eqn:Hm; cbn [negb andb orb];
        [reflexivity|].
      destruct (usable (picked_path p)); cbn [mem existsb orb andb].
      * unfold mem. cbn [existsb]. now rewrite String.eqb_refl.
      * unfold mem at 1. cbn [existsb orb]. now rewrite andb_false_r.
    + cbn [orb].
      assert (Hnot : mem key (if negb (mem (picked_path p) keys) && usable (picked_path p)
                              then [picked_path p] else []) = false).
      { destruct (negb _ && _); [|reflexivity]. unfold mem. cbn [existsb].
        destruct (String.eqb_spec key (picked_path p)); [contradiction|reflexivity]. }
      now rewrite Hnot, orb_false_r.
Qed.

Lemma picking_keeps_a_row_per_key (t : DataType) (file_paths : list pick)
    (w : LowerComputerWindow) :
  well_formed w ->
  well_formed (state_after
                 (for_each file_paths (fun p =>
                    add_meter_data (picked_path p) t (excel_description p)
                      (image_description p) (picked_at p))) w).
Proof.
  apply (changes_well_formed (fun _ => False)).
  apply for_each_changes. intros p w' _. subst add_meter_data.
  apply add_meter_data_changes.
Qed.

Lemma picked_state (t : DataType) (file_paths : list pick) (w : LowerComputerWindow) :
  state_after
    (match file_paths with
     | [] => ret (Py.Ok tt)
     | _ :: _ =>
         bind (for_each file_paths (fun p =>
                 add_meter_data (picked_path p) t (excel_description p)
                   (image_description p) (picked_at p)))
           (fun _ => ret (Py.Ok tt))
     end) w
  = state_after
      (for_each file_paths (fun p =>
         add_meter_data (picked_path p) t (excel_description p)
           (image_description p) (picked_at p))) w.
Proof.
  destruct file_paths as [|p rest]; [reflexivity|].
  now rewrite state_after_bind.
Qed.

(** In a window whose queue has a row per key, picking files leaves
    such a queue: the rows there were stay as they are, in front; a key
    is in the queue afterwards exactly if it was before or is the path
    of a picked file that is there and has a supported extension, a
    file picked twice being queued once.  The dialog for images queues
    the same keys as the dialog for spreadsheets.  When the folder
    cannot be written to the configuration, the exception leaves the
    method and nothing is added. *)
Theorem picked_files_are_queued_once (w : LowerComputerWindow)
    (file_paths : list pick) :
  well_formed w ->
  let w' := state_after (add_excel_files file_paths (Py.Ok tt)) w in
  well_formed w' /\
  (exists added, data_items w' = data_items w ++ added) /\
  (forall key, dict_mem key (data_items w')
               = dict_mem key (data_items w)
                 || (mem key (map picked_path file_paths) && usable key)) /\
  map fst (data_items (state_after (add_image_files file_paths (Py.Ok tt)) w))
  = map fst (data_items w') /\
  (forall e, file_paths <> [] ->
     add_excel_files file_paths (Py.Raise e) w = (Py.Raise e, w, []) /\
     add_image_files file_paths (Py.Raise e) w = (Py.Raise e, w, [])).
Proof.
  intros Hwf w'.
  assert (Hex : w' = state_after
                       (for_each file_paths (fun p =>
                          add_meter_data (picked_path p) EXCEL (excel_description p)
                            (image_description p) (picked_at p))) w)
    by apply picked_state.
  assert (Him : state_after (add_image_files file_paths (Py.Ok tt)) w
                = state_after
                    (for_each file_paths (fun p =>
                       add_meter_data (picked_path p) IMAGE (excel_description p)
                         (image_description p) (picked_at p))) w)
    by apply picked_state.
  destruct (picked_keys EXCEL file_paths w) as (ax & Ex & Kx).
  destruct (picked_keys IMAGE file_paths w) as (ai & Ei & Ki).
  rewrite Him, Hex.
  split; [now apply picking_keeps_a_row_per_key|].
  split; [now exists ax|].
  split; [|split].
  - intro key. rewrite Ex, !dict_mem_keys, map_app, Kx. apply mem_keys_picked.
  - now rewrite Ei, Ex, !map_app, Ki, Kx.
  - intros e Hne. destruct file_paths; [now destruct Hne|]. split; reflexivity.
Qed.

End Picking.

(** Five files are picked for a window that holds one row: the row's
    own file, a spreadsheet twice, a text file, and an image. *)
Definition picked_five : list pick :=
  map (fun p => {| picked_path := p; excel_description := "e1";
                   image_description := "i1"; picked_at := 7 |})
    ["/data/a.xlsx"; "/backup/a.xlsx"; "/backup/a.xlsx"; "/data/notes.txt";
     "/data/b.png"].

Definition holds_one_row : LowerComputerWindow :=
  state_after
    (Window.add_meter_data Posix.name Posix.suffix Posix.stem Posix.lower two_folders
       "/data/a.xlsx" EXCEL "e0" "i0" 1)
    sample_window.

Lemma picked_files_are_queued_once_witness :
  let w' := state_after
              (Dialogs.add_excel_files Posix.name Posix.suffix Posix.stem Posix.lower
                 two_folders picked_five (Py.Ok tt))
              holds_one_row in
  well_formed holds_one_row /\
  well_formed w' /\
  dict_mem "/backup/a.xlsx" (data_items w') = true /\
  dict_mem "/data/notes.txt" (data_items w') = false.
Proof.
  cbv zeta.
  assert (Hwf : well_formed holds_one_row).
  { split; [|vm_compute; reflexivity].
    assert (E : map fst (data_items holds_one_row) = ["/data/a.xlsx"])
      by (vm_compute; reflexivity).
    rewrite E. repeat constructor; simpl; intuition discriminate. }
  destruct (picked_files_are_queued_once Posix.name Posix.suffix Posix.stem
              Posix.lower two_folders holds_one_row picked_five Hwf)
    as (H1 & _ & H3 & _).
  split; [exact Hwf|]. split; [exact H1|].
  split; rewrite H3; vm_compute; reflexivity.
Defined.

(** ** Closing the window *)

Definition is_offline_call (e : effect) : bool :=
  match e with SetDeviceOffline _ _ _ _ => true | _ => false end.

(** [closeEvent] leaves the window as it is.  It ignores the event only
    when uploads are active and the operator declines, and then stops
    nothing; otherwise it accepts the event after a wait of 3000 for
    the pool, having stopped, twice, and joined for 3 the heartbeat
    thread the window holds, authenticated or not.  It never tells the
    server that the device is offline: that is left to the thread and
    to [quit_qt_application], which does nothing at all in a window
    that is not authenticated. *)
Theorem closing_stops_the_heartbeat_thread (str_strip : string -> string)
    (w : LowerComputerWindow) (active : Z) (reply_yes : bool)
    (set_device_offline : Py.result Py.value) :
  let closing := closeEvent active reply_yes in
  let goes_on := negb (0 <? active) || reply_yes in
  state_after closing w = w /\
  fst (fst (closing w)) = (if goes_on then Accepted 3000 else Ignored) /\
  filter is_heartbeat_control (effects_of closing w)
  = (if goes_on then
       match long_polling_thread w with
       | Some _ => [LongPollingStop; LongPollingStop; LongPollingJoin 3]
       | None => []
       end
     else []) /\
  forallb (fun e => negb (is_offline_call e)) (effects_of closing w) = true /\
  (authenticated w = false ->
   effects_of (quit_qt_application str_strip set_device_offline) w = []).
Proof.
  cbv zeta.
  unfold closeEvent, state_after, effects_of, bind, read, tell, ret. cbn [fst snd].
  split; [|split; [|split; [|split]]].
  - destruct (0 <? active); [destruct reply_yes|];
      destruct (ws_thread w), (long_polling_thread w); reflexivity.
  - destruct (0 <? active); [destruct reply_yes|];
      destruct (ws_thread w), (long_polling_thread w); reflexivity.
  - destruct (0 <? active); [destruct reply_yes|];
      destruct (ws_thread w), (long_polling_thread w); reflexivity.
  - destruct (0 <? active); [destruct reply_yes|];
      destruct (ws_thread w), (long_polling_thread w); reflexivity.
  - intro Ha. unfold quit_qt_application, bind, read, ret. cbn [fst snd].
    now rewrite Ha.
Qed.

(** ** Registering the device *)

(** How the answer of the server is read: a JSON object that has a
    message which is not null is a success; an object without one is a
    failure told in the words of its detail; anything else, or a
    request that raised, is told as the exception.  The client hands
    over the body of any answer, so the HTTP status plays no role. *)
Theorem registration_reads_the_verdict_in_the_body (self : Api.APIClient)
    (server_url device_id device_name hardware_key device_ip : string)
    (status : Z) (body : Py.result Py.value) :
  let answer :=
    snd (Api.register_device self device_id device_name hardware_key (Some device_ip)
           (Py.Ok {| Api.status_code := status; Api.json := body |})) in
  request server_url device_id device_name hardware_key device_ip answer
  = Register (Polling.rstrip_slash server_url) device_id device_name hardware_key
      device_ip
    :: match body with
       | Py.Raise e => registration_error e
       | Py.Ok (Py.VDict d) =>
           let detail := match Py.lookup "detail" d with
                         | Some v => v
                         | None => Py.VNone
                         end in
           match Py.lookup "message" d with
           | Some Py.VNone | None =>
               [Log true (RegistrationFailed detail);
                Critical (RegistrationFailed detail)]
           | Some message =>
               [Log false (Registered message); Information "设备注册成功！"]
           end
       | Py.Ok _ => registration_error Py.AttributeError
       end.
Proof.
  cbv zeta.
  assert (Hanswer : snd (Api.register_device self device_id device_name hardware_key
                           (Some device_ip)
                           (Py.Ok {| Api.status_code := status; Api.json := body |}))
                    = body).
  { unfold Api.register_device, Api.logged, Api.mbind, Api.post, Api.does, Api.lift.
    cbn [Api.json]. destruct body; reflexivity. }
  rewrite Hanswer. unfold request. f_equal.
  destruct body as [v|e]; [|reflexivity].
  destruct v; try reflexivity.
  unfold Py.get. destruct (Py.lookup "message" d) as [m|]; cbn [is_not_none].
  - destruct m; cbn [is_not_none]; try reflexivity.
    destruct (Py.lookup "detail" d); reflexivity.
  - destruct (Py.lookup "detail" d); reflexivity.
Qed.

End DialogFacts.
